(** * AutoInfra agent: file indexing and priority classification

    A shallow embedding of the file utilities ([src/utils/file-utils.ts]),
    the in-memory cache manager ([InMemoryCacheManager]), the priority
    classifier ([src/analyzers/file-priority-classifier.ts]) and the file
    indexer ([src/analyzers/file-indexer.ts]), on the default file
    utilities and on the file utilities of its caller, with the
    properties of the indexing pipeline proved over it.

    Conventions of the embedding:
    - a JavaScript string is the list of its UTF-16 code units, a code unit
      is an [N] (the bound 2^16 is never needed, so it is not imposed);
    - a JavaScript number that the code only uses as an integer (scores,
      sizes, limits) is a [Z], the whole value of a double; where the code
      adds sizes up, the sum is rounded as the sum of two doubles is, and
      where it prints a number, the digits beyond the safe integers are
      the runtime's;
    - a [Map] is a [gmap]; a plain object used as a [Record<string, T>] is
      a [gmap] or an association list of its own properties, and a lookup
      in it also finds the members that every plain object inherits from
      [Object.prototype];
    - an exception is a value of a sum type, [try]/[catch] is a [match];
    - an [async] method is the function from its arguments to the value
      its promise settles with. *)

From Stdlib Require Import ZArith NArith List Bool String Ascii Lia DecimalString.
From Stdlib Require Import Sorting.Sorted Sorting.Permutation.
From Stdlib Require QArith_base.
From stdpp Require Import gmap list.
Import ListNotations.

Local Open Scope Z_scope.

(* ===================================================================== *)
(** * JavaScript strings *)
(* ===================================================================== *)

Module JS.

(** A string is a sequence of code units. *)
Abbreviation jsstring := (list N).

(** A string literal of the source, read as code units. *)
Definition lit (s : string) : jsstring :=
  List.map N_of_ascii (list_ascii_of_string s).
Arguments lit s%_string.

Definition slash : N := 47%N.
Definition backslash : N := 92%N.
Definition dot : N := 46%N.
Definition star : N := 42%N.
Definition newline : N := 10%N.

(** The two path separators, and the text of two slashes. *)
Definition isSeparator (c : N) : bool := (c =? slash)%N || (c =? backslash)%N.
Definition doubleSlash : list N := [slash; slash].

(** [a === b] on strings. *)
Fixpoint streq (a b : jsstring) : bool :=
  match a, b with
  | [], [] => true
  | x :: a', y :: b' => (x =? y)%N && streq a' b'
  | _, _ => false
  end.

(** [s.startsWith(pat)]. *)
Fixpoint startsWith (s pat : jsstring) : bool :=
  match pat, s with
  | [], _ => true
  | p :: pat', c :: s' => (c =? p)%N && startsWith s' pat'
  | _ :: _, [] => false
  end.

(** [s.includes(pat)]: [pat] occurs at some position of [s]. *)
Fixpoint includes (s pat : jsstring) : bool :=
  startsWith s pat ||
  match s with
  | [] => false
  | _ :: s' => includes s' pat
  end.

(** [s.endsWith(pat)]. *)
Definition endsWith (s pat : jsstring) : bool :=
  startsWith (rev s) (rev pat).

(** [s.split(sep)] for a separator of one code unit; the result is
    never empty. *)
Fixpoint split (sep : N) (s : jsstring) : list jsstring :=
  match s with
  | [] => [[]]
  | c :: s' =>
      if (c =? sep)%N then [] :: split sep s'
      else match split sep s' with
           | seg :: segs => (c :: seg) :: segs
           | [] => [[c]]
           end
  end.

(** [arr.pop()] read as the last element ([undefined] is [None]). *)
Definition pop {A} (arr : list A) : option A := List.last (List.map Some arr) None.

(** [x || ''] where [x] is a string or [undefined]: the empty string is
    falsy, so it is replaced by itself. *)
Definition orEmpty (x : option jsstring) : jsstring :=
  match x with Some s => s | None => [] end.

(** [arr.includes(x)] on an array of strings. *)
Definition arrayIncludes (arr : list jsstring) (x : jsstring) : bool :=
  existsb (streq x) arr.

(** The decimal digits of an integer. *)
Definition decimal (z : Z) : jsstring :=
  lit (NilZero.string_of_int (Z.to_int z)).

(** [Number.MAX_SAFE_INTEGER]: up to it in size every integer is a
    number of its own, and sums and texts of integers are exact. *)
Definition maxSafeInteger : Z := 2 ^ 53 - 1.

Definition isSafeInteger (z : Z) : bool := Z.abs z <=? maxSafeInteger.

(** The number nearest to an integer: the integer itself below 2^53 in
    size; above, the nearest integer with 53 significant bits, the even
    one of two that are equally near (below 2^1024 in size, where the
    numbers end). *)
Definition roundToDouble (z : Z) : Z :=
  let a := Z.abs z in
  if a <? 2 ^ 53 then z
  else
    let unit := 2 ^ (Z.log2 a - 52) in
    let q := a / unit in
    let r := a mod unit in
    let q' := if (unit <? 2 * r) || ((unit =? 2 * r) && Z.odd q)
              then q + 1 else q in
    Z.sgn z * (q' * unit).

(** [a + b] on two numbers with whole values. *)
Definition numAdd (a b : Z) : Z := roundToDouble (a + b).

End JS.
Import JS.

(* ===================================================================== *)
(** * Common types ([src/types/common.ts]) *)
(* ===================================================================== *)

Inductive FileType :=
  | package | config | source | test | documentation | asset | build | schema.

Inductive ImportanceCategory := critical | important | normal | ignore.

Inductive ErrorCategory :=
  | analysis | generation | validation | integration | recommendation.

Record ImportanceScore := {
  score : Z;
  reasons : list jsstring;
  category : ImportanceCategory
}.

Definition FileType_eqb (a b : FileType) : bool :=
  match a, b with
  | package, package | config, config | source, source | test, test
  | documentation, documentation | asset, asset | build, build
  | schema, schema => true
  | _, _ => false
  end.

(* ===================================================================== *)
(** * Property lookup on plain objects *)
(* ===================================================================== *)

(** The names of the members that a plain object inherits from
    [Object.prototype]. *)
Definition objectPrototypeMembers : list jsstring :=
  [ lit "constructor"; lit "__defineGetter__"; lit "__defineSetter__";
    lit "hasOwnProperty"; lit "__lookupGetter__"; lit "__lookupSetter__";
    lit "isPrototypeOf"; lit "propertyIsEnumerable"; lit "toString";
    lit "valueOf"; lit "__proto__"; lit "toLocaleString" ].

Definition isObjectPrototypeMember (key : jsstring) : bool :=
  arrayIncludes objectPrototypeMembers key.

(** What [object[key]] answers on a plain object: the own property, else
    the inherited member of that name (a function, or [Object.prototype]
    itself for [__proto__]; truthy in every case), else [undefined]. *)
Inductive Property (A : Type) :=
  | Own (a : A)
  | Inherited (member : jsstring)
  | Undefined.
Arguments Own {A} a.
Arguments Inherited {A} member.
Arguments Undefined {A}.

(** [object[key]], given the own property of that name if there is
    one. *)
Definition getProperty {A : Type} (own : option A) (key : jsstring)
  : Property A :=
  match own with
  | Some a => Own a
  | None => if isObjectPrototypeMember key then Inherited key else Undefined
  end.

(** The [type] of an index entry: a file type, or the inherited member
    that a lookup in the custom rules has answered. *)
Inductive TypeValue :=
  | TypeOf (t : FileType)
  | InheritedValue (member : jsstring).
Coercion TypeOf : FileType >-> TypeValue.

(** [value === type] for a file type [type]. *)
Definition isType (value : TypeValue) (type : FileType) : bool :=
  match value with
  | TypeOf t => FileType_eqb t type
  | InheritedValue _ => false
  end.

Definition TypeValue_eqb (a b : TypeValue) : bool :=
  match a, b with
  | TypeOf s, TypeOf t => FileType_eqb s t
  | InheritedValue m, InheritedValue n => streq m n
  | _, _ => false
  end.

(* ===================================================================== *)
(** * The host runtime *)
(* ===================================================================== *)

(** What the code takes from the JavaScript runtime and the embedding does
    not spell out: the Unicode case mapping, the regular-expression
    engine, the clock, the floating-point arithmetic behind [Math.round]
    and the text of a number beyond the safe integers.  Every result
    below holds for any such runtime.

    A regular expression is named by its source text. *)
Class Host := {
  (** [s.toLowerCase()] *)
  toLowerCase : jsstring -> jsstring;
  (** [re.test(s)] for a regular expression without the [g] flag *)
  regexpTest : jsstring -> jsstring -> bool;
  (** the number of matches of [s.match(re)] for a [g] regular expression
      ([0] when the result is [null]) *)
  regexpMatchCount : jsstring -> jsstring -> nat;
  (** [new RegExp(src)]: the message of the [SyntaxError] when [src] is
      not a regular expression *)
  regexpSyntaxError : jsstring -> option jsstring;
  (** the successive readings of the clock, in milliseconds *)
  clock : nat -> Z;
  (** the text of a number with a whole value beyond the safe integers,
      as a template literal prints it: the shortest digits that read
      back as the number, in exponent form from 10^21 *)
  numberText : Z -> jsstring;
  (** floating-point numbers *)
  Float : Type;
  floatOfZ : Z -> Float;
  floatTenth : Float;
  floatAdd : Float -> Float -> Float;
  floatMul : Float -> Float -> Float;
  mathRound : Float -> Z
}.

(** A number with a whole value in a template literal. *)
Definition showZ `{Host} (z : Z) : jsstring :=
  if isSafeInteger z then decimal z else numberText z.

(** Thrown values: all of them are [Error] objects, of which the handlers
    read the [message].  Of an [InfrastructureError] the fields [name] and
    [fallbackOptions] (empty on every path here) are left out. *)
Record InfrastructureError := {
  code : jsstring;
  message : jsstring;
  errCategory : ErrorCategory;
  recoverable : bool;
  suggestions : list jsstring;
  (** [partialResults], when given, is the object
      [{processedFiles, totalFiles, processingTimeMs}] *)
  partialResults : option (Z * Z * Z)
}.

Inductive Thrown :=
  | SyntaxError (msg : jsstring)
  | Infra (e : InfrastructureError).

Definition thrownMessage (t : Thrown) : jsstring :=
  match t with
  | SyntaxError msg => msg
  | Infra e => message e
  end.

Inductive Result (A : Type) :=
  | Ok (a : A)
  | Throw (t : Thrown).
Arguments Ok {A} a.
Arguments Throw {A} t.

(** [src/utils/error-handler.ts] *)
Module ErrorCodes.
Definition FILE_INDEXING_FAILED : jsstring := lit "FILE_INDEXING_FAILED".
End ErrorCodes.

Module ErrorFactory.
(** The defaults of the optional parameters are [recoverable = false],
    [suggestions = []] and no [partialResults]. *)
Definition createAnalysisError (code' message' : jsstring) (recoverable' : bool)
    (suggestions' : list jsstring) (partialResults' : option (Z * Z * Z))
  : InfrastructureError :=
  {| code := code'; message := message'; errCategory := analysis;
     recoverable := recoverable'; suggestions := suggestions';
     partialResults := partialResults' |}.
End ErrorFactory.

(* ===================================================================== *)
(** * File utilities ([src/utils/file-utils.ts]) *)
(* ===================================================================== *)

Module DefaultFileUtils.

(** The entries of [configFilePatterns] are regular-expression literals
    of two shapes only, a literal text to be found anywhere and a
    literal text (or an alternative of texts) anchored at the end; the
    code also accepts a plain string, which must equal the file name. *)
Inductive FilePattern :=
  | PString (s : jsstring)           (* 'text': fileName === pattern *)
  | PContains (s : jsstring)         (* /text/ *)
  | PSuffix (alts : list jsstring).  (* /(a|b|c)$/ *)

(** [typeof pattern === 'string' ? fileName === pattern
                                 : pattern.test(fileName)] *)
Definition patternMatches (fileName : jsstring) (p : FilePattern) : bool :=
  match p with
  | PString s => streq fileName s
  | PContains s => includes fileName s
  | PSuffix alts => existsb (endsWith fileName) alts
  end.

Definition packageFilePatterns : list jsstring :=
  [ lit "package.json"; lit "requirements.txt"; lit "pom.xml";
    lit "build.gradle"; lit "Cargo.toml"; lit "go.mod";
    lit "composer.json"; lit "Gemfile" ].

Definition configFilePatterns : list FilePattern :=
  [ PSuffix [lit ".config.js"; lit ".config.ts"; lit ".config.json"];
    PContains (lit "webpack.config.");
    PContains (lit "vite.config.");
    PContains (lit "rollup.config.");
    PContains (lit "babel.config.");
    PContains (lit "jest.config.");
    PContains (lit "vitest.config.");
    PSuffix [lit "tsconfig.json"];
    PContains (lit ".eslintrc.");
    PContains (lit ".prettierrc");
    PContains (lit "docker-compose.");
    PContains (lit "Dockerfile");
    PContains (lit ".env");
    PSuffix [lit ".yml"];
    PSuffix [lit ".yaml"] ].

Definition entryPointPatterns : list jsstring :=
  [ lit "index.js"; lit "index.ts"; lit "main.js"; lit "main.ts";
    lit "app.js"; lit "app.ts"; lit "server.js"; lit "server.ts";
    lit "main.py"; lit "app.py"; lit "__main__.py"; lit "Main.java";
    lit "Program.cs"; lit "main.go" ].

(** [path.split('/').pop() || ''] *)
Definition fileNameOf (path : jsstring) : jsstring :=
  orEmpty (pop (split slash path)).

Definition isConfigPattern (fileName : jsstring) : bool :=
  existsb (patternMatches fileName) configFilePatterns.

Definition getFileType (path : jsstring) (content : option jsstring) : FileType :=
  let fileName := fileNameOf path in
  if arrayIncludes packageFilePatterns fileName then package
  else if isConfigPattern fileName then config
  else if arrayIncludes entryPointPatterns fileName then source
  else if includes fileName (lit ".test.")
          || includes fileName (lit ".spec.")
          || includes path (lit "/test/")
          || includes path (lit "/__tests__/") then test
  else if endsWith fileName (lit ".md")
          || endsWith fileName (lit ".txt")
          || endsWith fileName (lit ".rst") then documentation
  else if existsb (endsWith fileName)
            [ lit ".png"; lit ".jpg"; lit ".jpeg"; lit ".gif"; lit ".svg";
              lit ".ico"; lit ".woff"; lit ".woff2"; lit ".ttf"; lit ".eot" ]
       then asset
  else if existsb (endsWith fileName)
            [ lit ".js"; lit ".ts"; lit ".py"; lit ".java"; lit ".go";
              lit ".rs"; lit ".cs"; lit ".php"; lit ".rb"; lit ".cpp";
              lit ".c"; lit ".h" ]
       then source
  else if existsb (endsWith fileName)
            [ lit ".json"; lit ".xml"; lit ".yml"; lit ".yaml";
              lit ".toml"; lit ".ini" ]
       then config
  else source.

(** The running pair [(score, reasons)] of the scorer. *)
Definition Tally : Type := Z * list jsstring.

(** [if (cond) { score += n; reasons.push(why) }] *)
Definition bonus (cond : bool) (n : Z) (why : jsstring) (t : Tally) : Tally :=
  if cond then (fst t + n, snd t ++ [why]) else t.

(** [if (cond) { score = Math.max(score - 20, 10); reasons.push(why) }] *)
Definition testPenalty (cond : bool) (why : jsstring) (t : Tally) : Tally :=
  if cond then (Z.max (fst t - 20) 10, snd t ++ [why]) else t.

Definition categoryOfScore (s : Z) : ImportanceCategory :=
  if s >=? 80 then critical
  else if s >=? 50 then important
  else if s >=? 20 then normal
  else ignore.

Definition tally (path : jsstring) : Tally :=
  let fileName := fileNameOf path in
  let t : Tally := (0, []) in
  let t := bonus (arrayIncludes packageFilePatterns fileName) 100
             (lit "Package/dependency file") t in
  let t := bonus (arrayIncludes entryPointPatterns fileName) 80
             (lit "Application entry point") t in
  let t := bonus (isConfigPattern fileName) 60
             (lit "Configuration file") t in
  let t := bonus (includes fileName (lit "Dockerfile")
                  || includes fileName (lit "docker-compose")
                  || includes fileName (lit ".github")
                  || includes fileName (lit ".gitlab-ci")) 70
             (lit "Infrastructure configuration") t in
  let t := bonus (includes fileName (lit "schema")
                  || includes fileName (lit "openapi")
                  || includes fileName (lit "swagger")) 50
             (lit "API schema definition") t in
  let t := bonus (FileType_eqb (getFileType path None) source) 30
             (lit "Source code file") t in
  testPenalty (FileType_eqb (getFileType path None) test)
    (lit "Test file (lower priority)") t.

Definition calculateImportanceScore
    (path : jsstring) (content : option jsstring) : ImportanceScore :=
  let t := tally path in
  {| score := fst t; reasons := snd t; category := categoryOfScore (fst t) |}.

Definition ignorePaths : list jsstring :=
  [ lit "node_modules/"; lit ".git/"; lit "dist/"; lit "build/";
    lit "target/"; lit ".next/"; lit ".nuxt/"; lit "coverage/";
    lit ".nyc_output/"; lit "__pycache__/"; lit "*.pyc"; lit ".DS_Store";
    lit "Thumbs.db" ].

Definition ignoreMatches (path pattern : jsstring) : bool :=
  if endsWith pattern [slash] then includes path pattern
  else if startsWith pattern [star] then endsWith path (List.tl pattern)
  else includes path pattern.

Definition shouldIgnoreFile (path : jsstring) : bool :=
  existsb (ignoreMatches path) ignorePaths.

(** [path.replace(/\\/g, '/')]: every backslash becomes a slash. *)
Definition replaceBackslashes (s : jsstring) : jsstring :=
  List.map (fun c => if (c =? backslash)%N then slash else c) s.

(** [s.replace(/\/+/g, '/')]: every maximal run of slashes becomes one
    slash.  A slash is dropped when the next code unit is a slash too,
    so one slash of each run, its last, is kept. *)
Fixpoint collapseSlashes (s : jsstring) : jsstring :=
  match s with
  | [] => []
  | c :: t =>
      match t with
      | d :: _ =>
          if (c =? slash)%N && (d =? slash)%N then collapseSlashes t
          else c :: collapseSlashes t
      | [] => [c]
      end
  end.

Definition normalizePath (path : jsstring) : jsstring :=
  collapseSlashes (replaceBackslashes path).

Definition languageMap : list (jsstring * jsstring) :=
  [ (lit "js", lit "javascript"); (lit "ts", lit "typescript");
    (lit "py", lit "python"); (lit "java", lit "java"); (lit "go", lit "go");
    (lit "rs", lit "rust"); (lit "cs", lit "csharp"); (lit "php", lit "php");
    (lit "rb", lit "ruby"); (lit "cpp", lit "cpp"); (lit "c", lit "c");
    (lit "h", lit "c"); (lit "hpp", lit "cpp"); (lit "kt", lit "kotlin");
    (lit "scala", lit "scala"); (lit "clj", lit "clojure");
    (lit "hs", lit "haskell"); (lit "elm", lit "elm"); (lit "dart", lit "dart");
    (lit "swift", lit "swift") ].

(** The own property [key] of an object literal. *)
Fixpoint lookupKey {A} (record : list (jsstring * A)) (key : jsstring) : option A :=
  match record with
  | [] => None
  | (k, v) :: rest => if streq key k then Some v else lookupKey rest key
  end.

(** [path.split('.').pop()?.toLowerCase()], then
    [extension ? languageMap[extension] : undefined]. *)
Definition getLanguageFromPath `{Host} (path : jsstring) : Property jsstring :=
  match option_map toLowerCase (pop (split dot path)) with
  | Some ((_ :: _) as extension) =>
      getProperty (lookupKey languageMap extension) extension
  | _ => Undefined
  end.

End DefaultFileUtils.

(** Modelled from the spec: the normal form of a path in the words of
    the specification, "replaces each backslash with a forward slash and
    collapses every run of consecutive slashes into one".  A path is
    read from the front; [inRun] tells whether the code unit before was
    a separator, and each run of separators gives one slash, where it
    begins. *)
Module NormalizePathSpec.

Fixpoint collapseRuns (inRun : bool) (p : jsstring) : jsstring :=
  match p with
  | [] => []
  | c :: rest =>
      if isSeparator c
      then if inRun then collapseRuns true rest
           else slash :: collapseRuns true rest
      else c :: collapseRuns false rest
  end.

Definition normalizePath (p : jsstring) : jsstring := collapseRuns false p.

End NormalizePathSpec.

(* ===================================================================== *)
(** * In-memory cache manager ([InMemoryCacheManager]) *)
(* ===================================================================== *)

(** The time value of a [Date]: a whole number of milliseconds, or [NaN]
    for an Invalid Date. *)
Inductive TimeValue := NaN | Millis (ms : Z).

Record Date := { getTime : TimeValue }.

(** [a === b] on two time values: [NaN] is not equal to itself. *)
Definition timeStrictEq (a b : TimeValue) : bool :=
  match a, b with
  | Millis x, Millis y => x =? y
  | _, _ => false
  end.

Module InMemoryCacheManager.
Section Cache.
Context {AST AnalysisResult : Type}.

Record AstEntry := {
  ast : AST;
  lastModified : Date;
  astTimestamp : Z
}.

Record AnalysisEntry := {
  result : AnalysisResult;
  timestamp : Z
}.

(** The fields of the manager; [stats] is spread into its two
    counters. *)
Record State := {
  astCache : gmap jsstring AstEntry;
  analysisCache : gmap jsstring AnalysisEntry;
  totalRequests : Z;
  totalHits : Z
}.

Definition empty : State :=
  {| astCache := ∅; analysisCache := ∅; totalRequests := 0; totalHits := 0 |}.

Definition getCachedAST (st : State) (filePath : jsstring) (lastModified' : Date)
  : State * option AST :=
  let st1 := {| astCache := astCache st; analysisCache := analysisCache st;
                totalRequests := totalRequests st + 1;
                totalHits := totalHits st |} in
  match astCache st !! filePath with
  | Some cached =>
      if timeStrictEq (getTime (lastModified cached)) (getTime lastModified')
      then ({| astCache := astCache st1; analysisCache := analysisCache st1;
               totalRequests := totalRequests st1;
               totalHits := totalHits st1 + 1 |}, Some (ast cached))
      else (st1, None)
  | None => (st1, None)
  end.

(** [now] is the reading of the clock taken by [new Date()]. *)
Definition setCachedAST (st : State) (now : Z)
    (filePath : jsstring) (a : AST) (lastModified' : Date) : State :=
  {| astCache := <[filePath := {| ast := a; lastModified := lastModified';
                                  astTimestamp := now |}]> (astCache st);
     analysisCache := analysisCache st;
     totalRequests := totalRequests st;
     totalHits := totalHits st |}.

Definition maxAge : Z := 60 * 60 * 1000.

(** [now] is the reading of the clock taken by [Date.now()]. *)
Definition getCachedAnalysis (st : State) (now : Z) (codebaseHash : jsstring)
  : State * option AnalysisResult :=
  let st1 := {| astCache := astCache st; analysisCache := analysisCache st;
                totalRequests := totalRequests st + 1;
                totalHits := totalHits st |} in
  match analysisCache st !! codebaseHash with
  | Some cached =>
      if now - timestamp cached <? maxAge
      then ({| astCache := astCache st1; analysisCache := analysisCache st1;
               totalRequests := totalRequests st1;
               totalHits := totalHits st1 + 1 |}, Some (result cached))
      else ({| astCache := astCache st1;
               analysisCache := delete codebaseHash (analysisCache st1);
               totalRequests := totalRequests st1;
               totalHits := totalHits st1 |}, None)
  | None => (st1, None)
  end.

Definition setCachedAnalysis (st : State) (now : Z)
    (codebaseHash : jsstring) (r : AnalysisResult) : State :=
  {| astCache := astCache st;
     analysisCache := <[codebaseHash := {| result := r; timestamp := now |}]>
                        (analysisCache st);
     totalRequests := totalRequests st;
     totalHits := totalHits st |}.

Definition invalidateCache (st : State) (changedFiles : list jsstring) : State :=
  {| astCache := fold_left (fun m filePath => delete filePath m)
                   changedFiles (astCache st);
     analysisCache := match changedFiles with
                      | [] => analysisCache st
                      | _ :: _ => ∅
                      end;
     totalRequests := totalRequests st;
     totalHits := totalHits st |}.

Definition clearCache (st : State) : State := empty.

End Cache.
Arguments State : clear implicits.
Arguments AstEntry : clear implicits.
Arguments AnalysisEntry : clear implicits.
End InMemoryCacheManager.

(* ===================================================================== *)
(** * Priority classifier ([src/analyzers/file-priority-classifier.ts]) *)
(* ===================================================================== *)

(** A value used as a condition: a string is truthy unless it is empty or
    [undefined]. *)
Definition truthy (content : option jsstring) : bool :=
  match content with
  | Some (_ :: _) => true
  | _ => false
  end.

Definition dquote : N := 34%N.

Module FilePriorityClassifier.

Inductive ProjectType :=
  | web_app | api_service | library | cli_tool
  | mobile_app | desktop_app | microservice | monorepo.

(** [pattern: string | RegExp]; a [RegExp] is named by its source. *)
Inductive RulePattern :=
  | RuleString (s : jsstring)
  | RuleRegExp (src : jsstring).

Record PriorityScoringRule := {
  pattern : RulePattern;
  scoreAdjustment : Z;
  reason : jsstring;
  ruleCategory : option ImportanceCategory
}.

Record PriorityClassifierOptions := {
  customScoringRules : list PriorityScoringRule;
  projectType : ProjectType;
  primaryLanguage : jsstring;
  framework : jsstring;
  enableContentAnalysis : bool
}.

(** The options of [new FilePriorityClassifier()]. *)
Definition defaultOptions : PriorityClassifierOptions :=
  {| customScoringRules := [];
     projectType := web_app;
     primaryLanguage := lit "javascript";
     framework := [];
     enableContentAnalysis := true |}.

Inductive ArchitecturalRole :=
  | core_business_logic | data_access | api_interface | configuration
  | infrastructure | testing | documentation_role | build_system
  | deployment | monitoring | security | utility | unknown.

Record FileCharacteristics := {
  isEntryPoint : bool;
  isConfiguration : bool;
  isPackageDefinition : bool;
  isSchema : bool;
  isInfrastructure : bool;
  isTest : bool;
  isDocumentation : bool;
  isGenerated : bool;
  hasComplexLogic : bool;
  hasExternalDependencies : bool;
  isPublicInterface : bool;
  architecturalRole : ArchitecturalRole
}.

Inductive RecommendationType :=
  | rec_analysis | rec_generation | rec_monitoring | rec_security.
Inductive RecommendationPriority := high | medium | low.

Record ClassificationRecommendation := {
  recType : RecommendationType;
  recPriority : RecommendationPriority;
  description : jsstring;
  action : jsstring
}.

Record FileClassification := {
  importance : ImportanceScore;
  characteristics : FileCharacteristics;
  recommendations : list ClassificationRecommendation
}.

Section Classifier.
Context `{H : Host}.
Variable options : PriorityClassifierOptions.

(** ** Predicates on the file name and the path *)

Definition entryPoints : list jsstring :=
  [ lit "index.js"; lit "index.ts"; lit "main.js"; lit "main.ts";
    lit "app.js"; lit "app.ts"; lit "server.js"; lit "server.ts";
    lit "main.py"; lit "app.py"; lit "__main__.py"; lit "Main.java";
    lit "Program.cs"; lit "main.go"; lit "lib.rs"; lit "main.rs" ].

Definition isEntryPointP (fileName path : jsstring) : bool :=
  arrayIncludes entryPoints fileName
  || endsWith fileName (lit "Application.java").

Definition configPatterns : list DefaultFileUtils.FilePattern :=
  let PContains := DefaultFileUtils.PContains in
  let PSuffix := DefaultFileUtils.PSuffix in
  [ PSuffix [lit ".config.js"; lit ".config.ts"; lit ".config.json"];
    PContains (lit "webpack.config.");
    PContains (lit "vite.config.");
    PContains (lit "rollup.config.");
    PContains (lit "babel.config.");
    PContains (lit "jest.config.");
    PContains (lit "vitest.config.");
    PSuffix [lit "tsconfig.json"];
    PContains (lit ".eslintrc.");
    PContains (lit ".prettierrc");
    PContains (lit ".env");
    PSuffix [lit ".yml"];
    PSuffix [lit ".yaml"];
    PSuffix [lit ".toml"];
    PSuffix [lit ".ini"] ].

Definition isConfigurationP (fileName path : jsstring) (type : option FileType) : bool :=
  match type with
  | Some config => true
  | _ => existsb (DefaultFileUtils.patternMatches fileName) configPatterns
  end.

Definition packageFiles : list jsstring :=
  [ lit "package.json"; lit "requirements.txt"; lit "pom.xml";
    lit "build.gradle"; lit "Cargo.toml"; lit "go.mod";
    lit "composer.json"; lit "Gemfile"; lit "setup.py";
    lit "pyproject.toml"; lit "Package.swift"; lit "pubspec.yaml" ].

Definition isPackageDefinitionP (fileName : jsstring) : bool :=
  arrayIncludes packageFiles fileName.

Definition isSchemaP (fileName path : jsstring) : bool :=
  includes fileName (lit "schema")
  || includes fileName (lit "openapi")
  || includes fileName (lit "swagger")
  || includes path (lit "/schema/")
  || endsWith fileName (lit ".graphql")
  || endsWith fileName (lit ".proto")
  || endsWith fileName (lit ".avsc").

Definition isInfrastructureP (fileName path : jsstring) : bool :=
  includes fileName (lit "Dockerfile")
  || includes fileName (lit "docker-compose")
  || streq fileName (lit ".dockerignore")
  || includes path (lit "docker/")
  || includes path (lit ".github/")
  || includes fileName (lit ".gitlab-ci")
  || includes fileName (lit "jenkins")
  || includes fileName (lit "terraform")
  || includes fileName (lit "ansible").

Definition isTestP (fileName path : jsstring) : bool :=
  includes fileName (lit ".test.")
  || includes fileName (lit ".spec.")
  || includes path (lit "/test/")
  || includes path (lit "/__tests__/")
  || includes path (lit "/tests/")
  || endsWith fileName (lit "Test.java")
  || endsWith fileName (lit "_test.go").

Definition isDocumentationP (fileName path : jsstring) (type : option FileType) : bool :=
  match type with
  | Some documentation => true
  | _ =>
      endsWith fileName (lit ".md")
      || endsWith fileName (lit ".txt")
      || endsWith fileName (lit ".rst")
      || endsWith fileName (lit ".adoc")
      || includes path (lit "/docs/")
  end.

Definition generatedMarkers : list jsstring :=
  [ lit "This file was automatically generated"; lit "DO NOT EDIT";
    lit "Auto-generated"; lit "@generated"; lit "Code generated by" ].

Definition isGeneratedP (fileName path : jsstring) (content : option jsstring) : bool :=
  if includes fileName (lit ".generated.")
     || includes fileName (lit ".gen.")
     || includes path (lit "/generated/")
     || includes path (lit "/.next/")
     || includes path (lit "/dist/")
     || includes path (lit "/build/")
  then true
  else match content with
       | Some ((_ :: _) as c) => existsb (includes c) generatedMarkers
       | _ => false
       end.

(** ** Predicates on the content (regular expressions of the host) *)

Definition complexityIndicators : list jsstring :=
  [ lit "class\s+\w+"; lit "function\s+\w+"; lit "def\s+\w+";
    lit "if\s*\("; lit "for\s*\("; lit "while\s*\("; lit "switch\s*\(";
    lit "try\s*{" ].

Definition hasComplexLogicP (content : option jsstring) : bool :=
  match content with
  | Some ((_ :: _) as c) =>
      let totalMatches :=
        fold_left (fun n re => (n + regexpMatchCount re c)%nat)
          complexityIndicators 0%nat in
      (10 <? totalMatches)%nat
  | _ => false
  end.

Definition dependencyPatterns : list jsstring :=
  [ lit "import\s+.*from\s+['" ++ [dquote] ++ lit "][^.]";
    lit "require\s*\(\s*['" ++ [dquote] ++ lit "][^.]";
    lit "from\s+\w+\s+import";
    lit "#include\s*<\w+>" ].

Definition hasExternalDependenciesP (content : option jsstring) : bool :=
  match content with
  | Some ((_ :: _) as c) => existsb (fun re => regexpTest re c) dependencyPatterns
  | _ => false
  end.

Definition exportPatterns : list jsstring :=
  [ lit "export\s+(class|function|interface|type)";
    lit "module\.exports";
    lit "public\s+(class|interface)";
    lit "__all__\s*=" ].

Definition isPublicInterfaceP (fileName path : jsstring) (content : option jsstring) : bool :=
  if includes fileName (lit "api")
     || includes fileName (lit "interface")
     || includes fileName (lit "public")
     || includes path (lit "/api/")
     || includes path (lit "/public/")
  then true
  else match content with
       | Some ((_ :: _) as c) => existsb (fun re => regexpTest re c) exportPatterns
       | _ => false
       end.

Definition determineArchitecturalRole
    (fileName path : jsstring) (content : option jsstring) (type : option FileType)
  : ArchitecturalRole :=
  if isInfrastructureP fileName path then infrastructure
  else if includes fileName (lit "deploy") || includes path (lit "/deploy/")
  then deployment
  else if includes fileName (lit "build") || includes fileName (lit "webpack")
          || includes fileName (lit "rollup")
  then build_system
  else if isConfigurationP fileName path type then configuration
  else if isTestP fileName path then testing
  else if isDocumentationP fileName path type then documentation_role
  else if includes fileName (lit "api") || includes path (lit "/api/")
          || isSchemaP fileName path
  then api_interface
  else if includes fileName (lit "model") || includes fileName (lit "repository")
          || includes fileName (lit "dao") || includes path (lit "/models/")
          || includes path (lit "/data/")
  then data_access
  else if includes fileName (lit "auth") || includes fileName (lit "security")
          || includes fileName (lit "crypto")
  then security
  else if includes fileName (lit "log") || includes fileName (lit "monitor")
          || includes fileName (lit "metric")
  then monitoring
  else if includes fileName (lit "util") || includes fileName (lit "helper")
          || includes path (lit "/utils/")
  then utility
  else match type with
       | Some source =>
           if negb (isTestP fileName path) then core_business_logic else unknown
       | _ => unknown
       end.

Definition analyzeFileCharacteristics
    (path : jsstring) (content : option jsstring) (type : option FileType)
  : FileCharacteristics :=
  let fileName := DefaultFileUtils.fileNameOf path in
  {| isEntryPoint := isEntryPointP fileName path;
     isConfiguration := isConfigurationP fileName path type;
     isPackageDefinition := isPackageDefinitionP fileName;
     isSchema := isSchemaP fileName path;
     isInfrastructure := isInfrastructureP fileName path;
     isTest := isTestP fileName path;
     isDocumentation := isDocumentationP fileName path type;
     isGenerated := isGeneratedP fileName path content;
     hasComplexLogic := hasComplexLogicP content;
     hasExternalDependencies := hasExternalDependenciesP content;
     isPublicInterface := isPublicInterfaceP fileName path content;
     architecturalRole := determineArchitecturalRole fileName path content type |}.

(** ** Scoring *)

(** [if (cond) x += n] *)
Definition addIf (cond : bool) (n : Z) (x : Z) : Z :=
  if cond then x + n else x.

Definition roleScore (r : ArchitecturalRole) : Z :=
  match r with
  | core_business_logic => 80
  | api_interface => 75
  | data_access => 65
  | security => 70
  | configuration => 60
  | infrastructure => 55
  | build_system => 50
  | deployment => 45
  | monitoring => 40
  | utility => 35
  | testing => 25
  | documentation_role => 20
  | unknown => 30
  end.

Definition sourceExtensions : list jsstring :=
  [ lit "js"; lit "ts"; lit "py"; lit "java"; lit "go"; lit "rs";
    lit "cs"; lit "php"; lit "rb" ].

Definition calculateBaseScore
    (path fileName extension : jsstring) (c : FileCharacteristics) : Z :=
  let score := 0 in
  let score := addIf (isPackageDefinition c) 100 score in
  let score := addIf (isEntryPoint c) 90 score in
  let score := addIf (isConfiguration c) 50 score in
  let score := addIf (isSchema c) 55 score in
  let score := addIf (isInfrastructure c) 50 score in
  let score := addIf (isPublicInterface c) 45 score in
  let score := score + roleScore (architecturalRole c) in
  let score := addIf (arrayIncludes sourceExtensions extension) 30 score in
  let score := addIf (isTest c) (-15) score in
  let score := addIf (isGenerated c) (-20) score in
  addIf (isDocumentation c && negb (isSchema c)) (-10) score.

Definition isRole (c : FileCharacteristics) (r : ArchitecturalRole) : bool :=
  match architecturalRole c, r with
  | core_business_logic, core_business_logic | data_access, data_access
  | api_interface, api_interface | configuration, configuration
  | infrastructure, infrastructure | testing, testing
  | documentation_role, documentation_role | build_system, build_system
  | deployment, deployment | monitoring, monitoring | security, security
  | utility, utility | unknown, unknown => true
  | _, _ => false
  end.

Definition getProjectTypeAdjustment (c : FileCharacteristics) : Z :=
  let adjustment := 0 in
  match projectType options with
  | api_service =>
      addIf (isSchema c) 15 (addIf (isRole c api_interface) 20 adjustment)
  | library =>
      addIf (isDocumentation c) 10 (addIf (isPublicInterface c) 25 adjustment)
  | cli_tool =>
      addIf (isConfiguration c) 10 (addIf (isEntryPoint c) 15 adjustment)
  | microservice =>
      addIf (isRole c monitoring) 10 (addIf (isInfrastructure c) 15 adjustment)
  | monorepo =>
      addIf (isRole c build_system) 15 (addIf (isPackageDefinition c) 10 adjustment)
  | web_app | mobile_app | desktop_app => adjustment
  end.

Definition languageAdjustment (fileName : jsstring) (adjustment : Z) : Z :=
  let lang := primaryLanguage options in
  if streq lang (lit "typescript") then
    addIf (streq fileName (lit "tsconfig.json")) 10
      (addIf (endsWith fileName (lit ".d.ts")) 15 adjustment)
  else if streq lang (lit "python") then
    addIf (streq fileName (lit "setup.py") || streq fileName (lit "pyproject.toml")) 10
      (addIf (streq fileName (lit "__init__.py")) 15 adjustment)
  else if streq lang (lit "java") then
    addIf (streq fileName (lit "pom.xml") || streq fileName (lit "build.gradle")) 10
      (addIf (endsWith fileName (lit "Application.java")) 15 adjustment)
  else if streq lang (lit "go") then
    addIf (streq fileName (lit "go.mod")) 10
      (addIf (streq fileName (lit "main.go")) 15 adjustment)
  else adjustment.

Definition frameworkAdjustment (fileName : jsstring) (adjustment : Z) : Z :=
  match framework options with
  | [] => adjustment
  | _ :: _ =>
      let fw := toLowerCase (framework options) in
      if streq fw (lit "react") then
        addIf (includes fileName (lit "App.") || includes fileName (lit "index."))
          10 adjustment
      else if streq fw (lit "express") then
        addIf (includes fileName (lit "server.") || includes fileName (lit "app."))
          10 adjustment
      else if streq fw (lit "spring") then
        addIf (includes fileName (lit "application.properties")
               || includes fileName (lit "application.yml")) 10
          (addIf (includes fileName (lit "Application.java")) 15 adjustment)
      else if streq fw (lit "django") then
        addIf (streq fileName (lit "settings.py") || streq fileName (lit "urls.py"))
          10 adjustment
      else adjustment
  end.

Definition getLanguageFrameworkAdjustment
    (path : jsstring) (content : option jsstring) : Z :=
  let fileName := DefaultFileUtils.fileNameOf path in
  frameworkAdjustment fileName (languageAdjustment fileName 0).

Definition ruleMatches (path : jsstring) (rule : PriorityScoringRule) : bool :=
  match pattern rule with
  | RuleString s => includes path s
  | RuleRegExp src => regexpTest src path
  end.

Definition applyCustomScoringRules
    (path : jsstring) (content : option jsstring) : Z :=
  fold_left
    (fun adjustment rule =>
       addIf (ruleMatches path rule) (scoreAdjustment rule) adjustment)
    (customScoringRules options) 0.

Definition analyzeContentComplexity (content extension : jsstring) : Z :=
  let lineCount := length (split newline content) in
  let complexity :=
    if (500 <? lineCount)%nat then 15
    else if (200 <? lineCount)%nat then 10
    else if (100 <? lineCount)%nat then 5
    else 0 in
  let complexity :=
    if arrayIncludes [ lit "js"; lit "ts"; lit "py"; lit "java"; lit "go";
                       lit "rs"; lit "cs" ] extension
    then
      let functionMatches :=
        regexpMatchCount
          (lit "(function|def|func|fn|public|private|protected)\s+\w+") content in
      let complexity :=
        if (20 <? functionMatches)%nat then complexity + 10
        else if (10 <? functionMatches)%nat then complexity + 5
        else complexity in
      let classMatches :=
        regexpMatchCount (lit "(class|interface|struct|enum)\s+\w+") content in
      let complexity :=
        if (5 <? classMatches)%nat then complexity + 10
        else if (2 <? classMatches)%nat then complexity + 5
        else complexity in
      let importMatches :=
        regexpMatchCount (lit "(import|require|from|#include|use)\s+") content in
      if (20 <? importMatches)%nat then complexity + 5 else complexity
    else complexity in
  Z.min complexity 25.

(** [if (cond) reasons.push(why)] *)
Definition pushIf (cond : bool) (why : jsstring) (reasons : list jsstring)
  : list jsstring :=
  if cond then reasons ++ [why] else reasons.

Definition categoryOfScore (score : Z) : ImportanceCategory :=
  if score >=? 100 then critical
  else if score >=? 60 then important
  else if score >=? 20 then normal
  else ignore.

Definition determineCategory (score : Z) (c : FileCharacteristics)
  : ImportanceCategory * list jsstring :=
  let reasons := [] in
  let reasons := pushIf (isPackageDefinition c) (lit "Package/dependency definition") reasons in
  let reasons := pushIf (isEntryPoint c) (lit "Application entry point") reasons in
  let reasons := pushIf (isConfiguration c) (lit "Configuration file") reasons in
  let reasons := pushIf (isSchema c) (lit "Schema/API definition") reasons in
  let reasons := pushIf (isInfrastructure c) (lit "Infrastructure configuration") reasons in
  let reasons := pushIf (isPublicInterface c) (lit "Public API interface") reasons in
  let reasons := pushIf (hasComplexLogic c) (lit "Contains complex business logic") reasons in
  let reasons := pushIf (hasExternalDependencies c) (lit "Has external dependencies") reasons in
  let reasons :=
    match architecturalRole c with
    | core_business_logic => reasons ++ [lit "Core business logic"]
    | api_interface => reasons ++ [lit "API interface"]
    | data_access => reasons ++ [lit "Data access layer"]
    | security => reasons ++ [lit "Security component"]
    | _ => reasons
    end in
  let reasons := pushIf (isTest c) (lit "Test file (lower priority)") reasons in
  let reasons := pushIf (isGenerated c) (lit "Generated file (lower priority)") reasons in
  let reasons := pushIf (isDocumentation c && negb (isSchema c))
                   (lit "Documentation file") reasons in
  (categoryOfScore score, reasons).

Definition generateRecommendations
    (c : FileCharacteristics) (importance' : ImportanceScore)
  : list ClassificationRecommendation :=
  let push (cond : bool) (r : ClassificationRecommendation) rs :=
    if cond then rs ++ [r] else rs in
  let rs := [] in
  let rs := push (isEntryPoint c || isPackageDefinition c)
              {| recType := rec_analysis; recPriority := high;
                 description := lit "Critical file for understanding application structure";
                 action := lit "Analyze first for tech stack detection" |} rs in
  let rs := push (isSchema c)
              {| recType := rec_generation; recPriority := high;
                 description := lit "API schema affects infrastructure requirements";
                 action := lit "Use for API gateway and service mesh configuration" |} rs in
  let rs := push (isInfrastructure c)
              {| recType := rec_analysis; recPriority := medium;
                 description := lit "Existing infrastructure configuration";
                 action := lit "Analyze for current deployment patterns" |} rs in
  let rs := push (hasComplexLogic c)
              {| recType := rec_monitoring; recPriority := medium;
                 description := lit "Complex logic may need monitoring";
                 action := lit "Consider performance monitoring and logging" |} rs in
  push (isRole c security)
    {| recType := rec_security; recPriority := high;
       description := lit "Security-related component";
       action := lit "Apply security best practices in generated configs" |} rs.

(** [fileName.split('.').pop()?.toLowerCase() || ''] *)
Definition extensionOf (fileName : jsstring) : jsstring :=
  orEmpty (option_map toLowerCase (pop (split dot fileName))).

Definition classifyFile
    (path : jsstring) (content : option jsstring) (type : option FileType)
  : FileClassification :=
  let fileName := DefaultFileUtils.fileNameOf path in
  let fileExtension := extensionOf fileName in
  let characteristics' := analyzeFileCharacteristics path content type in
  let score := calculateBaseScore path fileName fileExtension characteristics' in
  let score := score + getProjectTypeAdjustment characteristics' in
  let score := score + getLanguageFrameworkAdjustment path content in
  let score := score + applyCustomScoringRules path content in
  let score :=
    if enableContentAnalysis options && truthy content
    then score + analyzeContentComplexity (orEmpty content) fileExtension
    else score in
  let '(category', reasons') := determineCategory score characteristics' in
  let importance' :=
    {| score := Z.max 0 (Z.min 200 score);
       reasons := reasons';
       category := category' |} in
  {| importance := importance';
     characteristics := characteristics';
     recommendations := generateRecommendations characteristics' importance' |}.

Definition batchClassify
    (files : list (jsstring * option jsstring * option FileType))
  : list FileClassification :=
  List.map (fun '(p, c, t) => classifyFile p c t) files.

End Classifier.
End FilePriorityClassifier.

(* ===================================================================== *)
(** * [Array.prototype.sort] *)
(* ===================================================================== *)

(** The sort of the runtime is stable.  For a comparator that orders the
    elements consistently, as a difference of integers does, its result is
    the one list that is ordered by the comparator and keeps the elements
    that compare equal in their former order; insertion computes that
    list.  An element goes in front of the first element that it does not
    have to follow. *)
Section Sort.
Context {A : Type}.
Variable compareFn : A -> A -> Z.

Fixpoint insertSorted (x : A) (l : list A) : list A :=
  match l with
  | [] => [x]
  | y :: l' =>
      if compareFn x y <=? 0 then x :: y :: l'
      else y :: insertSorted x l'
  end.

Definition sort (l : list A) : list A := fold_right insertSorted [] l.
End Sort.

(* ===================================================================== *)
(** * File indexer ([src/analyzers/file-indexer.ts]) *)
(* ===================================================================== *)

(** [src/types/codebase.ts] *)
Module FileEntry.
Record t := {
  path : jsstring;
  content : jsstring;
  size : Z;
  type : option FileType
}.
End FileEntry.

Module FileIndexEntry.
Record t := {
  path : jsstring;
  type : TypeValue;
  size : Z;
  importance : ImportanceScore;
  language : Property jsstring;
  lastModified : Z
}.
End FileIndexEntry.

Record CodebaseInput := {
  files : list FileEntry.t;
  metadataName : jsstring
}.

Record PriorityFileMap := {
  packageFiles : list jsstring;
  configFiles : list jsstring;
  entryPoints : list jsstring;
  schemas : list jsstring;
  dockerFiles : list jsstring;
  cicdFiles : list jsstring
}.

(** What is stored under a key of [languageDistribution]: a count, or,
    when the key is the name of an inherited member, the text that
    [(member || 0) + 1] makes, which is no count. *)
Inductive Count :=
  | Counted (n : Z)
  | NotACount.

(** The keys of the two distributions are the texts of the values of
    [file.language] and [file.type].  A name is its own text ([inl] for
    a language); the text of an inherited member is kept apart from the
    names ([inr member] for a language, [InheritedValue member] for a
    type), as the text of a function or of [Object.prototype] is no
    name of a language, of a type or of a member, and differs from
    member to member. *)
Module CodebaseStatistics.
Record t := {
  totalFiles : Z;
  totalSize : Z;
  languageDistribution : gmap (jsstring + jsstring) Count;
  fileTypeDistribution : TypeValue -> Z;
  complexityScore : Z
}.
End CodebaseStatistics.

(** [astCache] and [dependencyGraph] are created empty and carry no
    data. *)
Module CodebaseIndex.
Record t := {
  fileIndex : list FileIndexEntry.t;
  priorityFiles : PriorityFileMap;
  statistics : CodebaseStatistics.t
}.
End CodebaseIndex.

Module FileIndexer.

Record FileIndexerOptions := {
  maxFiles : Z;
  maxFileSize : Z;
  customIgnorePatterns : list jsstring;
  includeContent : bool;
  calculateHashes : bool;
  customFileTypeRules : gmap jsstring FileType
}.

(** The options of [new FileIndexer()]. *)
Definition defaultOptions : FileIndexerOptions :=
  {| maxFiles := 10000;
     maxFileSize := 10 * 1024 * 1024;
     customIgnorePatterns := [];
     includeContent := false;
     calculateHashes := false;
     customFileTypeRules := ∅ |}.

Record RunStatistics := {
  totalFilesScanned : Z;
  filesIndexed : Z;
  filesIgnored : Z;
  totalSizeBytes : Z;
  processingTimeMs : Z;
  errors : list jsstring;
  warnings : list jsstring
}.

Record IndexingResult := {
  index : CodebaseIndex.t;
  statistics : RunStatistics
}.

(** The variables of the loop of [indexCodebase]. *)
Record LoopState := {
  st_fileIndex : list FileIndexEntry.t;
  st_totalSize : Z;
  st_filesIgnored : Z;
  st_errors : list jsstring;
  st_warnings : list jsstring
}.

Section Indexer.
Context `{H : Host}.
Variable options : FileIndexerOptions.

(** The indexer is the one built on the default file utilities,
    [new FileIndexer(undefined, options)]. *)

(** [filterFiles]: the entries that pass have their path
    normalized.  The code overwrites [file.path] in place; only the
    entries of the filtered list are read afterwards, and normalizing
    twice is normalizing once, so an object listed twice behaves as
    two entries do. *)
Definition filterFiles (files : list FileEntry.t) : list FileEntry.t :=
  flat_map
    (fun file =>
       match FileEntry.path file with
       | [] => []
       | _ :: _ =>
           if FileEntry.size file <? 0 then []
           else [ {| FileEntry.path :=
                       DefaultFileUtils.normalizePath (FileEntry.path file);
                     FileEntry.content := FileEntry.content file;
                     FileEntry.size := FileEntry.size file;
                     FileEntry.type := FileEntry.type file |} ]
       end)
    files.

(** [pattern.replace(/\*/g, '.*')] *)
Definition globToRegExp (pattern : jsstring) : jsstring :=
  flat_map (fun c => if (c =? star)%N then [dot; star] else [c]) pattern.

Definition customPatternMatches (path pattern : jsstring) : Result bool :=
  if includes pattern [star] then
    match regexpSyntaxError (globToRegExp pattern) with
    | Some msg => Throw (SyntaxError msg)
    | None => Ok (regexpTest (globToRegExp pattern) path)
    end
  else Ok (includes path pattern).

(** [patterns.some(f)] where [f] may throw. *)
Fixpoint someResult (f : jsstring -> Result bool) (patterns : list jsstring)
  : Result bool :=
  match patterns with
  | [] => Ok false
  | p :: rest =>
      match f p with
      | Throw t => Throw t
      | Ok true => Ok true
      | Ok false => someResult f rest
      end
  end.

Definition shouldIgnoreFile (path : jsstring) : Result bool :=
  if DefaultFileUtils.shouldIgnoreFile path then Ok true
  else someResult (customPatternMatches path) (customIgnorePatterns options).

(** [now] is the reading of the clock taken by [new Date()]. *)
Definition createFileIndexEntry (file : FileEntry.t) (now : Z) : FileIndexEntry.t :=
  let normalizedPath := DefaultFileUtils.normalizePath (FileEntry.path file) in
  let fileType : TypeValue :=
    match getProperty (customFileTypeRules options !! normalizedPath)
            normalizedPath with
    | Own t => TypeOf t
    | Inherited member => InheritedValue member
    | Undefined =>
        match FileEntry.type file with
        | Some t => TypeOf t
        | None =>
            TypeOf (DefaultFileUtils.getFileType normalizedPath
                      (Some (FileEntry.content file)))
        end
    end in
  let importance :=
    DefaultFileUtils.calculateImportanceScore normalizedPath
      (Some (FileEntry.content file)) in
  let language := DefaultFileUtils.getLanguageFromPath normalizedPath in
  {| FileIndexEntry.path := normalizedPath;
     FileIndexEntry.type := fileType;
     FileIndexEntry.size := FileEntry.size file;
     FileIndexEntry.importance := importance;
     FileIndexEntry.language := language;
     FileIndexEntry.lastModified := now |}.

(** One turn of the loop over the filtered files; the boolean tells
    whether the loop is left ([break]). *)
Definition processFile (st : LoopState) (file : FileEntry.t) : LoopState * bool :=
  match shouldIgnoreFile (FileEntry.path file) with
  | Throw error =>
      ({| st_fileIndex := st_fileIndex st;
          st_totalSize := st_totalSize st;
          st_filesIgnored := st_filesIgnored st;
          st_errors := st_errors st ++
            [ lit "Error processing file " ++ FileEntry.path file
              ++ lit ": " ++ thrownMessage error ];
          st_warnings := st_warnings st |}, false)
  | Ok true =>
      ({| st_fileIndex := st_fileIndex st;
          st_totalSize := st_totalSize st;
          st_filesIgnored := st_filesIgnored st + 1;
          st_errors := st_errors st;
          st_warnings := st_warnings st |}, false)
  | Ok false =>
      if FileEntry.size file >? maxFileSize options then
        ({| st_fileIndex := st_fileIndex st;
            st_totalSize := st_totalSize st;
            st_filesIgnored := st_filesIgnored st + 1;
            st_errors := st_errors st;
            st_warnings := st_warnings st ++
              [ lit "File " ++ FileEntry.path file
                ++ lit " exceeds maximum size limit ("
                ++ showZ (FileEntry.size file) ++ lit " bytes)" ] |}, false)
      else
        let indexEntry :=
          createFileIndexEntry file (clock (S (length (st_fileIndex st)))) in
        let fileIndex := st_fileIndex st ++ [indexEntry] in
        let totalSize := numAdd (st_totalSize st) (FileEntry.size file) in
        if Z.of_nat (length fileIndex) >=? maxFiles options then
          ({| st_fileIndex := fileIndex;
              st_totalSize := totalSize;
              st_filesIgnored := st_filesIgnored st;
              st_errors := st_errors st;
              st_warnings := st_warnings st ++
                [ lit "Reached maximum file limit ("
                  ++ showZ (maxFiles options) ++ lit "), stopping indexing" ] |},
           true)
        else
          ({| st_fileIndex := fileIndex;
              st_totalSize := totalSize;
              st_filesIgnored := st_filesIgnored st;
              st_errors := st_errors st;
              st_warnings := st_warnings st |}, false)
  end.

Fixpoint loop (files : list FileEntry.t) (st : LoopState) : LoopState :=
  match files with
  | [] => st
  | file :: rest =>
      let '(st', stop) := processFile st file in
      if stop then st' else loop rest st'
  end.

(** ** Priority file map *)

Definition isPackageFile (fileName : jsstring) : bool :=
  arrayIncludes
    [ lit "package.json"; lit "requirements.txt"; lit "pom.xml";
      lit "build.gradle"; lit "Cargo.toml"; lit "go.mod";
      lit "composer.json"; lit "Gemfile"; lit "setup.py";
      lit "pyproject.toml"; lit "Package.swift"; lit "pubspec.yaml" ]
    fileName.

Definition isConfigFile (fileName : jsstring) : bool :=
  let PContains := DefaultFileUtils.PContains in
  let PSuffix := DefaultFileUtils.PSuffix in
  existsb (DefaultFileUtils.patternMatches fileName)
    [ PSuffix [lit ".config.js"; lit ".config.ts"; lit ".config.json"];
      PContains (lit "webpack.config.");
      PContains (lit "vite.config.");
      PContains (lit "rollup.config.");
      PContains (lit "babel.config.");
      PContains (lit "jest.config.");
      PContains (lit "vitest.config.");
      PSuffix [lit "tsconfig.json"];
      PContains (lit ".eslintrc.");
      PContains (lit ".prettierrc");
      PContains (lit ".env");
      PSuffix [lit ".yml"];
      PSuffix [lit ".yaml"];
      PSuffix [lit ".toml"];
      PSuffix [lit ".ini"] ].

Definition isEntryPoint (fileName : jsstring) : bool :=
  arrayIncludes
    [ lit "index.js"; lit "index.ts"; lit "main.js"; lit "main.ts";
      lit "app.js"; lit "app.ts"; lit "server.js"; lit "server.ts";
      lit "main.py"; lit "app.py"; lit "__main__.py"; lit "Main.java";
      lit "Program.cs"; lit "main.go"; lit "lib.rs"; lit "main.rs" ]
    fileName.

Definition isSchemaFile (fileName path : jsstring) : bool :=
  includes fileName (lit "schema")
  || includes fileName (lit "openapi")
  || includes fileName (lit "swagger")
  || includes path (lit "/schema/")
  || endsWith fileName (lit ".graphql")
  || endsWith fileName (lit ".proto").

Definition isDockerFile (fileName path : jsstring) : bool :=
  includes fileName (lit "Dockerfile")
  || includes fileName (lit "docker-compose")
  || streq fileName (lit ".dockerignore")
  || includes path (lit "docker/").

Definition isCICDFile (fileName path : jsstring) : bool :=
  includes path (lit ".github/")
  || includes fileName (lit ".gitlab-ci")
  || includes fileName (lit "jenkins")
  || includes fileName (lit "Jenkinsfile")
  || includes fileName (lit "azure-pipelines")
  || includes fileName (lit "buildspec")
  || includes fileName (lit "cloudbuild").

Definition createPriorityFileMap (fileIndex : list FileIndexEntry.t) : PriorityFileMap :=
  let select (p : FileIndexEntry.t -> bool) : list jsstring :=
    List.map FileIndexEntry.path (List.filter p fileIndex) in
  let fileName file := DefaultFileUtils.fileNameOf (FileIndexEntry.path file) in
  let path file := toLowerCase (FileIndexEntry.path file) in
  {| packageFiles :=
       select (fun file => isType (FileIndexEntry.type file) package
                           || isPackageFile (fileName file));
     configFiles :=
       select (fun file => isType (FileIndexEntry.type file) config
                           || isConfigFile (fileName file));
     entryPoints := select (fun file => isEntryPoint (fileName file));
     schemas := select (fun file => isSchemaFile (fileName file) (path file));
     dockerFiles := select (fun file => isDockerFile (fileName file) (path file));
     cicdFiles := select (fun file => isCICDFile (fileName file) (path file)) |}.

(** ** Statistics *)

(** [(distribution[key] || 0) + 1], given what is stored under the key
    and whether the key is the name of an inherited member. *)
Definition countUp (stored : option Count) (inherited : bool) : Count :=
  match stored with
  | Some (Counted n) => Counted (n + 1)
  | Some NotACount => NotACount
  | None => if inherited then NotACount else Counted 1
  end.

(** [if (file.language) { languageDistribution[file.language] =
     (languageDistribution[file.language] || 0) + 1 }] *)
Definition countLanguage (m : gmap (jsstring + jsstring) Count)
    (file : FileIndexEntry.t) : gmap (jsstring + jsstring) Count :=
  match FileIndexEntry.language file with
  | Own ((_ :: _) as l) =>
      <[inl l := countUp (m !! inl l) (isObjectPrototypeMember l)]> m
  | Inherited member =>
      <[inr member := countUp (m !! inr member) false]> m
  | _ => m
  end.

Definition calculateStatistics (fileIndex : list FileIndexEntry.t)
  : CodebaseStatistics.t :=
  let languageDistribution := fold_left countLanguage fileIndex ∅ in
  let fileTypeDistribution :=
    fold_left
      (fun (d : TypeValue -> Z) file t =>
         if TypeValue_eqb t (FileIndexEntry.type file) then d t + 1 else d t)
      fileIndex (fun _ => 0) in
  let totalSize :=
    fold_left (fun n file => numAdd n (FileIndexEntry.size file)) fileIndex 0 in
  let complexityScore :=
    fold_left
      (fun x file =>
         floatAdd x
           (floatMul (floatOfZ (score (FileIndexEntry.importance file)))
              floatTenth))
      fileIndex (floatOfZ 0) in
  {| CodebaseStatistics.totalFiles := Z.of_nat (length fileIndex);
     CodebaseStatistics.totalSize := totalSize;
     CodebaseStatistics.languageDistribution := languageDistribution;
     CodebaseStatistics.fileTypeDistribution := fileTypeDistribution;
     CodebaseStatistics.complexityScore := mathRound complexityScore |}.

(** ** [indexCodebase] *)

(** [(a, b) => b.importance.score - a.importance.score] *)
Definition byScoreDescending (a b : FileIndexEntry.t) : Z :=
  score (FileIndexEntry.importance b) - score (FileIndexEntry.importance a).

(** The list of entries that the loop leaves, before it is sorted. *)
Definition collected (input : CodebaseInput) : LoopState :=
  let filteredFiles := filterFiles (files input) in
  loop filteredFiles
    {| st_fileIndex := [];
       st_totalSize := 0;
       st_filesIgnored := 0;
       st_errors := [];
       st_warnings :=
         match filteredFiles with
         | [] => [lit "No files remaining after filtering"]
         | _ :: _ => []
         end |}.

(** The body of the [try] block. *)
Definition tryIndexCodebase (codebaseInput : CodebaseInput) : Result IndexingResult :=
  match files codebaseInput with
  | [] =>
      Throw (Infra (ErrorFactory.createAnalysisError
                      ErrorCodes.FILE_INDEXING_FAILED
                      (lit "No files provided for indexing") false [] None))
  | _ :: _ =>
      let st := collected codebaseInput in
      let fileIndex := sort byScoreDescending (st_fileIndex st) in
      let priorityFiles := createPriorityFileMap fileIndex in
      let statistics := calculateStatistics fileIndex in
      let index :=
        {| CodebaseIndex.fileIndex := fileIndex;
           CodebaseIndex.priorityFiles := priorityFiles;
           CodebaseIndex.statistics := statistics |} in
      let processingTime := clock (S (length fileIndex)) - clock 0 in
      Ok {| index := index;
            statistics :=
              {| totalFilesScanned := Z.of_nat (length (files codebaseInput));
                 filesIndexed := Z.of_nat (length fileIndex);
                 filesIgnored := st_filesIgnored st;
                 totalSizeBytes := st_totalSize st;
                 processingTimeMs := processingTime;
                 errors := st_errors st;
                 warnings := st_warnings st |} |}
  end.

(** The [catch] of [indexCodebase] wraps whatever the body throws. The
    body only throws before any entry is made, so the clock is read
    for the second time there. *)
Definition indexCodebase (codebaseInput : CodebaseInput) : Result IndexingResult :=
  match tryIndexCodebase codebaseInput with
  | Ok r => Ok r
  | Throw error =>
      Throw (Infra (ErrorFactory.createAnalysisError
                      ErrorCodes.FILE_INDEXING_FAILED
                      (lit "File indexing failed: " ++ thrownMessage error)
                      false
                      [ lit "Check file permissions";
                        lit "Verify file structure";
                        lit "Reduce file count or size" ]
                      (Some (0, Z.of_nat (length (files codebaseInput)),
                             clock 1 - clock 0))))
  end.

(** ** The turns of the loop, read one by one *)

(** The state after one turn. *)
Definition step (st : LoopState) (file : FileEntry.t) : LoopState :=
  fst (processFile st file).

(** The error message that a turn records: the one of the exception
    that the ignore check throws. *)
Definition errorOf (file : FileEntry.t) : list jsstring :=
  match shouldIgnoreFile (FileEntry.path file) with
  | Throw error =>
      [ lit "Error processing file " ++ FileEntry.path file
        ++ lit ": " ++ thrownMessage error ]
  | Ok _ => []
  end.

(** Whether a turn counts its file in [filesIgnored]. *)
Definition countsAsIgnored (file : FileEntry.t) : bool :=
  match shouldIgnoreFile (FileEntry.path file) with
  | Throw _ => false
  | Ok true => true
  | Ok false => FileEntry.size file >? maxFileSize options
  end.

(** Whether a turn makes an index entry of its file. *)
Definition isIndexed (file : FileEntry.t) : bool :=
  match shouldIgnoreFile (FileEntry.path file) with
  | Ok false => negb (FileEntry.size file >? maxFileSize options)
  | _ => false
  end.

End Indexer.

(** A file that passes the validity filter. *)
Definition isValidFile (file : FileEntry.t) : bool :=
  match FileEntry.path file with
  | [] => false
  | _ :: _ => negb (FileEntry.size file <? 0)
  end.

(** A file as the validity filter passes it on. *)
Definition normalized (f : FileEntry.t) : FileEntry.t :=
  {| FileEntry.path := DefaultFileUtils.normalizePath (FileEntry.path f);
     FileEntry.content := FileEntry.content f;
     FileEntry.size := FileEntry.size f;
     FileEntry.type := FileEntry.type f |}.

(** A valid file under a [node_modules/] directory. *)
Definition isNodeModulesFile (file : FileEntry.t) : bool :=
  isValidFile file && includes (FileEntry.path file) (lit "node_modules/").

End FileIndexer.

(* ===================================================================== *)
(** * The indexer on the file utilities of its caller *)
(* ===================================================================== *)

(** [new FileIndexer(fileUtils, options)] calls the file utilities that
    it is given: any implementation of the interface [FileUtils].  A
    call of a utility returns a value of the declared type (a score is a
    whole number), or it throws; it may read and change a state of the
    utilities' own, of a type [St], and nothing else.  Of a thrown value
    the indexer reads the text only,
    [error instanceof Error ? error.message : String(error)].

    [files] is an array of references to file objects, in which an
    object may be listed more than once: [objects] gives the object of
    a reference, and [filterFiles] writes the normalized path into the
    object. *)
Module InjectedFileIndexer.
Import FileIndexer.

Inductive Outcome (A : Type) :=
  | Returns (a : A)
  | Throws (text : jsstring).
Arguments Returns {A} a.
Arguments Throws {A} text.

(** A computation that calls utilities. *)
Definition Call (St A : Type) : Type := St -> Outcome A * St.

Definition ret {St A : Type} (a : A) : Call St A := fun s => (Returns a, s).

Definition throw {St A : Type} (text : jsstring) : Call St A :=
  fun s => (Throws text, s).

Definition bind {St A B : Type} (m : Call St A) (k : A -> Call St B) : Call St B :=
  fun s =>
    match m s with
    | (Returns a, s') => k a s'
    | (Throws text, s') => (Throws text, s')
    end.

(** [try { body } catch (error) { handler }] *)
Definition tryCatch {St A : Type} (body : Call St A) (handler : jsstring -> Call St A)
  : Call St A :=
  fun s =>
    match body s with
    | (Returns a, s') => (Returns a, s')
    | (Throws text, s') => handler text s'
    end.

(** A call that throws in no state. *)
Definition returns {St A : Type} (m : Call St A) : Prop :=
  forall s, exists a s', m s = (Returns a, s').

Declare Scope call_scope.
Delimit Scope call_scope with call.
Notation "'let*' x ':=' m 'in' k" := (bind m (fun x => k))
  (at level 10, x name, m at level 100, k at level 200) : call_scope.

(** The interface [FileUtils] ([src/utils/file-utils.ts]). *)
Module FileUtils.
Record t (St : Type) := {
  getFileType : jsstring -> option jsstring -> Call St FileType;
  calculateImportanceScore : jsstring -> option jsstring -> Call St ImportanceScore;
  shouldIgnoreFile : jsstring -> Call St bool;
  getLanguageFromPath : jsstring -> Call St (Property jsstring);
  normalizePath : jsstring -> Call St jsstring
}.
Arguments getFileType {St} _ _ _ _.
Arguments calculateImportanceScore {St} _ _ _ _.
Arguments shouldIgnoreFile {St} _ _ _.
Arguments getLanguageFromPath {St} _ _ _.
Arguments normalizePath {St} _ _ _.
End FileUtils.


(** The file objects by reference, and [file.path = path] on the object
    of a reference. *)
Definition Heap : Type := nat -> FileEntry.t.

Definition setPath (objects : Heap) (ref : nat) (path : jsstring) : Heap :=
  fun r =>
    if Nat.eqb r ref
    then {| FileEntry.path := path;
            FileEntry.content := FileEntry.content (objects ref);
            FileEntry.size := FileEntry.size (objects ref);
            FileEntry.type := FileEntry.type (objects ref) |}
    else objects r.

Section Indexer.
Context `{H : Host}.
Context {St : Type}.
Variable fileUtils : FileUtils.t St.
Variable options : FileIndexerOptions.

Local Open Scope call_scope.

(** [files.filter(file => ...)]: the references that pass, and the
    objects with the paths that have been written. *)
Fixpoint filterFiles (files : list nat) (objects : Heap)
  : Call St (list nat * Heap) :=
  match files with
  | [] => ret ([], objects)
  | ref :: rest =>
      let file := objects ref in
      match FileEntry.path file with
      | [] => filterFiles rest objects
      | _ :: _ =>
          if FileEntry.size file <? 0 then filterFiles rest objects
          else
            let* path := FileUtils.normalizePath fileUtils (FileEntry.path file) in
            let* passed := filterFiles rest (setPath objects ref path) in
            ret (ref :: fst passed, snd passed)
      end
  end.

Definition shouldIgnoreFile (path : jsstring) : Call St bool :=
  let* ignored := FileUtils.shouldIgnoreFile fileUtils path in
  if ignored then ret true
  else
    match someResult (customPatternMatches path) (customIgnorePatterns options) with
    | Ok matched => ret matched
    | Throw error => throw (thrownMessage error)
    end.

(** [now] is the reading of the clock taken by [new Date()]. *)
Definition createFileIndexEntry (file : FileEntry.t) (now : Z)
  : Call St FileIndexEntry.t :=
  let* normalizedPath := FileUtils.normalizePath fileUtils (FileEntry.path file) in
  let* fileType :=
    match getProperty (customFileTypeRules options !! normalizedPath)
            normalizedPath with
    | Own t => ret (TypeOf t)
    | Inherited member => ret (InheritedValue member)
    | Undefined =>
        match FileEntry.type file with
        | Some t => ret (TypeOf t)
        | None =>
            let* t := FileUtils.getFileType fileUtils normalizedPath
                        (Some (FileEntry.content file)) in
            ret (TypeOf t)
        end
    end in
  let* importance :=
    FileUtils.calculateImportanceScore fileUtils normalizedPath
      (Some (FileEntry.content file)) in
  let* language := FileUtils.getLanguageFromPath fileUtils normalizedPath in
  ret {| FileIndexEntry.path := normalizedPath;
         FileIndexEntry.type := fileType;
         FileIndexEntry.size := FileEntry.size file;
         FileIndexEntry.importance := importance;
         FileIndexEntry.language := language;
         FileIndexEntry.lastModified := now |}.

(** One turn of the loop over the filtered files, with its [try] and
    [catch]; the boolean tells whether the loop is left ([break]). *)
Definition processFile (st : LoopState) (file : FileEntry.t)
  : Call St (LoopState * bool) :=
  tryCatch
    (let* ignored := shouldIgnoreFile (FileEntry.path file) in
     if ignored then
       ret ({| st_fileIndex := st_fileIndex st;
               st_totalSize := st_totalSize st;
               st_filesIgnored := st_filesIgnored st + 1;
               st_errors := st_errors st;
               st_warnings := st_warnings st |}, false)
     else if FileEntry.size file >? maxFileSize options then
       ret ({| st_fileIndex := st_fileIndex st;
               st_totalSize := st_totalSize st;
               st_filesIgnored := st_filesIgnored st + 1;
               st_errors := st_errors st;
               st_warnings := st_warnings st ++
                 [ lit "File " ++ FileEntry.path file
                   ++ lit " exceeds maximum size limit ("
                   ++ showZ (FileEntry.size file) ++ lit " bytes)" ] |}, false)
     else
       let* indexEntry :=
         createFileIndexEntry file (clock (S (length (st_fileIndex st)))) in
       let fileIndex := st_fileIndex st ++ [indexEntry] in
       let totalSize := numAdd (st_totalSize st) (FileEntry.size file) in
       if Z.of_nat (length fileIndex) >=? maxFiles options then
         ret ({| st_fileIndex := fileIndex;
                 st_totalSize := totalSize;
                 st_filesIgnored := st_filesIgnored st;
                 st_errors := st_errors st;
                 st_warnings := st_warnings st ++
                   [ lit "Reached maximum file limit ("
                     ++ showZ (maxFiles options) ++ lit "), stopping indexing" ] |},
              true)
       else
         ret ({| st_fileIndex := fileIndex;
                 st_totalSize := totalSize;
                 st_filesIgnored := st_filesIgnored st;
                 st_errors := st_errors st;
                 st_warnings := st_warnings st |}, false))
    (fun error =>
       ret ({| st_fileIndex := st_fileIndex st;
               st_totalSize := st_totalSize st;
               st_filesIgnored := st_filesIgnored st;
               st_errors := st_errors st ++
                 [ lit "Error processing file " ++ FileEntry.path file
                   ++ lit ": " ++ error ];
               st_warnings := st_warnings st |}, false)).

Fixpoint loop (files : list FileEntry.t) (st : LoopState) : Call St LoopState :=
  match files with
  | [] => ret st
  | file :: rest =>
      let* turned := processFile st file in
      if snd turned then ret (fst turned) else loop rest (fst turned)
  end.

(** The body of the [try] block. *)
Definition tryIndexCodebase (objects : Heap) (files : list nat)
  : Call St IndexingResult :=
  match files with
  | [] =>
      throw (message (ErrorFactory.createAnalysisError
                        ErrorCodes.FILE_INDEXING_FAILED
                        (lit "No files provided for indexing") false [] None))
  | _ :: _ =>
      let* passed := filterFiles files objects in
      let filteredFiles := List.map (snd passed) (fst passed) in
      let* st :=
        loop filteredFiles
          {| st_fileIndex := [];
             st_totalSize := 0;
             st_filesIgnored := 0;
             st_errors := [];
             st_warnings :=
               match filteredFiles with
               | [] => [lit "No files remaining after filtering"]
               | _ :: _ => []
               end |} in
      let fileIndex := sort byScoreDescending (st_fileIndex st) in
      let priorityFiles := createPriorityFileMap fileIndex in
      let statistics := calculateStatistics fileIndex in
      let index :=
        {| CodebaseIndex.fileIndex := fileIndex;
           CodebaseIndex.priorityFiles := priorityFiles;
           CodebaseIndex.statistics := statistics |} in
      let processingTime := clock (S (length fileIndex)) - clock 0 in
      ret {| index := index;
             statistics :=
               {| totalFilesScanned := Z.of_nat (length files);
                  filesIndexed := Z.of_nat (length fileIndex);
                  filesIgnored := st_filesIgnored st;
                  totalSizeBytes := st_totalSize st;
                  processingTimeMs := processingTime;
                  errors := st_errors st;
                  warnings := st_warnings st |} |}
  end.

(** The [catch] of [indexCodebase] wraps whatever the body throws.  The
    body only throws before any entry is made, so the clock is read for
    the second time there. *)
Definition indexCodebase (objects : Heap) (files : list nat) (s : St)
  : Result IndexingResult * St :=
  match tryIndexCodebase objects files s with
  | (Returns r, s') => (Ok r, s')
  | (Throws error, s') =>
      (Throw (Infra (ErrorFactory.createAnalysisError
                       ErrorCodes.FILE_INDEXING_FAILED
                       (lit "File indexing failed: " ++ error)
                       false
                       [ lit "Check file permissions";
                         lit "Verify file structure";
                         lit "Reduce file count or size" ]
                       (Some (0, Z.of_nat (length files), clock 1 - clock 0)))),
       s')
  end.

(** ** The turns of the loop, read one by one *)

(** What a turn does with its file: the exception of the file is
    caught, the file is ignored by a rule, the file is above the size
    limit, or an entry is made. *)
Inductive Turn :=
  | Failed (error : jsstring)
  | Ignored
  | TooLarge
  | Indexed (entry : FileIndexEntry.t).

(** The turn of a file after [entries] entries have been made. *)
Definition turn (file : FileEntry.t) (entries : nat) (s : St) : Turn * St :=
  match shouldIgnoreFile (FileEntry.path file) s with
  | (Throws error, s') => (Failed error, s')
  | (Returns true, s') => (Ignored, s')
  | (Returns false, s') =>
      if FileEntry.size file >? maxFileSize options then (TooLarge, s')
      else
        match createFileIndexEntry file (clock (S entries)) s' with
        | (Throws error, s'') => (Failed error, s'')
        | (Returns entry, s'') => (Indexed entry, s'')
        end
  end.

(** The turns of the files that the loop reaches, in their order: the
    loop is left after the turn that makes the entry which fills the
    index up to the limit. *)
Fixpoint turns (files : list FileEntry.t) (entries : nat) (s : St)
  : list (FileEntry.t * Turn) * St :=
  match files with
  | [] => ([], s)
  | file :: rest =>
      let '(outcome, s') := turn file entries s in
      match outcome with
      | Indexed _ =>
          if Z.of_nat (S entries) >=? maxFiles options
          then ([(file, outcome)], s')
          else let '(later, s'') := turns rest (S entries) s' in
               ((file, outcome) :: later, s'')
      | _ => let '(later, s'') := turns rest entries s' in
             ((file, outcome) :: later, s'')
      end
  end.

End Indexer.

(** What the turns leave in the result. *)
Definition errorOf (turned : FileEntry.t * Turn) : list jsstring :=
  match snd turned with
  | Failed error =>
      [ lit "Error processing file " ++ FileEntry.path (fst turned)
        ++ lit ": " ++ error ]
  | _ => []
  end.

Definition countsAsIgnored (turned : FileEntry.t * Turn) : bool :=
  match snd turned with
  | Ignored | TooLarge => true
  | _ => false
  end.

Definition entryOf (turned : FileEntry.t * Turn) : list FileIndexEntry.t :=
  match snd turned with
  | Indexed entry => [entry]
  | _ => []
  end.

Definition sizeWarningOf `{H : Host} (turned : FileEntry.t * Turn) : list jsstring :=
  match snd turned with
  | TooLarge =>
      [ lit "File " ++ FileEntry.path (fst turned)
        ++ lit " exceeds maximum size limit ("
        ++ showZ (FileEntry.size (fst turned)) ++ lit " bytes)" ]
  | _ => []
  end.

(** An input of which the files are distinct objects: the references
    are the positions in the array. *)
Definition objectsOf (input : CodebaseInput) : Heap :=
  fun ref =>
    nth ref (files input)
      {| FileEntry.path := []; FileEntry.content := [];
         FileEntry.size := 0; FileEntry.type := None |}.

Definition referencesOf (input : CodebaseInput) : list nat :=
  seq 0 (length (files input)).

End InjectedFileIndexer.

(* ===================================================================== *)
(** * A small runtime and sample inputs *)
(* ===================================================================== *)

(** The embedding runs on any [Host].  The examples below run it on this
    one: letters A to Z in lower case, a regular expression read as plain
    text (and refused when it has an opening parenthesis), a clock that
    advances by one millisecond per reading, every number printed with
    all its digits, and exact arithmetic on tenths in place of floating
    point. *)
Module Sample.

Definition asciiLower (s : jsstring) : jsstring :=
  List.map (fun c => if (65 <=? c)%N && (c <=? 90)%N then (c + 32)%N else c) s.

Definition host : Host :=
  {| toLowerCase := asciiLower;
     regexpTest := fun src s => includes s src;
     regexpMatchCount := fun _ _ => 0%nat;
     regexpSyntaxError := fun src =>
       if includes src (lit "(") then Some (lit "Invalid regular expression")
       else None;
     clock := fun n => Z.of_nat n;
     numberText := decimal;
     Float := Z;
     floatOfZ := fun z => 10 * z;
     floatTenth := 1;
     floatAdd := Z.add;
     floatMul := fun a b => a * b / 10;
     mathRound := fun x => (x + 5) / 10 |}.

Definition file (path content : jsstring) (size : Z) (type : option FileType)
  : FileEntry.t :=
  {| FileEntry.path := path; FileEntry.content := content;
     FileEntry.size := size; FileEntry.type := type |}.

(** The codebase of the indexer's test suite. *)
Definition mockCodebaseInput : CodebaseInput :=
  {| files :=
       [ file (lit "package.json") (lit "{}") 100 (Some package);
         file (lit "src/index.ts") (lit "console.log(1);") 50 (Some source);
         file (lit "src/utils/helper.ts")
           (lit "export function helper() { return true; }") 75 (Some source);
         file (lit "README.md") (lit "# Test Project") 40 (Some documentation);
         file (lit "Dockerfile") (lit "FROM node:18") 60 (Some config);
         file (lit ".github/workflows/ci.yml") (lit "name: CI") 30 (Some config);
         file (lit "node_modules/some-package/index.js")
           (lit "module.exports = {};") 25 (Some source);
         file (lit "src/components/Button.test.ts")
           (lit "describe(Button);") 35 (Some test) ];
     metadataName := lit "test-project" |}.

(** Two files, of which the second lies under [node_modules/], and a
    limit of one file. *)
Definition limitOne : FileIndexer.FileIndexerOptions :=
  {| FileIndexer.maxFiles := 1;
     FileIndexer.maxFileSize := 10 * 1024 * 1024;
     FileIndexer.customIgnorePatterns := [];
     FileIndexer.includeContent := false;
     FileIndexer.calculateHashes := false;
     FileIndexer.customFileTypeRules := ∅ |}.

Definition twoFiles : CodebaseInput :=
  {| files :=
       [ file (lit "a.js") (lit "x") 1 None;
         file (lit "node_modules/x.js") (lit "y") 1 None ];
     metadataName := lit "two-files" |}.

(** Three source files of one score around an entry point. *)
Definition tiedFiles : CodebaseInput :=
  {| files :=
       [ file (lit "src/zeta.ts") (lit "z") 1 None;
         file (lit "src/alpha.ts") (lit "a") 1 None;
         file (lit "src/index.ts") (lit "i") 1 None;
         file (lit "src/mid.ts") (lit "m") 1 None ];
     metadataName := lit "tied" |}.

(** A custom ignore pattern that is no regular expression. *)
Definition badPattern : FileIndexer.FileIndexerOptions :=
  {| FileIndexer.maxFiles := 10000;
     FileIndexer.maxFileSize := 10 * 1024 * 1024;
     FileIndexer.customIgnorePatterns := [lit "(*"];
     FileIndexer.includeContent := false;
     FileIndexer.calculateHashes := false;
     FileIndexer.customFileTypeRules := ∅ |}.

(** The content [{"name":"x"}]. *)
Definition packageJsonContent : jsstring :=
  lit "{" ++ [dquote] ++ lit "name" ++ [dquote] ++ lit ":"
  ++ [dquote] ++ lit "x" ++ [dquote] ++ lit "}".

(** An Invalid Date and a valid one. *)
Definition invalidDate : Date := {| getTime := NaN |}.
Definition someDate : Date := {| getTime := Millis 1700000000000 |}.

End Sample.

(* ===================================================================== *)
(** * Query helpers of the indexer and of the classifier *)
(* ===================================================================== *)

(** [arr.slice(0, end)] for a whole number [end]: from the front up to
    [end], counted from the back when [end] is negative. *)
Definition slice0 {A : Type} (arr : list A) (end' : Z) : list A :=
  if end' <? 0 then firstn (Z.to_nat (Z.of_nat (length arr) + end')) arr
  else firstn (Z.to_nat end') arr.

(** [file.importance.category === 'critical' ||
     file.importance.category === 'important'] *)
Definition isTopCategory (file : FileIndexEntry.t) : bool :=
  match category (FileIndexEntry.importance file) with
  | critical | important => true
  | normal | ignore => false
  end.


(** [file.language === language] for a text [language], where
    [file.language] may be [undefined] or an inherited member. *)
Definition ofLanguage (k : jsstring) (file : FileIndexEntry.t) : bool :=
  match FileIndexEntry.language file with
  | Own l => streq l k
  | _ => false
  end.




(** The helpers of [FileIndexer]; [limit] is 50 when the caller gives
    none. *)
Module IndexQueries.

Definition defaultLimit : Z := 50.

Definition getTopPriorityFiles (index : CodebaseIndex.t) (limit : Z)
  : list FileIndexEntry.t :=
  slice0 (List.filter isTopCategory (CodebaseIndex.fileIndex index)) limit.


Definition getFilesByLanguage (index : CodebaseIndex.t) (language : jsstring)
  : list FileIndexEntry.t :=
  List.filter (ofLanguage language) (CodebaseIndex.fileIndex index).

End IndexQueries.

(** The helper of [FilePriorityClassifier]: it sorts the files it keeps,
    in an array of its own. *)
Module ClassifierQueries.

Definition getTopPriorityFiles (files : list FileIndexEntry.t) (limit : Z)
  : list FileIndexEntry.t :=
  slice0 (sort FileIndexer.byScoreDescending (List.filter isTopCategory files))
    limit.

End ClassifierQueries.

(** The tally of the scorer as a function of the outcomes of its five
    tests on the file name and of the detected type. *)
Definition tallyOf (b1 b2 b3 b4 b5 : bool) (t : FileType) : DefaultFileUtils.Tally :=
  DefaultFileUtils.testPenalty (FileType_eqb t test) (lit "Test file (lower priority)")
    (DefaultFileUtils.bonus (FileType_eqb t source) 30 (lit "Source code file")
       (DefaultFileUtils.bonus b5 50 (lit "API schema definition")
          (DefaultFileUtils.bonus b4 70 (lit "Infrastructure configuration")
             (DefaultFileUtils.bonus b3 60 (lit "Configuration file")
                (DefaultFileUtils.bonus b2 80 (lit "Application entry point")
                   (DefaultFileUtils.bonus b1 100 (lit "Package/dependency file")
                      (0, []))))))).

(** The classifier's options with content analysis switched on or off. *)
Definition withContentAnalysis (enabled : bool)
    (options : FilePriorityClassifier.PriorityClassifierOptions)
  : FilePriorityClassifier.PriorityClassifierOptions :=
  {| FilePriorityClassifier.customScoringRules :=
       FilePriorityClassifier.customScoringRules options;
     FilePriorityClassifier.projectType := FilePriorityClassifier.projectType options;
     FilePriorityClassifier.primaryLanguage :=
       FilePriorityClassifier.primaryLanguage options;
     FilePriorityClassifier.framework := FilePriorityClassifier.framework options;
     FilePriorityClassifier.enableContentAnalysis := enabled |}.

(* ===================================================================== *)
(** * Sequences of calls to the cache manager *)
(* ===================================================================== *)

Module CacheTrace.
Section Ops.
Context {AST AnalysisResult : Type}.

(** One call, with the reading of the clock it takes. *)
Inductive Op :=
  | GetCachedAST (filePath : jsstring) (lastModified : Date)
  | SetCachedAST (now : Z) (filePath : jsstring) (ast : AST) (lastModified : Date)
  | GetCachedAnalysis (now : Z) (codebaseHash : jsstring)
  | SetCachedAnalysis (now : Z) (codebaseHash : jsstring) (result : AnalysisResult)
  | InvalidateCache (changedFiles : list jsstring)
  | ClearCache.

Definition run (st : InMemoryCacheManager.State AST AnalysisResult) (op : Op)
  : InMemoryCacheManager.State AST AnalysisResult :=
  match op with
  | GetCachedAST p t => fst (InMemoryCacheManager.getCachedAST st p t)
  | SetCachedAST now p a t => InMemoryCacheManager.setCachedAST st now p a t
  | GetCachedAnalysis now h => fst (InMemoryCacheManager.getCachedAnalysis st now h)
  | SetCachedAnalysis now h r => InMemoryCacheManager.setCachedAnalysis st now h r
  | InvalidateCache changed => InMemoryCacheManager.invalidateCache st changed
  | ClearCache => InMemoryCacheManager.clearCache st
  end.

(** The manager after the calls [ops], made one after the other on a new
    manager. *)
Definition runAll (ops : list Op) : InMemoryCacheManager.State AST AnalysisResult :=
  fold_left run ops InMemoryCacheManager.empty.

End Ops.
Arguments Op : clear implicits.
End CacheTrace.

(* ===================================================================== *)
(** * Validation of a codebase input ([src/utils/validation.ts]) *)
(* ===================================================================== *)

(** [validateCodebaseInput] takes a value of any shape.  The values
    modelled are those of JSON, which is what [deserializeCodebaseInput]
    hands over: a number is a rational (every finite double is one; minus
    zero is zero), an object is the list of its properties.  [undefined] is
    no JSON value; it is the [None] of an [option]. *)
Module Validation.

#[local] Set Warnings "-register-all".
Inductive Value :=
  | VNull
  | VBool (b : bool)
  | VNum (q : QArith_base.Q)
  | VStr (s : jsstring)
  | VArr (items : list Value)
  | VObj (props : list (jsstring * Value)).

(** A value used as a condition. *)
Definition truthyValue (v : option Value) : bool :=
  match v with
  | None | Some VNull => false
  | Some (VBool b) => b
  | Some (VNum q) => negb (QArith_base.Qnum q =? 0)
  | Some (VStr s) => match s with [] => false | _ :: _ => true end
  | Some (VArr _) | Some (VObj _) => true
  end.

(** [v.key] for a value that is neither [null] nor [undefined] and one of
    the keys [files], [metadata], [name], [path], [content] and [size]: an
    object answers with its property, every other value has none of them. *)
Definition get (v : Value) (key : jsstring) : option Value :=
  match v with
  | VObj props => DefaultFileUtils.lookupKey props key
  | _ => None
  end.

Record ValidationError := {
  code : jsstring;
  message : jsstring;
  field : option jsstring
}.

Record ValidationWarning := {
  warningCode : jsstring;
  warningMessage : jsstring;
  warningField : option jsstring;
  suggestion : option jsstring
}.

(** [suggestions] is always the empty array and [severity] always
    ['error']; both are left out. *)
Record ValidationResult := {
  isValid : bool;
  errors : list ValidationError;
  warnings : list ValidationWarning
}.

Inductive Outcome :=
  | Returns (r : ValidationResult)
  | ThrowsTypeError.

Definition createError (code' message' : jsstring) (field' : option jsstring)
  : ValidationError :=
  {| code := code'; message := message'; field := field' |}.

Definition createWarning (code' message' : jsstring) (field' : option jsstring)
  : ValidationWarning :=
  {| warningCode := code'; warningMessage := message'; warningField := field';
     suggestion := None |}.

(** [typeof size !== 'number' || size < 0] *)
Definition invalidSize (size : option Value) : bool :=
  match size with
  | Some (VNum q) => QArith_base.Qnum q <? 0
  | _ => true
  end.

(** [content === undefined || content === null] *)
Definition missingContent (content : option Value) : bool :=
  match content with
  | None | Some VNull => true
  | Some _ => false
  end.

(** The body of the callback of [forEach]; reading a property of [null]
    throws. *)
Definition validateFile (file : Value) (index : nat)
    (acc : list ValidationError * list ValidationWarning)
  : option (list ValidationError * list ValidationWarning) :=
  match file with
  | VNull => None
  | _ =>
      let '(errors, warnings) := acc in
      let prefix := lit "files[" ++ decimal (Z.of_nat index) ++ lit "]" in
      let errors :=
        if negb (truthyValue (get file (lit "path")))
        then errors ++ [createError (lit "MISSING_FILE_PATH")
                          (lit "File path is required")
                          (Some (prefix ++ lit ".path"))]
        else errors in
      let errors :=
        if missingContent (get file (lit "content"))
        then errors ++ [createError (lit "MISSING_FILE_CONTENT")
                          (lit "File content is required")
                          (Some (prefix ++ lit ".content"))]
        else errors in
      let warnings :=
        if invalidSize (get file (lit "size"))
        then warnings ++ [createWarning (lit "INVALID_FILE_SIZE")
                            (lit "File size should be a positive number")
                            (Some (prefix ++ lit ".size"))]
        else warnings in
      Some (errors, warnings)
  end.

Fixpoint validateFiles (files : list Value) (index : nat)
    (acc : list ValidationError * list ValidationWarning)
  : option (list ValidationError * list ValidationWarning) :=
  match files with
  | [] => Some acc
  | file :: rest =>
      match validateFile file index acc with
      | None => None
      | Some acc' => validateFiles rest (S index) acc'
      end
  end.

Definition validateCodebaseInput (input : option Value) : Outcome :=
  match input with
  | Some v =>
      if negb (truthyValue input) then
        Returns {| isValid := false;
                   errors := [createError (lit "MISSING_INPUT")
                                (lit "Codebase input is required") None];
                   warnings := [] |}
      else
        let files := get v (lit "files") in
        let errors :=
          match files with
          | Some (VArr []) =>
              [createError (lit "EMPTY_FILES")
                 (lit "At least one file is required") (Some (lit "files"))]
          | Some (VArr (_ :: _)) => []
          | _ =>
              [createError (lit "MISSING_FILES")
                 (lit "Files array is required") (Some (lit "files"))]
          end in
        let metadata := get v (lit "metadata") in
        let warnings :=
          match metadata with
          | Some m =>
              if negb (truthyValue metadata) then
                [createWarning (lit "MISSING_METADATA")
                   (lit "Metadata is recommended for better analysis")
                   (Some (lit "metadata"))]
              else if negb (truthyValue (get m (lit "name"))) then
                [createWarning (lit "MISSING_NAME")
                   (lit "Project name is recommended")
                   (Some (lit "metadata.name"))]
              else []
          | None =>
              [createWarning (lit "MISSING_METADATA")
                 (lit "Metadata is recommended for better analysis")
                 (Some (lit "metadata"))]
          end in
        match files with
        | Some (VArr items) =>
            match validateFiles items 0 (errors, warnings) with
            | None => ThrowsTypeError
            | Some (errors, warnings) =>
                Returns {| isValid := match errors with [] => true | _ :: _ => false end;
                           errors := errors;
                           warnings := warnings |}
            end
        | _ =>
            Returns {| isValid := match errors with [] => true | _ :: _ => false end;
                       errors := errors;
                       warnings := warnings |}
        end
  | None =>
      Returns {| isValid := false;
                 errors := [createError (lit "MISSING_INPUT")
                              (lit "Codebase input is required") None];
                 warnings := [] |}
  end.

(** ** A typed codebase input as a value *)

Definition fileTypeName (t : FileType) : jsstring :=
  match t with
  | package => lit "package"
  | config => lit "config"
  | source => lit "source"
  | test => lit "test"
  | documentation => lit "documentation"
  | asset => lit "asset"
  | build => lit "build"
  | schema => lit "schema"
  end.

Definition ofFile (file : FileEntry.t) : Value :=
  VObj ([ (lit "path", VStr (FileEntry.path file));
          (lit "content", VStr (FileEntry.content file));
          (lit "size", VNum (QArith_base.Qmake (FileEntry.size file) 1)) ]
        ++ match FileEntry.type file with
           | Some t => [(lit "type", VStr (fileTypeName t))]
           | None => []
           end).

Definition ofInput (input : CodebaseInput) : Value :=
  VObj [ (lit "files", VArr (List.map ofFile (files input)));
         (lit "metadata", VObj [(lit "name", VStr (metadataName input))]) ].

End Validation.

(* ===================================================================== *)
(** * Error handler ([ErrorFactory.fromUnknownError], [ErrorHandler]) *)
(* ===================================================================== *)

Module ErrorHandler.

(** A caught value: an [Error] object, or a value that is no [Error]. *)
Inductive Unknown :=
  | Caught (t : Thrown)
  | NotAnError.

(** [fallbackOptions], empty for every error here, is left out. *)
Record ErrorResponse := {
  responseCode : jsstring;
  responseMessage : jsstring;
  responseCategory : ErrorCategory;
  responseRecoverable : bool;
  responseSuggestions : list jsstring;
  responsePartialResults : option (Z * Z * Z)
}.

Definition fromUnknownError (error : Unknown) (category : ErrorCategory)
    (defaultCode : jsstring) : InfrastructureError :=
  match error with
  | Caught (Infra e) => e
  | Caught (SyntaxError msg) =>
      {| code := defaultCode; message := msg; errCategory := category;
         recoverable := false;
         suggestions := [lit "Check the error details and try again"];
         partialResults := None |}
  | NotAnError =>
      {| code := defaultCode; message := lit "An unknown error occurred";
         errCategory := category; recoverable := false;
         suggestions := [lit "Check the system logs for more details"];
         partialResults := None |}
  end.

Definition toErrorResponse (e : InfrastructureError) : ErrorResponse :=
  {| responseCode := code e;
     responseMessage := message e;
     responseCategory := errCategory e;
     responseRecoverable := recoverable e;
     responseSuggestions := suggestions e;
     responsePartialResults := partialResults e |}.

(** [infraError.message = `${context}: ${infraError.message}`] *)
Definition withContext (context : jsstring) (e : InfrastructureError)
  : InfrastructureError :=
  {| code := code e;
     message := context ++ lit ": " ++ message e;
     errCategory := errCategory e;
     recoverable := recoverable e;
     suggestions := suggestions e;
     partialResults := partialResults e |}.

(** [handleError(error, context)]: the response, and the caught value
    after the call.  An [InfrastructureError] is handled as the object it
    is, so the assignment to its message is seen by whoever holds it;
    for every other value the assignment is made on a new object. *)
Definition handleError (error : Unknown) (context : option jsstring)
  : ErrorResponse * Unknown :=
  let infraError := fromUnknownError error analysis (lit "UNKNOWN_ERROR") in
  let infraError :=
    match context with
    | Some ((_ :: _) as c) => withContext c infraError
    | _ => infraError
    end in
  (toErrorResponse infraError,
   match error with
   | Caught (Infra _) => Caught (Infra infraError)
   | _ => error
   end).

Definition isRecoverable (error : Unknown) : bool :=
  match error with
  | Caught (Infra e) => recoverable e
  | _ => false
  end.

Definition getSuggestions (error : Unknown) : list jsstring :=
  match error with
  | Caught (Infra e) => suggestions e
  | _ => [lit "Check the error details and try again"]
  end.

(** The caught value after [n] calls of [handleError] with a context. *)
Definition handledTimes (n : nat) (context : jsstring) (error : Unknown)
  : Unknown :=
  Nat.iter n (fun err => snd (handleError err (Some context))) error.

End ErrorHandler.

(** More sample inputs. *)
Module Sample2.

(** A file of negative size beside a good one. *)
Definition negativeSize : CodebaseInput :=
  {| files :=
       [ Sample.file (lit "valid.js") (lit "x") 20 (Some source);
         Sample.file (lit "corrupted.js") (lit "y") (-1) (Some source) ];
     metadataName := lit "test-project" |}.

(** A parsed input whose second file is [null]. *)
Definition nullFile : Validation.Value :=
  Validation.VObj
    [ (lit "files",
       Validation.VArr
         [ Validation.ofFile (Sample.file (lit "a.js") (lit "x") 1 None);
           Validation.VNull ]) ].

(** Options with a limit of no file at all. *)
Definition limitZero : FileIndexer.FileIndexerOptions :=
  {| FileIndexer.maxFiles := 0;
     FileIndexer.maxFileSize := 10 * 1024 * 1024;
     FileIndexer.customIgnorePatterns := [];
     FileIndexer.includeContent := false;
     FileIndexer.calculateHashes := false;
     FileIndexer.customFileTypeRules := ∅ |}.

(** A limit of 2^60 bytes on the size of a file, and a package file of
    2^53 bytes after two files of one byte. *)
Definition largeLimit : FileIndexer.FileIndexerOptions :=
  {| FileIndexer.maxFiles := 10000;
     FileIndexer.maxFileSize := 2 ^ 60;
     FileIndexer.customIgnorePatterns := [];
     FileIndexer.includeContent := false;
     FileIndexer.calculateHashes := false;
     FileIndexer.customFileTypeRules := ∅ |}.

Definition largeFile : CodebaseInput :=
  {| files :=
       [ Sample.file (lit "a.txt") (lit "a") 1 None;
         Sample.file (lit "b.txt") (lit "b") 1 None;
         Sample.file (lit "package.json") (lit "{}") (2 ^ 53) None ];
     metadataName := lit "large" |}.

(** Two files with the names of members of [Object.prototype]. *)
Definition memberNames : CodebaseInput :=
  {| files :=
       [ Sample.file (lit "toString") (lit "a") 1 None;
         Sample.file (lit "x.constructor") (lit "b") 1 None ];
     metadataName := lit "members" |}.

(** The two files of [Sample.twoFiles] in the other order. *)
Definition nodeModulesFirst : CodebaseInput :=
  {| files :=
       [ Sample.file (lit "node_modules/x.js") (lit "y") 1 None;
         Sample.file (lit "a.js") (lit "x") 1 None ];
     metadataName := lit "two-files" |}.

(** The file utilities of the indexer's test of errors: the default
    ones, with a [getFileType] that throws for the path
    [error-file.js].  The default [calculateImportanceScore] calls
    [this.getFileType] with its path, so it throws for that path as
    well. *)
Definition mockFileUtils : InjectedFileIndexer.FileUtils.t unit :=
  let simulated (path : jsstring) :=
    streq path (lit "error-file.js") in
  {| InjectedFileIndexer.FileUtils.getFileType := fun path content =>
       if simulated path
       then InjectedFileIndexer.throw (lit "Simulated processing error")
       else InjectedFileIndexer.ret
              (DefaultFileUtils.getFileType path content);
     InjectedFileIndexer.FileUtils.calculateImportanceScore := fun path content =>
       if simulated path
       then InjectedFileIndexer.throw (lit "Simulated processing error")
       else InjectedFileIndexer.ret
              (DefaultFileUtils.calculateImportanceScore path content);
     InjectedFileIndexer.FileUtils.shouldIgnoreFile := fun path =>
       InjectedFileIndexer.ret (DefaultFileUtils.shouldIgnoreFile path);
     InjectedFileIndexer.FileUtils.getLanguageFromPath := fun path =>
       InjectedFileIndexer.ret
         (@DefaultFileUtils.getLanguageFromPath Sample.host path);
     InjectedFileIndexer.FileUtils.normalizePath := fun path =>
       InjectedFileIndexer.ret (DefaultFileUtils.normalizePath path) |}.


(** Three files, of which the second makes the utilities of the test
    throw and the third is above the size limit. *)
Definition errorFile : CodebaseInput :=
  {| files :=
       [ Sample.file (lit "src/index.ts") (lit "x") 10 (Some source);
         Sample.file (lit "error-file.js") (lit "y") 20 None;
         Sample.file (lit "big.bin") (lit "z") (11 * 1024 * 1024) None;
         Sample.file (lit "README.md") (lit "# t") 5 None ];
     metadataName := lit "test-project" |}.

(** Options with the empty text as a custom ignore pattern. *)
Definition emptyPattern : FileIndexer.FileIndexerOptions :=
  {| FileIndexer.maxFiles := 10000;
     FileIndexer.maxFileSize := 10 * 1024 * 1024;
     FileIndexer.customIgnorePatterns := [[]];
     FileIndexer.includeContent := false;
     FileIndexer.calculateHashes := false;
     FileIndexer.customFileTypeRules := ∅ |}.

End Sample2.

(* ===================================================================== *)
(** * Properties of the string operations *)
(* ===================================================================== *)

Section StringFacts.

Lemma streq_eq (a b : jsstring) : streq a b = true <-> a = b.
Proof.
  revert b; induction a as [|x a IH]; intros [|y b]; simpl; split;
    try congruence; try reflexivity.
  - rewrite andb_true_iff, N.eqb_eq, IH. intros [-> ->]; reflexivity.
  - intros [= -> ->]. rewrite N.eqb_refl. apply IH; reflexivity.
Qed.

Lemma startsWith_app (s pat : jsstring) :
  startsWith s pat = true <-> exists r, s = pat ++ r.
Proof.
  revert s; induction pat as [|p pat IH]; intros s; simpl.
  - split; [intros _; exists s; reflexivity | intros _; destruct s; reflexivity].
  - destruct s as [|c s]; simpl; [split; [discriminate | intros [r [=]]]|].
    rewrite andb_true_iff, N.eqb_eq, IH. split.
    + intros [-> [r ->]]. exists r; reflexivity.
    + intros [r [= -> ->]]. split; [reflexivity | exists r; reflexivity].
Qed.

Lemma includes_app (s pat : jsstring) :
  includes s pat = true <-> exists a b, s = a ++ pat ++ b.
Proof.
  induction s as [|c s IH]; cbn [includes].
  - rewrite orb_false_r, startsWith_app. split.
    + intros [r ->]. exists [], r; reflexivity.
    + intros [a [b E]]. destruct a; [exists b; exact E | discriminate].
  - rewrite orb_true_iff, startsWith_app, IH. split.
    + intros [[r ->] | [a [b ->]]].
      * exists [], r; reflexivity.
      * exists (c :: a), b; reflexivity.
    + intros [[|x a] [b E]].
      * left. exists b; exact E.
      * right. injection E as -> ->. exists a, b; reflexivity.
Qed.

Lemma arrayIncludes_In (arr : list jsstring) (x : jsstring) :
  arrayIncludes arr x = true <-> In x arr.
Proof.
  unfold arrayIncludes. rewrite existsb_exists. split.
  - intros [y [Hy E]]. apply streq_eq in E. subst; exact Hy.
  - intros Hx. exists x. split; [exact Hx | apply streq_eq; reflexivity].
Qed.

End StringFacts.

(* ===================================================================== *)
(** * The scorer of the file utilities *)
(* ===================================================================== *)

Module ScorerFacts.
Import DefaultFileUtils.

(** A package file name is no entry point, matches no configuration
    pattern and carries no infrastructure or schema marker. *)
Lemma package_excludes (fileName : jsstring) :
  arrayIncludes packageFilePatterns fileName = true ->
  arrayIncludes entryPointPatterns fileName = false
  /\ isConfigPattern fileName = false
  /\ (includes fileName (lit "Dockerfile")
      || includes fileName (lit "docker-compose")
      || includes fileName (lit ".github")
      || includes fileName (lit ".gitlab-ci")) = false
  /\ (includes fileName (lit "schema")
      || includes fileName (lit "openapi")
      || includes fileName (lit "swagger")) = false.
Proof.
  intros Hin. apply arrayIncludes_In in Hin.
  repeat (destruct Hin as [<- | Hin]; [vm_compute; repeat split |]).
  destruct Hin.
Qed.

(** The same for the name of an entry point. *)
Lemma entryPoint_excludes (fileName : jsstring) :
  arrayIncludes entryPointPatterns fileName = true ->
  isConfigPattern fileName = false
  /\ (includes fileName (lit "Dockerfile")
      || includes fileName (lit "docker-compose")
      || includes fileName (lit ".github")
      || includes fileName (lit ".gitlab-ci")) = false
  /\ (includes fileName (lit "schema")
      || includes fileName (lit "openapi")
      || includes fileName (lit "swagger")) = false.
Proof.
  intros Hin. apply arrayIncludes_In in Hin.
  repeat (destruct Hin as [<- | Hin]; [vm_compute; repeat split |]).
  destruct Hin.
Qed.

(** What [getFileType] answers for a package file, for a file that
    matches a configuration pattern, and for an entry point. *)
Lemma getFileType_package path content :
  arrayIncludes packageFilePatterns (fileNameOf path) = true ->
  getFileType path content = package.
Proof. intros E. unfold getFileType. rewrite E. reflexivity. Qed.

Lemma getFileType_config path content :
  arrayIncludes packageFilePatterns (fileNameOf path) = false ->
  isConfigPattern (fileNameOf path) = true ->
  getFileType path content = config.
Proof. intros E1 E2. unfold getFileType. rewrite E1, E2. reflexivity. Qed.

Lemma getFileType_entryPoint path content :
  arrayIncludes packageFilePatterns (fileNameOf path) = false ->
  isConfigPattern (fileNameOf path) = false ->
  arrayIncludes entryPointPatterns (fileNameOf path) = true ->
  getFileType path content = source.
Proof. intros E1 E2 E3. unfold getFileType. rewrite E1, E2, E3. reflexivity. Qed.

(** The content plays no part in the detection of the type. *)
Lemma getFileType_content path content content' :
  getFileType path content = getFileType path content'.
Proof. reflexivity. Qed.

Lemma getFileType_six path content :
  In (getFileType path content)
    [package; config; source; test; documentation; asset].
Proof.
  unfold getFileType.
  repeat match goal with
         | |- context [if ?b then _ else _] => destruct b
         end; simpl; tauto.
Qed.

(** The score is at most 180: 100 for a package file, 110 for an entry
    point, and otherwise 120 of markers with 60 of a configuration file
    or 30 of a source file. *)
Lemma tally_bounds path : 0 <= fst (tally path) <= 180.
Proof.
  unfold tally.
  destruct (arrayIncludes packageFilePatterns (fileNameOf path)) eqn:Epkg.
  - destruct (package_excludes _ Epkg) as (-> & -> & -> & ->).
    rewrite (getFileType_package path None Epkg). simpl. lia.
  - destruct (arrayIncludes entryPointPatterns (fileNameOf path)) eqn:Eentry.
    + destruct (entryPoint_excludes _ Eentry) as (Ecfg & -> & ->).
      rewrite (getFileType_entryPoint path None Epkg Ecfg Eentry), Ecfg.
      simpl. lia.
    + destruct (isConfigPattern (fileNameOf path)) eqn:Ecfg.
      * rewrite (getFileType_config path None Epkg Ecfg).
        unfold bonus, testPenalty; simpl.
        repeat match goal with
               | |- context [if ?b then _ else _] => destruct b
               end; simpl; lia.
      * unfold bonus, testPenalty.
        destruct (getFileType path None); simpl;
        repeat match goal with
               | |- context [if ?b then _ else _] => destruct b
               end; simpl; lia.
Qed.

End ScorerFacts.

(** C3. For every path and every optional content the score of
    [DefaultFileUtils.calculateImportanceScore] lies in the closed
    interval from 0 to 200, whichever bonuses stack, and so does the
    score of every index entry that the indexer builds, whatever the
    runtime, the options, the file and the clock reading. *)
Theorem calculateImportanceScore_in_0_200 :
  (forall (path : jsstring) (content : option jsstring),
      0 <= score (DefaultFileUtils.calculateImportanceScore path content) <= 200)
  /\ (forall (H : Host) (options : FileIndexer.FileIndexerOptions)
             (file : FileEntry.t) (now : Z),
         0 <= score (FileIndexEntry.importance
                       (FileIndexer.createFileIndexEntry options file now)) <= 200).
Proof.
  assert (Hscore : forall path content,
             0 <= score (DefaultFileUtils.calculateImportanceScore path content) <= 200).
  { intros path content. simpl.
    pose proof (ScorerFacts.tally_bounds path). lia. }
  split; [exact Hscore |].
  intros H options file now. apply Hscore.
Qed.

(** C4. The category that [DefaultFileUtils.calculateImportanceScore]
    returns is decided by its score alone: critical exactly from 80 up,
    important exactly from 50 to 79, normal exactly from 20 to 49 and
    ignore exactly below 20. *)
Theorem calculateImportanceScore_category_bands :
  forall (path : jsstring) (content : option jsstring),
    let r := DefaultFileUtils.calculateImportanceScore path content in
    (category r = critical <-> 80 <= score r)
    /\ (category r = important <-> 50 <= score r < 80)
    /\ (category r = normal <-> 20 <= score r < 50)
    /\ (category r = ignore <-> score r < 20).
Proof.
  intros path content. simpl.
  unfold DefaultFileUtils.categoryOfScore.
  generalize (fst (DefaultFileUtils.tally path)); intros s.
  destruct (Z.geb_spec s 80); [repeat split; intros; try lia; congruence |].
  destruct (Z.geb_spec s 50); [repeat split; intros; try lia; congruence |].
  destruct (Z.geb_spec s 20); repeat split; intros; try lia; congruence.
Qed.

(** C6. The scorer gives the test file [src/utils.test.ts] (score 10) a
    strictly lower score than the source file [src/utils.ts] (score 30),
    the content being the same, whatever it is. *)
Theorem test_file_scores_lower :
  forall content : option jsstring,
    score (DefaultFileUtils.calculateImportanceScore (lit "src/utils.test.ts") content)
    < score (DefaultFileUtils.calculateImportanceScore (lit "src/utils.ts") content)
    /\ score (DefaultFileUtils.calculateImportanceScore (lit "src/utils.test.ts") content) = 10
    /\ score (DefaultFileUtils.calculateImportanceScore (lit "src/utils.ts") content) = 30.
Proof. intros content. vm_compute. repeat split. Qed.

(** C10. [DefaultFileUtils.getFileType] answers one of the six types
    package, config, source, test, documentation and asset, and never
    build or schema; so an index entry has the type build or schema only
    when a custom rule or the declared type of the file says so. *)
Theorem getFileType_never_build_or_schema :
  (forall (path : jsstring) (content : option jsstring),
      In (DefaultFileUtils.getFileType path content)
        [package; config; source; test; documentation; asset]
      /\ DefaultFileUtils.getFileType path content <> build
      /\ DefaultFileUtils.getFileType path content <> schema)
  /\ (forall (H : Host) (options : FileIndexer.FileIndexerOptions)
             (file : FileEntry.t) (now : Z),
         FileIndexer.customFileTypeRules options
           !! DefaultFileUtils.normalizePath (FileEntry.path file) = None ->
         FileEntry.type file = None ->
         FileIndexEntry.type (FileIndexer.createFileIndexEntry options file now) <> build
         /\ FileIndexEntry.type (FileIndexer.createFileIndexEntry options file now) <> schema).
Proof.
  assert (Hsix : forall path content,
             In (DefaultFileUtils.getFileType path content)
               [package; config; source; test; documentation; asset]
             /\ DefaultFileUtils.getFileType path content <> build
             /\ DefaultFileUtils.getFileType path content <> schema).
  { intros path content.
    pose proof (ScorerFacts.getFileType_six path content) as Hin.
    split; [exact Hin |].
    simpl in Hin. split; intros E; rewrite E in Hin;
      repeat (destruct Hin as [Hin | Hin]; [discriminate |]); exact Hin. }
  split; [exact Hsix |].
  intros H options file now Hrule Htype.
  unfold FileIndexer.createFileIndexEntry. cbn [FileIndexEntry.type].
  rewrite Hrule, Htype. unfold getProperty.
  destruct (isObjectPrototypeMember _); [split; discriminate |].
  destruct (Hsix (DefaultFileUtils.normalizePath (FileEntry.path file))
              (Some (FileEntry.content file))) as (_ & Hb & Hs).
  split; intros [= E]; [apply Hb | apply Hs]; exact E.
Qed.

(** A file without a declared type and without a custom rule gets its
    type from the detection. *)
Lemma getFileType_never_build_or_schema_witness :
  FileIndexEntry.type
    (@FileIndexer.createFileIndexEntry Sample.host FileIndexer.defaultOptions
       (Sample.file (lit "docs\\build//schema.graphql") (lit "type Q") 6 None) 0)
  <> build
  /\ FileIndexEntry.type
       (@FileIndexer.createFileIndexEntry Sample.host FileIndexer.defaultOptions
          (Sample.file (lit "docs\\build//schema.graphql") (lit "type Q") 6 None) 0)
     <> schema.
Proof.
  apply (proj2 getFileType_never_build_or_schema Sample.host
           FileIndexer.defaultOptions
           (Sample.file (lit "docs\\build//schema.graphql") (lit "type Q") 6 None) 0);
    reflexivity.
Defined.

(* ===================================================================== *)
(** * The classifier on [package.json] *)
(* ===================================================================== *)

Module ClassifierFacts.
Import FilePriorityClassifier.

Lemma analyzeContentComplexity_bounds `{H : Host} (content extension : jsstring) :
  0 <= analyzeContentComplexity content extension <= 25.
Proof.
  unfold analyzeContentComplexity.
  repeat match goal with
         | |- context [if ?b then _ else _] => destruct b
         end; lia.
Qed.

(** The base score of [package.json] is at least 110, whatever type is
    declared for it, whatever the runtime makes of its extension and
    whether or not its content counts as a public interface: 100 for
    the package definition and at least 20 for the role, less 10 for a
    file declared as documentation. *)
Lemma package_json_base_score `{H : Host}
    (type : option FileType) (extension : jsstring) :
  110 <= calculateBaseScore (lit "package.json") (lit "package.json") extension
           (analyzeFileCharacteristics (lit "package.json")
              (Some Sample.packageJsonContent) type).
Proof.
  unfold calculateBaseScore.
  set (c := analyzeFileCharacteristics _ _ _).
  change (isPackageDefinition c) with true.
  change (isEntryPoint c) with false.
  change (isSchema c) with false.
  change (isInfrastructure c) with false.
  change (isTest c) with false.
  change (isGenerated c) with false.
  subst c.
  destruct type as [[]|];
    match goal with
    | |- context [isConfiguration ?c] =>
        let v := eval vm_compute in (isConfiguration c) in
        change (isConfiguration c) with v;
        let v := eval vm_compute in (isDocumentation c) in
        change (isDocumentation c) with v;
        let v := eval vm_compute in (architecturalRole c) in
        change (architecturalRole c) with v;
        destruct (isPublicInterface c)
    end;
    destruct (arrayIncludes sourceExtensions extension); vm_compute; discriminate.
Qed.

End ClassifierFacts.

(** C7. The classifier with its default options, on the path
    [package.json] with the content [{"name":"x"}], answers the category
    critical, the characteristic [isPackageDefinition] and a score above
    100; this for every runtime and every declared type. *)
Theorem classifyFile_package_json :
  forall (H : Host) (type : option FileType),
    let r := FilePriorityClassifier.classifyFile
               FilePriorityClassifier.defaultOptions
               (lit "package.json") (Some Sample.packageJsonContent) type in
    category (FilePriorityClassifier.importance r) = critical
    /\ FilePriorityClassifier.isPackageDefinition
         (FilePriorityClassifier.characteristics r) = true
    /\ 100 < score (FilePriorityClassifier.importance r).
Proof.
  intros H type r. subst r.
  unfold FilePriorityClassifier.classifyFile, FilePriorityClassifier.determineCategory.
  cbv beta iota zeta.
  change (FilePriorityClassifier.enableContentAnalysis
            FilePriorityClassifier.defaultOptions
          && truthy (Some Sample.packageJsonContent)) with true.
  cbv iota.
  change (DefaultFileUtils.fileNameOf (lit "package.json")) with (lit "package.json").
  set (ext := FilePriorityClassifier.extensionOf _).
  pose proof (ClassifierFacts.analyzeContentComplexity_bounds
                (orEmpty (Some Sample.packageJsonContent)) ext) as Hcx.
  pose proof (ClassifierFacts.package_json_base_score type ext) as Hb.
  set (cx := FilePriorityClassifier.analyzeContentComplexity _ _) in *.
  set (c := FilePriorityClassifier.analyzeFileCharacteristics _ _ _) in *.
  change (FilePriorityClassifier.getProjectTypeAdjustment
            FilePriorityClassifier.defaultOptions c) with 0.
  change (FilePriorityClassifier.getLanguageFrameworkAdjustment
            FilePriorityClassifier.defaultOptions (lit "package.json")
            (Some Sample.packageJsonContent)) with 0.
  change (FilePriorityClassifier.applyCustomScoringRules
            FilePriorityClassifier.defaultOptions (lit "package.json")
            (Some Sample.packageJsonContent)) with 0.
  set (b := FilePriorityClassifier.calculateBaseScore _ _ _ _) in *.
  simpl. unfold FilePriorityClassifier.categoryOfScore.
  destruct (Z.geb_spec (b + 0 + 0 + 0 + cx) 100); [| lia].
  repeat split; lia.
Qed.

(** On the sample runtime, and with no declared type, the score is 130. *)
Example classifyFile_package_json_130 :
  score (FilePriorityClassifier.importance
           (@FilePriorityClassifier.classifyFile Sample.host
              FilePriorityClassifier.defaultOptions
              (lit "package.json") (Some Sample.packageJsonContent) None)) = 130.
Proof. vm_compute. reflexivity. Qed.

(* ===================================================================== *)
(** * Path normalization *)
(* ===================================================================== *)

Module NormalizeFacts.
Import DefaultFileUtils.

Lemma collapseSlashes_cons2 (c d : N) (t : jsstring) :
  collapseSlashes (c :: d :: t) =
  if (c =? slash)%N && (d =? slash)%N then collapseSlashes (d :: t)
  else c :: collapseSlashes (d :: t).
Proof. reflexivity. Qed.

(** The first code unit stays the first. *)
Lemma collapseSlashes_head (c : N) (t : jsstring) :
  exists r, collapseSlashes (c :: t) = c :: r.
Proof.
  revert c; induction t as [|d t IH]; intros c.
  - exists []. reflexivity.
  - rewrite collapseSlashes_cons2.
    destruct ((c =? slash)%N && (d =? slash)%N) eqn:E.
    + apply andb_true_iff in E as [Ec Ed].
      apply N.eqb_eq in Ec. apply N.eqb_eq in Ed.
      rewrite Ec, <- Ed. apply IH.
    + eexists. reflexivity.
Qed.

Lemma collapseSlashes_nonslash (c : N) (t : jsstring) :
  c <> slash -> collapseSlashes (c :: t) = c :: collapseSlashes t.
Proof.
  intros Hc. destruct t as [|d t]; [reflexivity |].
  rewrite collapseSlashes_cons2.
  apply N.eqb_neq in Hc. rewrite Hc. reflexivity.
Qed.

Lemma includes_doubleSlash_cons2 (c d : N) (t : jsstring) :
  includes (c :: d :: t) doubleSlash =
  ((c =? slash)%N && (d =? slash)%N) || includes (d :: t) doubleSlash.
Proof.
  unfold doubleSlash. cbn [includes startsWith].
  destruct t; rewrite andb_true_r; reflexivity.
Qed.

Lemma includes_doubleSlash_single (c : N) : includes [c] doubleSlash = false.
Proof. unfold doubleSlash. simpl. destruct (c =? slash)%N; reflexivity. Qed.

Lemma collapseSlashes_no_doubleSlash (s : jsstring) :
  includes (collapseSlashes s) doubleSlash = false.
Proof.
  induction s as [|c t IH]; [reflexivity |].
  destruct t as [|d t]; [apply includes_doubleSlash_single |].
  rewrite collapseSlashes_cons2.
  destruct ((c =? slash)%N && (d =? slash)%N) eqn:E; [exact IH |].
  destruct (collapseSlashes_head d t) as [r Hr].
  rewrite Hr in IH |- *.
  rewrite includes_doubleSlash_cons2, E, IH. reflexivity.
Qed.

(** A string without two slashes in a row is left as it is. *)
Lemma collapseSlashes_fixed (s : jsstring) :
  includes s doubleSlash = false -> collapseSlashes s = s.
Proof.
  induction s as [|c t IH]; [reflexivity |].
  destruct t as [|d t]; [reflexivity |].
  rewrite includes_doubleSlash_cons2, collapseSlashes_cons2.
  intros E. apply orb_false_iff in E as [E1 E2].
  rewrite E1, (IH E2). reflexivity.
Qed.

Lemma collapseSlashes_In (x : N) (s : jsstring) :
  In x (collapseSlashes s) -> In x s.
Proof.
  induction s as [|c t IH]; [intros [] |].
  destruct t as [|d t]; [exact (fun H => H) |].
  rewrite collapseSlashes_cons2.
  destruct ((c =? slash)%N && (d =? slash)%N).
  - intros Hx. right. apply IH. exact Hx.
  - intros [-> | Hx]; [left; reflexivity | right; apply IH; exact Hx].
Qed.

Lemma replaceBackslashes_no_backslash (s : jsstring) :
  ~ In backslash (replaceBackslashes s).
Proof.
  unfold replaceBackslashes. rewrite in_map_iff. intros [c [E _]].
  destruct (N.eqb_spec c backslash) as [Hc | Hc]; [discriminate E | congruence].
Qed.

Lemma replaceBackslashes_fixed (s : jsstring) :
  ~ In backslash s -> replaceBackslashes s = s.
Proof.
  induction s as [|c s IH]; [reflexivity |].
  intros Hn. simpl.
  destruct (N.eqb_spec c backslash) as [Hc | Hc].
  - exfalso. apply Hn. left. exact Hc.
  - f_equal. apply IH. intros Hin. apply Hn. right. exact Hin.
Qed.

Lemma normalizePath_no_backslash (p : jsstring) :
  ~ In backslash (normalizePath p).
Proof.
  intros Hin. apply collapseSlashes_In in Hin.
  exact (replaceBackslashes_no_backslash p Hin).
Qed.

Lemma normalizePath_twice (p : jsstring) :
  normalizePath (normalizePath p) = normalizePath p.
Proof.
  unfold normalizePath at 1.
  rewrite (replaceBackslashes_fixed _ (normalizePath_no_backslash p)).
  apply collapseSlashes_fixed. apply collapseSlashes_no_doubleSlash.
Qed.

(** The code units that are no separators are kept, in their order. *)
Lemma collapseSlashes_keeps (s : jsstring) :
  List.filter (fun c => negb (isSeparator c)) (collapseSlashes s)
  = List.filter (fun c => negb (isSeparator c)) s.
Proof.
  induction s as [|c t IH]; [reflexivity |].
  destruct t as [|d t]; [reflexivity |].
  rewrite collapseSlashes_cons2.
  destruct ((c =? slash)%N && (d =? slash)%N) eqn:E.
  - apply andb_true_iff in E as [Ec _].
    rewrite IH. symmetry.
    change (List.filter (fun c => negb (isSeparator c)) (c :: d :: t))
      with (if negb (isSeparator c)
            then c :: List.filter (fun c => negb (isSeparator c)) (d :: t)
            else List.filter (fun c => negb (isSeparator c)) (d :: t)).
    unfold isSeparator at 1. rewrite Ec. reflexivity.
  - cbn [List.filter]. rewrite IH. reflexivity.
Qed.

Lemma replaceBackslashes_keeps (s : jsstring) :
  List.filter (fun c => negb (isSeparator c)) (replaceBackslashes s)
  = List.filter (fun c => negb (isSeparator c)) s.
Proof.
  induction s as [|c s IH]; [reflexivity |].
  cbn [replaceBackslashes List.map List.filter].
  fold (replaceBackslashes s). rewrite IH.
  unfold isSeparator.
  destruct (c =? backslash)%N eqn:Hc; rewrite ?Hc, ?orb_true_r; reflexivity.
Qed.

(** A slash in front survives the collapse. *)
Lemma collapseSlashes_app_nonslash (a : jsstring) (c : N) (t : jsstring) :
  c <> slash ->
  collapseSlashes (a ++ c :: t) = collapseSlashes a ++ collapseSlashes (c :: t).
Proof.
  intros Hc. induction a as [|x a IH]; [reflexivity |].
  destruct a as [|y a].
  - cbn [app]. rewrite collapseSlashes_cons2.
    apply N.eqb_neq in Hc. rewrite Hc, andb_false_r. reflexivity.
  - cbn [app] in IH |- *. rewrite !collapseSlashes_cons2, IH.
    destruct ((x =? slash)%N && (y =? slash)%N); reflexivity.
Qed.

Lemma collapseSlashes_word (w t : jsstring) :
  Forall (fun c => c <> slash) w ->
  collapseSlashes (w ++ t) = w ++ collapseSlashes t.
Proof.
  induction 1 as [|c w Hc _ IH]; [reflexivity |].
  cbn [app]. rewrite (collapseSlashes_nonslash c _ Hc), IH. reflexivity.
Qed.

(** A path that contains a word followed by a slash still contains it
    after the normalization, when the word has no separator. *)
Lemma normalizePath_keeps_directory (w p : jsstring) :
  w <> [] ->
  Forall (fun c => c <> slash) w ->
  ~ In backslash w ->
  includes p (w ++ [slash]) = true ->
  includes (normalizePath p) (w ++ [slash]) = true.
Proof.
  intros Hne Hw Hb Hin.
  apply includes_app in Hin as (a & b & ->).
  apply includes_app.
  unfold normalizePath, replaceBackslashes.
  rewrite !map_app. fold (replaceBackslashes w).
  rewrite (replaceBackslashes_fixed w Hb).
  cbn [List.map]. change (if (slash =? backslash)%N then slash else slash) with slash.
  destruct w as [|c w]; [congruence |].
  inversion Hw as [|? ? Hc Hw']; subst.
  rewrite <- app_assoc. cbn [app].
  rewrite (collapseSlashes_app_nonslash _ c _ Hc).
  change (c :: w ++ slash :: List.map _ b) with ((c :: w) ++ slash :: List.map (fun c0 => if (c0 =? backslash)%N then slash else c0) b).
  rewrite (collapseSlashes_word (c :: w) _ Hw).
  destruct (collapseSlashes_head slash
              (List.map (fun c0 => if (c0 =? backslash)%N then slash else c0) b))
    as [r Hr].
  rewrite Hr.
  exists (collapseSlashes
            (List.map (fun c0 => if (c0 =? backslash)%N then slash else c0) a)), r.
  f_equal. cbn [app]. f_equal. rewrite <- app_assoc. reflexivity.
Qed.

End NormalizeFacts.

Module NormalizeShape.
Import DefaultFileUtils.

(** The normal form, one code unit at a time: a code unit that is no
    separator is kept, a separator in front of a separator is dropped,
    and a separator in front of anything else is a slash. *)
Lemma normalizePath_other (c : N) (p : jsstring) :
  isSeparator c = false -> normalizePath (c :: p) = c :: normalizePath p.
Proof.
  unfold isSeparator, normalizePath. intros Hc.
  apply orb_false_iff in Hc as [Hs Hb].
  cbn [replaceBackslashes List.map]. rewrite Hb.
  apply NormalizeFacts.collapseSlashes_nonslash.
  apply N.eqb_neq. exact Hs.
Qed.

Lemma replaceBackslashes_separator (c : N) :
  isSeparator c = true -> (if (c =? backslash)%N then slash else c) = slash.
Proof.
  unfold isSeparator. intros Hc.
  destruct (c =? backslash)%N; [reflexivity |].
  rewrite orb_false_r in Hc. apply N.eqb_eq in Hc. exact Hc.
Qed.

Lemma normalizePath_run (c d : N) (p : jsstring) :
  isSeparator c = true -> isSeparator d = true ->
  normalizePath (c :: d :: p) = normalizePath (d :: p).
Proof.
  unfold normalizePath. intros Hc Hd.
  cbn [replaceBackslashes List.map].
  rewrite (replaceBackslashes_separator c Hc), (replaceBackslashes_separator d Hd).
  rewrite NormalizeFacts.collapseSlashes_cons2. reflexivity.
Qed.

Lemma normalizePath_last (c : N) :
  isSeparator c = true -> normalizePath [c] = [slash].
Proof.
  unfold normalizePath. intros Hc. cbn [replaceBackslashes List.map].
  rewrite (replaceBackslashes_separator c Hc). reflexivity.
Qed.

Lemma normalizePath_end_of_run (c d : N) (p : jsstring) :
  isSeparator c = true -> isSeparator d = false ->
  normalizePath (c :: d :: p) = slash :: normalizePath (d :: p).
Proof.
  unfold normalizePath. intros Hc Hd.
  cbn [replaceBackslashes List.map].
  rewrite (replaceBackslashes_separator c Hc).
  unfold isSeparator in Hd. apply orb_false_iff in Hd as [Hs Hb].
  rewrite Hb. rewrite NormalizeFacts.collapseSlashes_cons2.
  rewrite Hs, andb_false_r. reflexivity.
Qed.

End NormalizeShape.

Module NormalizeSpecFacts.

(** The code and the words of the specification give the same path. *)
Lemma normalizePath_collapseRuns (p : jsstring) :
  DefaultFileUtils.normalizePath p = NormalizePathSpec.collapseRuns false p
  /\ forall c, isSeparator c = true ->
               DefaultFileUtils.normalizePath (c :: p)
               = slash :: NormalizePathSpec.collapseRuns true p.
Proof.
  induction p as [|d q [IHa IHb]].
  - split; [reflexivity |]. intros c Hc.
    apply NormalizeShape.normalizePath_last. exact Hc.
  - destruct (isSeparator d) eqn:Hd.
    + split.
      * cbn [NormalizePathSpec.collapseRuns]. rewrite Hd. apply IHb. exact Hd.
      * intros c Hc. cbn [NormalizePathSpec.collapseRuns]. rewrite Hd.
        rewrite (NormalizeShape.normalizePath_run c d q Hc Hd).
        apply IHb. exact Hd.
    + split.
      * cbn [NormalizePathSpec.collapseRuns]. rewrite Hd.
        rewrite (NormalizeShape.normalizePath_other d q Hd), IHa. reflexivity.
      * intros c Hc. cbn [NormalizePathSpec.collapseRuns]. rewrite Hd.
        rewrite (NormalizeShape.normalizePath_end_of_run c d q Hc Hd).
        rewrite (NormalizeShape.normalizePath_other d q Hd), IHa. reflexivity.
Qed.

End NormalizeSpecFacts.

(** C8. [DefaultFileUtils.normalizePath] turns every backslash into a
    slash and every run of slashes into one slash.  It is the function
    that the words of the specification describe; one code unit at a
    time, it keeps a code unit that is no separator, drops a separator
    that stands in front of a separator and writes a slash for the last
    separator of a run.  So its result has no backslash and no two
    slashes in a row, it keeps every other code unit in its order, and
    normalizing a second time changes nothing. *)
Theorem normalizePath_normal_form :
  forall p : jsstring,
    DefaultFileUtils.normalizePath p = NormalizePathSpec.normalizePath p
    /\ (forall c, isSeparator c = false ->
                  DefaultFileUtils.normalizePath (c :: p)
                  = c :: DefaultFileUtils.normalizePath p)
    /\ (forall c d, isSeparator c = true -> isSeparator d = true ->
                    DefaultFileUtils.normalizePath (c :: d :: p)
                    = DefaultFileUtils.normalizePath (d :: p))
    /\ (forall c d, isSeparator c = true -> isSeparator d = false ->
                    DefaultFileUtils.normalizePath (c :: d :: p)
                    = slash :: DefaultFileUtils.normalizePath (d :: p))
    /\ (forall c, isSeparator c = true ->
                  DefaultFileUtils.normalizePath [c] = [slash])
    /\ ~ In backslash (DefaultFileUtils.normalizePath p)
    /\ includes (DefaultFileUtils.normalizePath p) (lit "//") = false
    /\ List.filter (fun c => negb (isSeparator c))
         (DefaultFileUtils.normalizePath p)
       = List.filter (fun c => negb (isSeparator c)) p
    /\ DefaultFileUtils.normalizePath (DefaultFileUtils.normalizePath p)
       = DefaultFileUtils.normalizePath p.
Proof.
  intros p.
  split; [apply NormalizeSpecFacts.normalizePath_collapseRuns |].
  split; [intros c; apply NormalizeShape.normalizePath_other |].
  split; [intros c d; apply NormalizeShape.normalizePath_run |].
  split; [intros c d; apply NormalizeShape.normalizePath_end_of_run |].
  split; [intros c; apply NormalizeShape.normalizePath_last |].
  repeat split.
  - apply NormalizeFacts.normalizePath_no_backslash.
  - apply NormalizeFacts.collapseSlashes_no_doubleSlash.
  - unfold DefaultFileUtils.normalizePath.
    rewrite NormalizeFacts.collapseSlashes_keeps.
    apply NormalizeFacts.replaceBackslashes_keeps.
  - apply NormalizeFacts.normalizePath_twice.
Qed.

Example normalizePath_sample :
  DefaultFileUtils.normalizePath (lit "src\\\\utils///helper.ts\\")
  = lit "src/utils/helper.ts/".
Proof. vm_compute. reflexivity. Qed.

(* ===================================================================== *)
(** * The sort *)
(* ===================================================================== *)

Section SortFacts.
Context {A : Type}.
Variable key : A -> Z.
Variable compareFn : A -> A -> Z.
Hypothesis compareFn_key : forall a b, compareFn a b = key b - key a.

Lemma insertSorted_perm (x : A) (l : list A) :
  Permutation (insertSorted compareFn x l) (x :: l).
Proof.
  induction l as [|y l IH]; simpl; [reflexivity |].
  destruct (compareFn x y <=? 0); [reflexivity |].
  rewrite IH. apply perm_swap.
Qed.

Lemma sort_perm (l : list A) : Permutation (sort compareFn l) l.
Proof.
  induction l as [|x l IH]; simpl; [reflexivity |].
  rewrite insertSorted_perm, IH. reflexivity.
Qed.

Lemma insertSorted_sorted (x : A) (l : list A) :
  StronglySorted (fun a b => key b <= key a) l ->
  StronglySorted (fun a b => key b <= key a) (insertSorted compareFn x l).
Proof.
  induction 1 as [|y l Hl IH Hy]; simpl.
  - constructor; constructor.
  - destruct (Z.leb_spec (compareFn x y) 0) as [Hle | Hgt];
      rewrite compareFn_key in *.
    + constructor; [constructor; assumption |].
      constructor; [lia |].
      eapply Forall_impl; [exact Hy |]. simpl. intros z Hz. lia.
    + constructor; [exact IH |].
      eapply Permutation_Forall; [symmetry; apply insertSorted_perm |].
      constructor; [lia | exact Hy].
Qed.

Lemma sort_sorted (l : list A) :
  StronglySorted (fun a b => key b <= key a) (sort compareFn l).
Proof.
  induction l as [|x l IH]; simpl; [constructor |].
  apply insertSorted_sorted. exact IH.
Qed.

(** The elements of one key keep their order: an element only passes
    elements of a greater key. *)
Lemma insertSorted_filter (k : Z) (x : A) (l : list A) :
  List.filter (fun y => key y =? k) (insertSorted compareFn x l)
  = List.filter (fun y => key y =? k) (x :: l).
Proof.
  induction l as [|y l IH]; [reflexivity |].
  cbn [insertSorted].
  destruct (Z.leb_spec (compareFn x y) 0) as [Hle | Hgt]; [reflexivity |].
  rewrite compareFn_key in Hgt.
  cbn [List.filter] in IH |- *. rewrite IH.
  destruct (Z.eqb_spec (key x) k), (Z.eqb_spec (key y) k);
    try reflexivity; lia.
Qed.

Lemma sort_stable (k : Z) (l : list A) :
  List.filter (fun y => key y =? k) (sort compareFn l)
  = List.filter (fun y => key y =? k) l.
Proof.
  induction l as [|x l IH]; [reflexivity |].
  cbn [sort fold_right]. fold (sort compareFn l).
  rewrite insertSorted_filter. cbn [List.filter]. rewrite IH. reflexivity.
Qed.

End SortFacts.

(* ===================================================================== *)
(** * The loop of the indexer *)
(* ===================================================================== *)

Module IndexerFacts.
Import FileIndexer.

Section Lists.
Context {A B : Type}.

Lemma sublist_filter_l (p : A -> bool) (l : list A) :
  sublist (List.filter p l) l.
Proof.
  induction l as [|x l IH]; simpl; [constructor |].
  destruct (p x); constructor; exact IH.
Qed.

Lemma sublist_map_inv (g : A -> B) (l : list A) (k : list B) :
  sublist k (List.map g l) ->
  exists k0, sublist k0 l /\ k = List.map g k0.
Proof.
  revert k; induction l as [|x l IH]; intros k Hk; simpl in Hk.
  - inversion Hk; subst. exists []. split; [constructor | reflexivity].
  - inversion Hk as [| y k1 l1 Hk1 | y k1 l1 Hk1]; subst.
    + destruct (IH _ Hk1) as (k0 & Hs & ->).
      exists (x :: k0). split; [constructor; exact Hs | reflexivity].
    + destruct (IH _ Hk1) as (k0 & Hs & ->).
      exists k0. split; [constructor; exact Hs | reflexivity].
Qed.

Lemma Forall2_map_left {C : Type} (R : B -> C -> Prop) (g : A -> B)
    (k : list A) (es : list C) :
  Forall2 R (List.map g k) es <-> Forall2 (fun f e => R (g f) e) k es.
Proof.
  revert es; induction k as [|x k IH]; intros es; simpl; split; intros HF;
    inversion HF; subst; constructor; try assumption; apply IH; assumption.
Qed.
End Lists.

Section Loop.
Context `{H : Host}.
Variable options : FileIndexerOptions.

Lemma step_errors (st : LoopState) (f : FileEntry.t) :
  st_errors (step options st f) = st_errors st ++ errorOf options f.
Proof.
  unfold step, processFile, errorOf.
  destruct (shouldIgnoreFile options (FileEntry.path f)) as [[|]|];
    simpl; rewrite ?app_nil_r; try reflexivity.
  destruct (FileEntry.size f >? maxFileSize options); simpl;
    rewrite ?app_nil_r; try reflexivity.
  destruct (_ >=? _); simpl; rewrite ?app_nil_r; reflexivity.
Qed.

Lemma step_filesIgnored (st : LoopState) (f : FileEntry.t) :
  st_filesIgnored (step options st f)
  = st_filesIgnored st + (if countsAsIgnored options f then 1 else 0).
Proof.
  unfold step, processFile, countsAsIgnored.
  destruct (shouldIgnoreFile options (FileEntry.path f)) as [[|]|];
    simpl; try lia.
  destruct (FileEntry.size f >? maxFileSize options); simpl; try lia.
  destruct (_ >=? _); simpl; lia.
Qed.

Lemma step_fileIndex (st : LoopState) (f : FileEntry.t) :
  st_fileIndex (step options st f)
  = st_fileIndex st
    ++ (if isIndexed options f
        then [createFileIndexEntry options f
                (clock (S (length (st_fileIndex st))))]
        else []).
Proof.
  unfold step, processFile, isIndexed.
  destruct (shouldIgnoreFile options (FileEntry.path f)) as [[|]|];
    simpl; rewrite ?app_nil_r; try reflexivity.
  destruct (FileEntry.size f >? maxFileSize options); simpl;
    rewrite ?app_nil_r; try reflexivity.
  destruct (_ >=? _); simpl; reflexivity.
Qed.

Lemma step_warnings_kept (st : LoopState) (f : FileEntry.t) (w : jsstring) :
  In w (st_warnings st) -> In w (st_warnings (step options st f)).
Proof.
  unfold step, processFile.
  destruct (shouldIgnoreFile options (FileEntry.path f)) as [[|]|];
    simpl; try tauto.
  destruct (FileEntry.size f >? maxFileSize options); simpl.
  - intros Hw. apply in_or_app. left. exact Hw.
  - destruct (_ >=? _); simpl; [| tauto].
    intros Hw. apply in_or_app. left. exact Hw.
Qed.

(** The warning of a file above the size limit. *)
Lemma step_warns_oversize (st : LoopState) (f : FileEntry.t) :
  shouldIgnoreFile options (FileEntry.path f) = Ok false ->
  FileEntry.size f > maxFileSize options ->
  In (lit "File " ++ FileEntry.path f ++ lit " exceeds maximum size limit ("
      ++ showZ (FileEntry.size f) ++ lit " bytes)")
     (st_warnings (step options st f)).
Proof.
  intros Hig Hsize. unfold step, processFile. rewrite Hig.
  destruct (Z.gtb_spec (FileEntry.size f) (maxFileSize options)); [| lia].
  simpl. apply in_or_app. right. left. reflexivity.
Qed.

(** The loop is only left at the limit. *)
Lemma stop_at_limit (st : LoopState) (f : FileEntry.t) :
  snd (processFile options st f) = true ->
  maxFiles options <= Z.of_nat (length (st_fileIndex (step options st f))).
Proof.
  unfold step, processFile.
  destruct (shouldIgnoreFile options (FileEntry.path f)) as [[|]|];
    simpl; try discriminate.
  destruct (FileEntry.size f >? maxFileSize options); simpl; try discriminate.
  destruct (Z.geb_spec
              (Z.of_nat (length (st_fileIndex st ++
                 [createFileIndexEntry options f
                    (clock (S (length (st_fileIndex st))))])))
              (maxFiles options)); simpl; [intros _; lia | discriminate].
Qed.

Lemma fold_fileIndex_length (done : list FileEntry.t) (st : LoopState) :
  (length (st_fileIndex st)
   <= length (st_fileIndex (fold_left (step options) done st)))%nat.
Proof.
  revert st; induction done as [|f done IH]; intros st; simpl; [lia |].
  etransitivity; [| apply IH].
  rewrite step_fileIndex, length_app. lia.
Qed.

(** The loop runs the turns of a first part of the files, and of all
    of them unless it reaches the limit. *)
Lemma loop_prefix (files : list FileEntry.t) (st : LoopState) :
  exists done rest,
    files = done ++ rest
    /\ loop options files st = fold_left (step options) done st
    /\ (Z.of_nat (length (st_fileIndex (loop options files st)))
        < maxFiles options -> rest = []).
Proof.
  revert st; induction files as [|f files IH]; intros st.
  - exists [], []. repeat split; reflexivity.
  - cbn [loop].
    destruct (processFile options st f) as [st' stop] eqn:E.
    assert (Hst' : st' = step options st f) by (unfold step; rewrite E; reflexivity).
    destruct stop.
    + exists [f], files. repeat split.
      * simpl. exact Hst'.
      * intros Hlt. pose proof (stop_at_limit st f) as Hlim.
        rewrite E in Hlim. specialize (Hlim eq_refl).
        rewrite <- Hst' in Hlim. lia.
    + destruct (IH st') as (done & rest & -> & Hloop & Hrest).
      exists (f :: done), rest. repeat split.
      * simpl. rewrite <- Hst'. exact Hloop.
      * exact Hrest.
Qed.

Lemma fold_errors (done : list FileEntry.t) (st : LoopState) :
  st_errors (fold_left (step options) done st)
  = st_errors st ++ flat_map (errorOf options) done.
Proof.
  revert st; induction done as [|f done IH]; intros st; simpl.
  - rewrite app_nil_r. reflexivity.
  - rewrite IH, step_errors, <- app_assoc. reflexivity.
Qed.

Lemma fold_filesIgnored (done : list FileEntry.t) (st : LoopState) :
  st_filesIgnored (fold_left (step options) done st)
  = st_filesIgnored st
    + Z.of_nat (length (List.filter (countsAsIgnored options) done)).
Proof.
  revert st; induction done as [|f done IH]; intros st; simpl; [lia |].
  rewrite IH, step_filesIgnored.
  destruct (countsAsIgnored options f); simpl length; lia.
Qed.

Lemma fold_warnings_kept (done : list FileEntry.t) (st : LoopState) (w : jsstring) :
  In w (st_warnings st) -> In w (st_warnings (fold_left (step options) done st)).
Proof.
  revert st; induction done as [|f done IH]; intros st Hw; simpl; [exact Hw |].
  apply IH. apply step_warnings_kept. exact Hw.
Qed.

Lemma fold_warns_oversize (done : list FileEntry.t) (st : LoopState) (f : FileEntry.t) :
  In f done ->
  shouldIgnoreFile options (FileEntry.path f) = Ok false ->
  FileEntry.size f > maxFileSize options ->
  In (lit "File " ++ FileEntry.path f ++ lit " exceeds maximum size limit ("
      ++ showZ (FileEntry.size f) ++ lit " bytes)")
     (st_warnings (fold_left (step options) done st)).
Proof.
  revert st; induction done as [|g done IH]; intros st Hin Hig Hsize;
    [destruct Hin |].
  simpl. destruct Hin as [-> | Hin].
  - apply fold_warnings_kept. apply step_warns_oversize; assumption.
  - apply IH; assumption.
Qed.

(** The entries are those of the files that are indexed, in the order
    of the files. *)
Lemma fold_fileIndex (done : list FileEntry.t) (st : LoopState) :
  exists new,
    st_fileIndex (fold_left (step options) done st) = st_fileIndex st ++ new
    /\ Forall2 (fun f e => exists now, e = createFileIndexEntry options f now)
         (List.filter (isIndexed options) done) new.
Proof.
  revert st; induction done as [|f done IH]; intros st; simpl.
  - exists []. rewrite app_nil_r. split; [reflexivity | constructor].
  - destruct (IH (step options st f)) as (new & Hnew & HF).
    rewrite Hnew, step_fileIndex.
    destruct (isIndexed options f).
    + eexists (_ :: new). rewrite <- app_assoc. split; [reflexivity |].
      constructor; [eexists; reflexivity | exact HF].
    + exists new. rewrite app_nil_r. split; [reflexivity | exact HF].
Qed.

(** ** The validity filter *)

Lemma filterFiles_map (files : list FileEntry.t) :
  filterFiles files = List.map normalized (List.filter isValidFile files).
Proof.
  induction files as [|f files IH]; [reflexivity |].
  cbn [filterFiles flat_map List.filter]. fold (filterFiles files).
  rewrite IH.
  destruct f as [[|n p] c sz ty];
    cbn [isValidFile FileEntry.path FileEntry.size]; [reflexivity |].
  destruct (sz <? 0); reflexivity.
Qed.

Lemma isIndexed_not_ignored (f : FileEntry.t) :
  isIndexed options f = true ->
  DefaultFileUtils.shouldIgnoreFile (FileEntry.path f) = false.
Proof.
  unfold isIndexed, shouldIgnoreFile.
  destruct (DefaultFileUtils.shouldIgnoreFile (FileEntry.path f));
    [discriminate | reflexivity].
Qed.

Lemma ignored_counts (f : FileEntry.t) :
  DefaultFileUtils.shouldIgnoreFile (FileEntry.path f) = true ->
  countsAsIgnored options f = true.
Proof.
  intros E. unfold countsAsIgnored, shouldIgnoreFile. rewrite E. reflexivity.
Qed.

End Loop.

(** Every path with [node_modules/] in it is ignored by the file
    utilities. *)
Lemma shouldIgnoreFile_node_modules (path : jsstring) :
  includes path (lit "node_modules/") = true ->
  DefaultFileUtils.shouldIgnoreFile path = true.
Proof.
  intros Hin. unfold DefaultFileUtils.shouldIgnoreFile, DefaultFileUtils.ignorePaths.
  cbn [existsb]. unfold DefaultFileUtils.ignoreMatches at 1.
  change (endsWith (lit "node_modules/") [slash]) with true. cbv iota.
  rewrite Hin. reflexivity.
Qed.

Lemma normalizePath_keeps_node_modules (path : jsstring) :
  includes path (lit "node_modules/") = true ->
  includes (DefaultFileUtils.normalizePath path) (lit "node_modules/") = true.
Proof.
  change (lit "node_modules/") with (lit "node_modules" ++ [slash]).
  apply NormalizeFacts.normalizePath_keeps_directory.
  - discriminate.
  - vm_compute. repeat constructor; discriminate.
  - vm_compute. intuition discriminate.
Qed.

(** The valid files under [node_modules/] are among the files that a
    turn of the loop counts as ignored. *)
Lemma node_modules_counted `{H : Host} (options : FileIndexerOptions)
    (files : list FileEntry.t) :
  (length (List.filter isNodeModulesFile files)
   <= length (List.filter (countsAsIgnored options) (filterFiles files)))%nat.
Proof.
  rewrite filterFiles_map.
  induction files as [|f files IH]; [reflexivity |].
  cbn [List.filter]. unfold isNodeModulesFile at 1.
  destruct (isValidFile f) eqn:Ev; cbn [andb List.map List.filter].
  - destruct (includes (FileEntry.path f) (lit "node_modules/")) eqn:Enm.
    + rewrite (ignored_counts options (normalized f)).
      * simpl. lia.
      * apply shouldIgnoreFile_node_modules.
        apply normalizePath_keeps_node_modules. exact Enm.
    + destruct (countsAsIgnored options (normalized f)); simpl; lia.
  - exact IH.
Qed.

(** No entry made of an indexed file with a normalized path lies under
    [node_modules/]. *)
Lemma entries_not_node_modules `{H : Host} (options : FileIndexerOptions)
    (kept : list FileEntry.t) (made : list FileIndexEntry.t) :
  Forall2 (fun f e => exists now, e = createFileIndexEntry options f now) kept made ->
  (forall f, In f kept ->
             isIndexed options f = true /\ exists f0, f = normalized f0) ->
  forall e, In e made ->
            includes (FileIndexEntry.path e) (lit "node_modules/") = false.
Proof.
  induction 1 as [|f e' kept made [now ->] _ IH]; intros Hkept e He;
    [destruct He |].
  destruct He as [<- | He].
  - destruct (Hkept f (or_introl eq_refl)) as [Hix [f0 ->]].
    apply isIndexed_not_ignored in Hix.
    unfold createFileIndexEntry, normalized in *.
    cbn [FileIndexEntry.path FileEntry.path] in *.
    rewrite NormalizeFacts.normalizePath_twice.
    destruct (includes (DefaultFileUtils.normalizePath (FileEntry.path f0))
                (lit "node_modules/")) eqn:E; [| reflexivity].
    apply shouldIgnoreFile_node_modules in E. congruence.
  - apply IH; [| exact He].
    intros g Hg. apply Hkept. right. exact Hg.
Qed.

End IndexerFacts.

(* ===================================================================== *)
(** * The index of a run *)
(* ===================================================================== *)

Module RunFacts.
Import FileIndexer.

Section Run.
Context `{H : Host}.
Variable options : FileIndexerOptions.

(** A run that returns is the run of the loop on a codebase with
    files, followed by the sort. *)
Lemma indexCodebase_Ok (input : CodebaseInput) (r : IndexingResult) :
  indexCodebase options input = Ok r ->
  files input <> []
  /\ CodebaseIndex.fileIndex (index r)
     = sort byScoreDescending (st_fileIndex (collected options input))
  /\ filesIndexed (statistics r)
     = Z.of_nat (length (st_fileIndex (collected options input)))
  /\ filesIgnored (statistics r) = st_filesIgnored (collected options input)
  /\ errors (statistics r) = st_errors (collected options input)
  /\ warnings (statistics r) = st_warnings (collected options input).
Proof.
  unfold indexCodebase, tryIndexCodebase.
  destruct (files input) as [|f fs] eqn:Ef; [discriminate |].
  intros [= <-]. cbn.
  repeat split; try reflexivity; try discriminate.
  f_equal. apply Permutation_length.
  apply sort_perm.
Qed.


(** The loop of a run, as the turns of the files it reaches. *)
Lemma collected_turns (input : CodebaseInput) :
  exists done rest,
    filterFiles (files input) = done ++ rest
    /\ (Z.of_nat (length (st_fileIndex (collected options input)))
        < maxFiles options -> rest = [])
    /\ st_errors (collected options input) = flat_map (errorOf options) done
    /\ st_filesIgnored (collected options input)
       = Z.of_nat (length (List.filter (countsAsIgnored options) done))
    /\ Forall2 (fun f e => exists now, e = createFileIndexEntry options f now)
         (List.filter (isIndexed options) done)
         (st_fileIndex (collected options input))
    /\ (forall f,
           In f done ->
           shouldIgnoreFile options (FileEntry.path f) = Ok false ->
           FileEntry.size f > maxFileSize options ->
           In (lit "File " ++ FileEntry.path f
               ++ lit " exceeds maximum size limit ("
               ++ showZ (FileEntry.size f) ++ lit " bytes)")
              (st_warnings (collected options input))).
Proof.
  unfold collected.
  set (st0 := {| st_fileIndex := []; st_totalSize := 0; st_filesIgnored := 0;
                 st_errors := []; st_warnings := _ |}).
  destruct (IndexerFacts.loop_prefix options (filterFiles (files input)) st0)
    as (done & rest & Hsplit & Hloop & Hrest).
  exists done, rest. rewrite Hloop in *.
  split; [exact Hsplit |]. split; [exact Hrest |].
  split; [apply (IndexerFacts.fold_errors options done st0) |].
  split; [apply (IndexerFacts.fold_filesIgnored options done st0) |].
  split.
  - destruct (IndexerFacts.fold_fileIndex options done st0) as (new & -> & HF).
    exact HF.
  - intros f Hf Hig Hsize.
    apply IndexerFacts.fold_warns_oversize; assumption.
Qed.

End Run.
End RunFacts.

(** C1. In every run of [indexCodebase] that returns, [fileIndex] is in
    non-increasing order of [importance.score].  It is a rearrangement of
    the entries that the loop made, the entries of one score are in the
    order in which the loop made them, and the loop made them in the
    order of the input: there is a selection of the input files, kept in
    their order, of which the entries are the entries, one for one. *)
Theorem fileIndex_sorted_stable :
  forall (H : Host) (options : FileIndexer.FileIndexerOptions)
         (input : CodebaseInput) (r : FileIndexer.IndexingResult),
    FileIndexer.indexCodebase options input = Ok r ->
    let fileIndex := CodebaseIndex.fileIndex (FileIndexer.index r) in
    let made := FileIndexer.st_fileIndex (FileIndexer.collected options input) in
    StronglySorted
      (fun a b => score (FileIndexEntry.importance b)
                  <= score (FileIndexEntry.importance a)) fileIndex
    /\ Permutation fileIndex made
    /\ (forall s : Z,
           List.filter (fun e => score (FileIndexEntry.importance e) =? s) fileIndex
           = List.filter (fun e => score (FileIndexEntry.importance e) =? s) made)
    /\ exists kept : list FileEntry.t,
         sublist kept (files input)
         /\ Forall2
              (fun f e =>
                 FileIndexEntry.path e
                 = DefaultFileUtils.normalizePath (FileEntry.path f)
                 /\ FileIndexEntry.size e = FileEntry.size f
                 /\ FileIndexEntry.importance e
                    = DefaultFileUtils.calculateImportanceScore
                        (DefaultFileUtils.normalizePath (FileEntry.path f))
                        (Some (FileEntry.content f)))
              kept made.
Proof.
  intros H options input r Hrun fileIndex made.
  destruct (RunFacts.indexCodebase_Ok options input r Hrun) as (_ & Hidx & _).
  subst fileIndex made. rewrite Hidx.
  set (key := fun e => score (FileIndexEntry.importance e)).
  assert (Hkey : forall a b, FileIndexer.byScoreDescending a b = key b - key a)
    by reflexivity.
  split; [apply (sort_sorted key _ Hkey) |].
  split; [apply sort_perm |].
  split; [intros s; apply (sort_stable key _ Hkey) |].
  destruct (RunFacts.collected_turns options input)
    as (done & rest & Hsplit & _ & _ & _ & HF & _).
  assert (Hsub : sublist (List.filter (FileIndexer.isIndexed options) done)
                   (List.map FileIndexer.normalized
                      (List.filter FileIndexer.isValidFile (files input)))).
  { rewrite <- IndexerFacts.filterFiles_map, Hsplit.
    apply sublist_inserts_r. apply IndexerFacts.sublist_filter_l. }
  apply IndexerFacts.sublist_map_inv in Hsub as (kept & Hkept & Ekept).
  exists kept. split.
  - etransitivity; [exact Hkept | apply IndexerFacts.sublist_filter_l].
  - rewrite Ekept in HF. apply IndexerFacts.Forall2_map_left in HF.
    eapply Forall2_impl; [exact HF |].
    intros f e [now ->].
    unfold FileIndexer.createFileIndexEntry, FileIndexer.normalized.
    cbn [FileIndexEntry.path FileIndexEntry.size FileIndexEntry.importance
         FileEntry.path FileEntry.size FileEntry.content].
    rewrite !NormalizeFacts.normalizePath_twice. repeat split.
Qed.

(** The sample codebase: the seven entries come out by falling score, 130,
    110, 100, 60, 30, 10 and 0. *)
Lemma fileIndex_sorted_stable_witness :
  exists r : FileIndexer.IndexingResult,
    @FileIndexer.indexCodebase Sample.host FileIndexer.defaultOptions
      Sample.mockCodebaseInput = Ok r
    /\ List.map (fun e => score (FileIndexEntry.importance e))
         (CodebaseIndex.fileIndex (FileIndexer.index r))
       = [130; 110; 100; 60; 30; 10; 0]
    /\ StronglySorted
         (fun a b => score (FileIndexEntry.importance b)
                     <= score (FileIndexEntry.importance a))
         (CodebaseIndex.fileIndex (FileIndexer.index r)).
Proof.
  eexists. split; [vm_compute; reflexivity |].
  split; [vm_compute; reflexivity |].
  apply (fileIndex_sorted_stable Sample.host FileIndexer.defaultOptions
           Sample.mockCodebaseInput _ eq_refl).
Defined.

(** Entries of one score stay in the order of the input: the entry point
    comes first, the three files of score 30 follow as they were given. *)
Example fileIndex_ties_keep_order :
  exists r,
    @FileIndexer.indexCodebase Sample.host FileIndexer.defaultOptions
      Sample.tiedFiles = Ok r
    /\ List.map (fun e => (FileIndexEntry.path e,
                           score (FileIndexEntry.importance e)))
         (CodebaseIndex.fileIndex (FileIndexer.index r))
       = [ (lit "src/index.ts", 110); (lit "src/zeta.ts", 30);
           (lit "src/alpha.ts", 30); (lit "src/mid.ts", 30) ].
Proof. eexists. split; vm_compute; reflexivity. Qed.

(* ===================================================================== *)
(** * The run on the file utilities of the caller *)
(* ===================================================================== *)

Module InjectedFacts.
Import FileIndexer InjectedFileIndexer.

(** Custom patterns without a star are looked for as they are, and no
    regular expression is made. *)
Lemma someResult_no_star `{H : Host} (path : jsstring) (patterns : list jsstring) :
  Forall (fun pattern => includes pattern [star] = false) patterns ->
  exists matched, someResult (customPatternMatches path) patterns = Ok matched.
Proof.
  induction 1 as [|p ps Hp _ [matched IH]]; [exists false; reflexivity |].
  cbn [someResult]. unfold customPatternMatches at 1. rewrite Hp.
  destruct (includes path p); [exists true; reflexivity |].
  exists matched. exact IH.
Qed.

Section Facts.
Context `{H : Host}.
Context {St : Type}.
Variable fileUtils : FileUtils.t St.
Variable options : FileIndexerOptions.

(** ** The validity filter *)






(** ** The turns *)

(** A turn never throws: what it does is what [turn] tells. *)
Lemma processFile_turn (st : LoopState) (file : FileEntry.t) (s : St) :
  processFile fileUtils options st file s
  = (Returns
       match fst (turn fileUtils options file (length (st_fileIndex st)) s) with
       | Failed error =>
           ({| st_fileIndex := st_fileIndex st;
               st_totalSize := st_totalSize st;
               st_filesIgnored := st_filesIgnored st;
               st_errors := st_errors st ++
                 [ lit "Error processing file " ++ FileEntry.path file
                   ++ lit ": " ++ error ];
               st_warnings := st_warnings st |}, false)
       | Ignored =>
           ({| st_fileIndex := st_fileIndex st;
               st_totalSize := st_totalSize st;
               st_filesIgnored := st_filesIgnored st + 1;
               st_errors := st_errors st;
               st_warnings := st_warnings st |}, false)
       | TooLarge =>
           ({| st_fileIndex := st_fileIndex st;
               st_totalSize := st_totalSize st;
               st_filesIgnored := st_filesIgnored st + 1;
               st_errors := st_errors st;
               st_warnings := st_warnings st ++
                 [ lit "File " ++ FileEntry.path file
                   ++ lit " exceeds maximum size limit ("
                   ++ showZ (FileEntry.size file) ++ lit " bytes)" ] |}, false)
       | Indexed entry =>
           let stop :=
             Z.of_nat (S (length (st_fileIndex st))) >=? maxFiles options in
           ({| st_fileIndex := st_fileIndex st ++ [entry];
               st_totalSize := numAdd (st_totalSize st) (FileEntry.size file);
               st_filesIgnored := st_filesIgnored st;
               st_errors := st_errors st;
               st_warnings := st_warnings st ++
                 (if stop
                  then [ lit "Reached maximum file limit ("
                         ++ showZ (maxFiles options) ++ lit "), stopping indexing" ]
                  else []) |}, stop)
       end,
     snd (turn fileUtils options file (length (st_fileIndex st)) s)).
Proof.
  unfold processFile, turn, tryCatch, bind, ret.
  destruct (shouldIgnoreFile fileUtils options (FileEntry.path file) s)
    as [[[|] | error] s1]; try reflexivity.
  destruct (FileEntry.size file >? maxFileSize options); [reflexivity |].
  destruct (createFileIndexEntry fileUtils options file
              (clock (S (length (st_fileIndex st)))) s1)
    as [[entry | error] s2]; [| reflexivity].
  cbn [fst snd]. rewrite length_app, Nat.add_1_r.
  destruct (Z.of_nat (S (length (st_fileIndex st))) >=? maxFiles options);
    cbn zeta; rewrite ?app_nil_r; reflexivity.
Qed.


Lemma loop_cons (file : FileEntry.t) (rest : list FileEntry.t) (st : LoopState)
    (s : St) :
  loop fileUtils options (file :: rest) st s
  = match processFile fileUtils options st file s with
    | (Returns turned, s') =>
        if snd turned then (Returns (fst turned), s')
        else loop fileUtils options rest (fst turned) s'
    | (Throws error, s') => (Throws error, s')
    end.
Proof.
  cbn [loop]. unfold bind, ret.
  destruct (processFile fileUtils options st file s) as [[[st' [|]] | error] s'];
    reflexivity.
Qed.

(** The loop never throws, and what it leaves is what its turns leave,
    one after the other. *)
Lemma loop_turns (files : list FileEntry.t) (st : LoopState) (s : St)
    (entries : nat) :
  length (st_fileIndex st) = entries ->
  let trace := fst (turns fileUtils options files entries s) in
  exists (st' : LoopState) (rest : list FileEntry.t),
    loop fileUtils options files st s
    = (Returns st', snd (turns fileUtils options files entries s))
    /\ st_fileIndex st' = st_fileIndex st ++ flat_map entryOf trace
    /\ st_errors st' = st_errors st ++ flat_map errorOf trace
    /\ st_filesIgnored st'
       = st_filesIgnored st
         + Z.of_nat (length (List.filter countsAsIgnored trace))
    /\ st_warnings st'
       = st_warnings st ++ flat_map sizeWarningOf trace
         ++ match flat_map entryOf trace with
            | [] => []
            | _ :: _ =>
                if Z.of_nat (length (st_fileIndex st')) >=? maxFiles options
                then [ lit "Reached maximum file limit ("
                       ++ showZ (maxFiles options) ++ lit "), stopping indexing" ]
                else []
            end
    /\ files = List.map fst trace ++ rest
    /\ (rest <> [] ->
        flat_map entryOf trace <> []
        /\ maxFiles options <= Z.of_nat (length (st_fileIndex st')))
    /\ (flat_map entryOf trace = []
        \/ Z.of_nat (length (st_fileIndex st')) < maxFiles options
        \/ exists before file entry,
             trace = before ++ [(file, Indexed entry)]).
Proof.
  revert st s entries; induction files as [|file files IH]; intros st s entries Hlen.
  - cbn. exists st, []. rewrite !app_nil_r.
    repeat split; try reflexivity; try lia; try congruence.
    left. reflexivity.
  - cbn zeta. rewrite loop_cons, processFile_turn, Hlen. cbn [turns].
    destruct (turn fileUtils options file entries s) as [outcome s1] eqn:Et.
    cbn [fst snd].
    destruct outcome as [error | | | entry].
    + match goal with
      | |- context [loop fileUtils options files ?st1 s1] =>
          destruct (IH st1 s1 entries Hlen)
            as (st' & rest & Hloop & Hix & Herr & Hig & Hwarn & Hfiles & Hrest & Hend)
      end.
      destruct (turns fileUtils options files entries s1) as [later s2] eqn:El.
      cbn [fst snd st_fileIndex st_errors st_filesIgnored st_warnings]
        in Hloop, Hix, Herr, Hig, Hwarn, Hfiles, Hrest, Hend.
      exists st', rest. cbn [flat_map List.filter List.map entryOf errorOf
                              countsAsIgnored sizeWarningOf fst snd app].
      split; [exact Hloop |]. split; [exact Hix |].
      split; [rewrite Herr, <- app_assoc; reflexivity |].
      split; [exact Hig |]. split; [exact Hwarn |].
      split; [rewrite Hfiles; reflexivity |].
      split; [exact Hrest |].
      destruct Hend as [He | [Hlt | (before & f & e & ->)]];
        [left; exact He | right; left; exact Hlt |].
      right; right. exists ((file, Failed error) :: before), f, e. reflexivity.
    + match goal with
      | |- context [loop fileUtils options files ?st1 s1] =>
          destruct (IH st1 s1 entries Hlen)
            as (st' & rest & Hloop & Hix & Herr & Hig & Hwarn & Hfiles & Hrest & Hend)
      end.
      destruct (turns fileUtils options files entries s1) as [later s2] eqn:El.
      cbn [fst snd st_fileIndex st_errors st_filesIgnored st_warnings]
        in Hloop, Hix, Herr, Hig, Hwarn, Hfiles, Hrest, Hend.
      exists st', rest. cbn [flat_map List.filter List.map entryOf errorOf
                              countsAsIgnored sizeWarningOf fst snd app length].
      split; [exact Hloop |]. split; [exact Hix |].
      split; [exact Herr |].
      split; [rewrite Hig; lia |]. split; [exact Hwarn |].
      split; [rewrite Hfiles; reflexivity |].
      split; [exact Hrest |].
      destruct Hend as [He | [Hlt | (before & f & e & ->)]];
        [left; exact He | right; left; exact Hlt |].
      right; right. exists ((file, Ignored) :: before), f, e. reflexivity.
    + match goal with
      | |- context [loop fileUtils options files ?st1 s1] =>
          destruct (IH st1 s1 entries Hlen)
            as (st' & rest & Hloop & Hix & Herr & Hig & Hwarn & Hfiles & Hrest & Hend)
      end.
      destruct (turns fileUtils options files entries s1) as [later s2] eqn:El.
      cbn [fst snd st_fileIndex st_errors st_filesIgnored st_warnings]
        in Hloop, Hix, Herr, Hig, Hwarn, Hfiles, Hrest, Hend.
      exists st', rest. cbn [flat_map List.filter List.map entryOf errorOf
                              countsAsIgnored sizeWarningOf fst snd app length].
      split; [exact Hloop |]. split; [exact Hix |].
      split; [exact Herr |].
      split; [rewrite Hig; lia |].
      split; [rewrite Hwarn, <- !app_assoc; reflexivity |].
      split; [rewrite Hfiles; reflexivity |].
      split; [exact Hrest |].
      destruct Hend as [He | [Hlt | (before & f & e & ->)]];
        [left; exact He | right; left; exact Hlt |].
      right; right. exists ((file, TooLarge) :: before), f, e. reflexivity.
    + cbn zeta.
      destruct (Z.geb_spec (Z.of_nat (S entries)) (maxFiles options)) as [Hge | Hlt].
      * cbn [fst snd].
        eexists; exists files. split; [reflexivity |].
        cbn [flat_map List.filter List.map entryOf errorOf
             countsAsIgnored sizeWarningOf fst snd app length
             st_fileIndex st_errors st_filesIgnored st_warnings].
        rewrite !app_nil_r, length_app, Nat.add_1_r, Hlen.
        destruct (Z.geb_spec (Z.of_nat (S entries)) (maxFiles options))
          as [_ | Hlt]; [| lia].
        repeat split; try reflexivity; try lia; try discriminate.
        right; right. exists [], file, entry. reflexivity.
      * match goal with
        | |- context [loop fileUtils options files ?st1 s1] =>
            destruct (IH st1 s1 (S entries))
              as (st' & rest & Hloop & Hix & Herr & Hig & Hwarn & Hfiles & Hrest & Hend)
        end.
        { cbn [fst st_fileIndex]. rewrite length_app, Nat.add_1_r, Hlen.
          reflexivity. }
        destruct (turns fileUtils options files (S entries) s1) as [later s2] eqn:El.
        cbn [fst snd st_fileIndex st_errors st_filesIgnored st_warnings]
          in Hloop, Hix, Herr, Hig, Hwarn, Hfiles, Hrest, Hend.
        exists st', rest. cbn [flat_map List.filter List.map entryOf errorOf
                                countsAsIgnored sizeWarningOf fst snd app length].
        split; [exact Hloop |].
        split; [rewrite Hix, <- app_assoc; reflexivity |].
        split; [exact Herr |]. split; [exact Hig |].
        split.
        { rewrite Hwarn, app_nil_r. f_equal. f_equal.
          destruct (flat_map entryOf later) eqn:Enew; [| reflexivity].
          rewrite Hix, app_nil_r, length_app, Nat.add_1_r, Hlen.
          destruct (Z.geb_spec (Z.of_nat (S entries)) (maxFiles options));
            [lia | reflexivity]. }
        split; [rewrite Hfiles; reflexivity |].
        split.
        { intros Hne. destruct (Hrest Hne) as [_ Hmax].
          split; [discriminate | exact Hmax]. }
        destruct Hend as [He | [Hlt' | (before & f & e & ->)]].
        -- right; left.
           rewrite Hix, He, app_nil_r, length_app, Nat.add_1_r, Hlen. exact Hlt.
        -- right; left. exact Hlt'.
        -- right; right. exists ((file, Indexed entry) :: before), f, e. reflexivity.
Qed.


(** ** The run *)

Lemma indexCodebase_empty (objects : Heap) (s : St) :
  indexCodebase fileUtils options objects [] s
  = (Throw (Infra (ErrorFactory.createAnalysisError
              ErrorCodes.FILE_INDEXING_FAILED
              (lit "File indexing failed: No files provided for indexing")
              false
              [ lit "Check file permissions";
                lit "Verify file structure";
                lit "Reduce file count or size" ]
              (Some (0, 0, clock 1 - clock 0)))), s).
Proof. reflexivity. Qed.

(** What the filter throws is thrown by the run, wrapped. *)
Lemma indexCodebase_filter_throws (objects : Heap) (files : list nat) (s : St)
    (error : jsstring) (s' : St) :
  files <> [] ->
  filterFiles fileUtils files objects s = (Throws error, s') ->
  indexCodebase fileUtils options objects files s
  = (Throw (Infra (ErrorFactory.createAnalysisError
              ErrorCodes.FILE_INDEXING_FAILED
              (lit "File indexing failed: " ++ error)
              false
              [ lit "Check file permissions";
                lit "Verify file structure";
                lit "Reduce file count or size" ]
              (Some (0, Z.of_nat (length files), clock 1 - clock 0)))), s').
Proof.
  intros Hne E. unfold indexCodebase, tryIndexCodebase.
  destruct files as [|ref rest]; [congruence |].
  unfold bind at 1. rewrite E. reflexivity.
Qed.

(** When the filter returns, so does the run, with what the turns of
    the filtered files leave. *)
Lemma indexCodebase_returns (objects : Heap) (files : list nat) (s : St)
    (passed : list nat * Heap) (s1 : St) :
  files <> [] ->
  filterFiles fileUtils files objects s = (Returns passed, s1) ->
  let filteredFiles := List.map (snd passed) (fst passed) in
  let turned := turns fileUtils options filteredFiles 0 s1 in
  let entries := flat_map entryOf (fst turned) in
  exists r rest,
    indexCodebase fileUtils options objects files s = (Ok r, snd turned)
    /\ filteredFiles = List.map fst (fst turned) ++ rest
    /\ (rest <> [] ->
        entries <> [] /\ maxFiles options <= Z.of_nat (length entries))
    /\ errors (statistics r) = flat_map errorOf (fst turned)
    /\ filesIgnored (statistics r)
       = Z.of_nat (length (List.filter countsAsIgnored (fst turned)))
    /\ warnings (statistics r)
       = match filteredFiles with
         | [] => [lit "No files remaining after filtering"]
         | _ :: _ => []
         end
         ++ flat_map sizeWarningOf (fst turned)
         ++ match entries with
            | [] => []
            | _ :: _ =>
                if Z.of_nat (length entries) >=? maxFiles options
                then [ lit "Reached maximum file limit ("
                       ++ showZ (maxFiles options) ++ lit "), stopping indexing" ]
                else []
            end
    /\ CodebaseIndex.fileIndex (index r) = sort byScoreDescending entries
    /\ filesIndexed (statistics r) = Z.of_nat (length entries)
    /\ totalFilesScanned (statistics r) = Z.of_nat (length files).
Proof.
  intros Hne E filteredFiles turned entries.
  unfold indexCodebase, tryIndexCodebase.
  destruct files as [|ref rest0]; [congruence |].
  unfold bind at 1. rewrite E.
  fold filteredFiles.
  set (st0 := {| st_fileIndex := []; st_totalSize := 0; st_filesIgnored := 0;
                 st_errors := []; st_warnings := _ |}).
  destruct (loop_turns filteredFiles st0 s1 0 eq_refl)
    as (st' & rest & Hloop & Hix & Herr & Hig & Hwarn & Hfiles & Hrest & _).
  fold turned in Hloop, Hix, Herr, Hig, Hwarn, Hfiles, Hrest.
  cbn [st_fileIndex st_errors st_filesIgnored st_warnings st0 app]
    in Hix, Herr, Hig, Hwarn.
  fold entries in Hix, Hwarn, Hrest.
  unfold bind. rewrite Hloop. unfold ret.
  eexists; exists rest. split; [reflexivity |].
  cbn [statistics index errors filesIgnored warnings filesIndexed
       totalFilesScanned CodebaseIndex.fileIndex].
  split; [exact Hfiles |].
  split; [rewrite Hix in Hrest; exact Hrest |].
  split; [exact Herr |].
  split; [rewrite Hig; lia |].
  split; [rewrite Hwarn, Hix; reflexivity |].
  split; [rewrite Hix; reflexivity |].
  split; [| reflexivity].
  f_equal. rewrite <- Hix.
  apply Permutation_length. apply sort_perm.
Qed.

(** ** Utilities that do not throw *)

(** A turn fails only when a call throws. *)
Lemma turn_returns (file : FileEntry.t) (entries : nat) (s : St) :
  (forall path content, returns (FileUtils.getFileType fileUtils path content)) ->
  (forall path content,
      returns (FileUtils.calculateImportanceScore fileUtils path content)) ->
  (forall path, returns (FileUtils.shouldIgnoreFile fileUtils path)) ->
  (forall path, returns (FileUtils.getLanguageFromPath fileUtils path)) ->
  (forall path, returns (FileUtils.normalizePath fileUtils path)) ->
  Forall (fun pattern => includes pattern [star] = false)
    (customIgnorePatterns options) ->
  errorOf (file, fst (turn fileUtils options file entries s)) = [].
Proof.
  intros Htype Hscore Hignore Hlanguage Hpath Hpatterns.
  unfold turn, shouldIgnoreFile, bind.
  destruct (Hignore (FileEntry.path file) s) as (ignored & s1 & ->).
  destruct ignored; [reflexivity |].
  destruct (someResult_no_star (FileEntry.path file)
              (customIgnorePatterns options) Hpatterns) as [matched ->].
  unfold ret. destruct matched; [reflexivity |].
  destruct (FileEntry.size file >? maxFileSize options); [reflexivity |].
  unfold createFileIndexEntry, bind.
  destruct (Hpath (FileEntry.path file) s1) as (normalizedPath & s2 & ->).
  cbv beta.
  destruct (getProperty (customFileTypeRules options !! normalizedPath)
              normalizedPath) as [t | member |];
    [| | destruct (FileEntry.type file) as [t|];
         [| unfold bind;
            destruct (Htype normalizedPath (Some (FileEntry.content file)) s2)
              as (t & s3 & ->)]];
    unfold ret;
    match goal with
    | |- context [FileUtils.calculateImportanceScore fileUtils ?p ?c ?s0] =>
        destruct (Hscore p c s0) as (importance & s4 & ->)
    end;
    destruct (Hlanguage normalizedPath s4) as (language & s5 & ->);
    reflexivity.
Qed.

Lemma turns_errors (files : list FileEntry.t) (entries : nat) (s : St) :
  (forall file entries s,
      errorOf (file, fst (turn fileUtils options file entries s)) = []) ->
  flat_map errorOf (fst (turns fileUtils options files entries s)) = [].
Proof.
  intros Hturn. revert entries s; induction files as [|file files IH];
    intros entries s; [reflexivity |].
  cbn [turns]. specialize (Hturn file entries s).
  destruct (turn fileUtils options file entries s) as [outcome s1].
  cbn [fst] in Hturn.
  destruct outcome as [error | | | entry]; try discriminate Hturn.
  - specialize (IH entries s1).
    destruct (turns fileUtils options files entries s1) as [later s2].
    exact IH.
  - specialize (IH entries s1).
    destruct (turns fileUtils options files entries s1) as [later s2].
    exact IH.
  - destruct (_ >=? _); [reflexivity |].
    specialize (IH (S entries) s1).
    destruct (turns fileUtils options files (S entries) s1) as [later s2].
    exact IH.
Qed.
End Facts.

Section Default.
Context `{H : Host}.
Variable St : Type.
Variable options : FileIndexerOptions.

(** ** The default file utilities *)




End Default.





End InjectedFacts.




(** A custom ignore pattern that is no regular expression: the exception
    of the first file is recorded, the second file is still reached and
    counted as ignored, and the call returns. *)
Example indexCodebase_records_errors :
  exists r,
    @FileIndexer.indexCodebase Sample.host Sample.badPattern Sample.twoFiles = Ok r
    /\ FileIndexer.errors (FileIndexer.statistics r)
       = [lit "Error processing file a.js: Invalid regular expression"]
    /\ FileIndexer.filesIgnored (FileIndexer.statistics r) = 1
    /\ FileIndexer.filesIndexed (FileIndexer.statistics r) = 0.
Proof. eexists. split; [vm_compute; reflexivity | vm_compute; repeat split]. Qed.

(** ** The files that the loop reaches *)

Module ReachFacts.
Import FileIndexer.

Section Reach.
Context `{H : Host}.
Variable options : FileIndexerOptions.

(** A turn leaves the loop when it makes the entry that fills the index
    up to the limit, and only then. *)
Lemma processFile_stop (st : LoopState) (f : FileEntry.t) :
  snd (processFile options st f)
  = isIndexed options f
    && (Z.of_nat (S (length (st_fileIndex st))) >=? maxFiles options).
Proof.
  unfold processFile, isIndexed.
  destruct (shouldIgnoreFile options (FileEntry.path f)) as [[|]|];
    try reflexivity.
  destruct (FileEntry.size f >? maxFileSize options); [reflexivity |].
  cbn [negb andb]. rewrite length_app, Nat.add_1_r.
  destruct (_ >=? _); reflexivity.
Qed.

Lemma step_length (st : LoopState) (f : FileEntry.t) :
  length (st_fileIndex (step options st f))
  = (length (st_fileIndex st) + (if isIndexed options f then 1 else 0))%nat.
Proof.
  rewrite IndexerFacts.step_fileIndex, length_app.
  destruct (isIndexed options f); reflexivity.
Qed.

Lemma loop_step (f : FileEntry.t) (files : list FileEntry.t) (st : LoopState) :
  loop options (f :: files) st
  = if snd (processFile options st f) then step options st f
    else loop options files (step options st f).
Proof.
  cbn [loop]. unfold step.
  destruct (processFile options st f) as [st' stop]. reflexivity.
Qed.

(** The loop reaches the file after [before] when the entries made of
    [before] stay below the limit. *)
Lemma loop_reaches (before later : list FileEntry.t) (st : LoopState) :
  List.filter (isIndexed options) before = []
  \/ Z.of_nat (length (st_fileIndex st)
               + length (List.filter (isIndexed options) before))
     < maxFiles options ->
  loop options (before ++ later) st
  = loop options later (fold_left (step options) before st).
Proof.
  revert st; induction before as [|h t IH]; intros st Hlim; [reflexivity |].
  cbn [app fold_left]. rewrite loop_step, processFile_stop.
  cbn [List.filter] in Hlim.
  destruct (isIndexed options h) eqn:Eh; cbn [andb].
  - destruct Hlim as [Hlim | Hlim]; [discriminate |].
    cbn [length] in Hlim.
    destruct (Z.geb_spec (Z.of_nat (S (length (st_fileIndex st))))
                (maxFiles options)); [lia |].
    apply IH. right. rewrite step_length, Eh. lia.
  - apply IH. rewrite step_length, Eh, Nat.add_0_r. exact Hlim.
Qed.

(** The loop is left inside [before] when the entries made of [before]
    reach the limit. *)
Lemma loop_stops (before later : list FileEntry.t) (st : LoopState) :
  List.filter (isIndexed options) before <> [] ->
  maxFiles options
  <= Z.of_nat (length (st_fileIndex st)
               + length (List.filter (isIndexed options) before)) ->
  exists done rest,
    before = done ++ rest
    /\ loop options (before ++ later) st = fold_left (step options) done st.
Proof.
  revert st; induction before as [|h t IH]; intros st Hne Hlim;
    [cbn [List.filter] in Hne; congruence |].
  cbn [app]. rewrite loop_step, processFile_stop.
  cbn [List.filter] in Hne, Hlim.
  destruct (isIndexed options h) eqn:Eh; cbn [andb].
  - cbn [length] in Hlim.
    destruct (Z.geb_spec (Z.of_nat (S (length (st_fileIndex st))))
                (maxFiles options)) as [Hge | Hlt].
    + exists [h], t. split; reflexivity.
    + destruct (IH (step options st h)) as (done & rest & -> & Hloop).
      * intros E. rewrite E in Hlim. cbn [length] in Hlim. lia.
      * rewrite step_length, Eh. lia.
      * exists (h :: done), rest. split; [reflexivity | exact Hloop].
  - destruct (IH (step options st h)) as (done & rest & -> & Hloop).
    + exact Hne.
    + rewrite step_length, Eh, Nat.add_0_r. exact Hlim.
    + exists (h :: done), rest. split; [reflexivity | exact Hloop].
Qed.

(** The turn of a file that is counted as ignored does not leave the
    loop. *)
Lemma loop_counts (f : FileEntry.t) (after : list FileEntry.t) (st : LoopState) :
  countsAsIgnored options f = true ->
  exists later rest,
    after = later ++ rest
    /\ st_filesIgnored (loop options (f :: after) st)
       = st_filesIgnored st + 1
         + Z.of_nat (length (List.filter (countsAsIgnored options) later)).
Proof.
  intros Hf. rewrite loop_step, processFile_stop.
  assert (Hix : isIndexed options f = false).
  { unfold countsAsIgnored in Hf. unfold isIndexed.
    destruct (shouldIgnoreFile options (FileEntry.path f)) as [[|]|];
      try reflexivity.
    rewrite Hf. reflexivity. }
  rewrite Hix. cbn [andb].
  destruct (IndexerFacts.loop_prefix options after (step options st f))
    as (later & rest & Hsplit & -> & _).
  exists later, rest. split; [exact Hsplit |].
  rewrite IndexerFacts.fold_filesIgnored, IndexerFacts.step_filesIgnored, Hf.
  reflexivity.
Qed.

End Reach.

Lemma filterFiles_parts (a b : list FileEntry.t) :
  filterFiles (a ++ b) = filterFiles a ++ filterFiles b.
Proof. unfold filterFiles. apply flat_map_app. Qed.

Lemma filterFiles_valid (f : FileEntry.t) (after : list FileEntry.t) :
  isValidFile f = true ->
  filterFiles (f :: after) = normalized f :: filterFiles after.
Proof.
  intros Hv. rewrite !IndexerFacts.filterFiles_map.
  cbn [List.filter]. rewrite Hv. reflexivity.
Qed.

End ReachFacts.

(** C5, as the code has it. Every path that contains [node_modules/]
    makes [DefaultFileUtils.shouldIgnoreFile] answer true; in every run
    that returns, no entry of [fileIndex] has such a path; and every
    valid input file (a path that is not empty, a size that is not
    negative) with such a path that the loop reaches is counted in
    [filesIgnored].  The loop reaches a file when the entries made of
    the files before it are fewer than the limit on the number of files,
    or none: then the turn of the file adds one to [filesIgnored], next
    to what the turns before it and the turns reached after it add.
    Otherwise the loop is left before the file, and [filesIgnored]
    counts turns of files before it only.  In particular all of these
    files are counted when the run ends below the limit. *)
Theorem node_modules_excluded :
  (forall path : jsstring,
      includes path (lit "node_modules/") = true ->
      DefaultFileUtils.shouldIgnoreFile path = true)
  /\ (forall (H : Host) (options : FileIndexer.FileIndexerOptions)
             (input : CodebaseInput) (r : FileIndexer.IndexingResult),
         FileIndexer.indexCodebase options input = Ok r ->
         (forall e,
             In e (CodebaseIndex.fileIndex (FileIndexer.index r)) ->
             includes (FileIndexEntry.path e) (lit "node_modules/") = false)
         /\ (forall f e,
                includes (FileEntry.path f) (lit "node_modules/") = true ->
                In e (CodebaseIndex.fileIndex (FileIndexer.index r)) ->
                FileIndexEntry.path e
                <> DefaultFileUtils.normalizePath (FileEntry.path f))
         /\ (forall before f after,
                files input = before ++ f :: after ->
                FileIndexer.isNodeModulesFile f = true ->
                let turnsBefore := FileIndexer.filterFiles before in
                let madeBefore :=
                  Z.of_nat (length (List.filter (FileIndexer.isIndexed options)
                                      turnsBefore)) in
                (madeBefore < Z.max 1 (FileIndexer.maxFiles options) ->
                 FileIndexer.countsAsIgnored options (FileIndexer.normalized f)
                 = true
                 /\ exists later rest,
                     FileIndexer.filterFiles after = later ++ rest
                     /\ FileIndexer.filesIgnored (FileIndexer.statistics r)
                        = Z.of_nat (length (List.filter
                                              (FileIndexer.countsAsIgnored options)
                                              turnsBefore))
                          + 1
                          + Z.of_nat (length (List.filter
                                                (FileIndexer.countsAsIgnored options)
                                                later)))
                /\ (Z.max 1 (FileIndexer.maxFiles options) <= madeBefore ->
                    exists done rest,
                      turnsBefore = done ++ rest
                      /\ FileIndexer.filesIgnored (FileIndexer.statistics r)
                         = Z.of_nat (length (List.filter
                                               (FileIndexer.countsAsIgnored options)
                                               done))))
         /\ (FileIndexer.filesIndexed (FileIndexer.statistics r)
             < FileIndexer.maxFiles options ->
             Z.of_nat (length (List.filter FileIndexer.isNodeModulesFile (files input)))
             <= FileIndexer.filesIgnored (FileIndexer.statistics r))).
Proof.
  split; [exact IndexerFacts.shouldIgnoreFile_node_modules |].
  intros H options input r Hrun.
  destruct (RunFacts.indexCodebase_Ok options input r Hrun)
    as (_ & Hidx & Hn & Hig & _).
  destruct (RunFacts.collected_turns options input)
    as (done & rest & Hsplit & Hrest & _ & Hcount & HF & _).
  assert (Hclean : forall e,
             In e (CodebaseIndex.fileIndex (FileIndexer.index r)) ->
             includes (FileIndexEntry.path e) (lit "node_modules/") = false);
    [| split; [exact Hclean | split; [| split]]].
  - intros e He. rewrite Hidx in He.
    eapply Permutation_in in He;
      [| apply (sort_perm FileIndexer.byScoreDescending)].
    apply (IndexerFacts.entries_not_node_modules options _ _ HF); [| exact He].
    intros f Hf. apply filter_In in Hf as [Hf Hix].
    split; [exact Hix |].
    assert (Hin : In f (FileIndexer.filterFiles (files input)))
      by (rewrite Hsplit; apply in_or_app; left; exact Hf).
    rewrite IndexerFacts.filterFiles_map in Hin.
    apply in_map_iff in Hin as (f0 & <- & _). exists f0. reflexivity.
  - intros f e Hf He Epath.
    apply IndexerFacts.normalizePath_keeps_node_modules in Hf.
    rewrite <- Epath, (Hclean e He) in Hf. discriminate.
  - intros before f after Hfiles Hnm turnsBefore madeBefore.
    apply andb_true_iff in Hnm as [Hvalid Hpath].
    assert (Hf : FileIndexer.countsAsIgnored options (FileIndexer.normalized f)
                 = true).
    { apply IndexerFacts.ignored_counts.
      apply IndexerFacts.shouldIgnoreFile_node_modules.
      apply IndexerFacts.normalizePath_keeps_node_modules. exact Hpath. }
    rewrite Hig. unfold FileIndexer.collected.
    rewrite Hfiles, ReachFacts.filterFiles_parts,
      (ReachFacts.filterFiles_valid f after Hvalid).
    fold turnsBefore.
    set (st0 := {| FileIndexer.st_fileIndex := [];
                   FileIndexer.st_totalSize := 0;
                   FileIndexer.st_filesIgnored := 0;
                   FileIndexer.st_errors := [];
                   FileIndexer.st_warnings := _ |}).
    split.
    + intros Hlt. split; [exact Hf |].
      rewrite (ReachFacts.loop_reaches options turnsBefore _ st0).
      * destruct (ReachFacts.loop_counts options (FileIndexer.normalized f)
                    (FileIndexer.filterFiles after)
                    (fold_left (FileIndexer.step options) turnsBefore st0) Hf)
          as (later & rest' & Hafter & ->).
        exists later, rest'. split; [exact Hafter |].
        rewrite IndexerFacts.fold_filesIgnored. reflexivity.
      * subst madeBefore. cbn [FileIndexer.st_fileIndex st0 length Nat.add].
        destruct (List.filter (FileIndexer.isIndexed options) turnsBefore);
          [left; reflexivity | right; cbn [length] in *; lia].
    + intros Hge.
      destruct (ReachFacts.loop_stops options turnsBefore
                  (FileIndexer.normalized f :: FileIndexer.filterFiles after) st0)
        as (done' & rest' & Hbefore & ->).
      * subst madeBefore. intros E. rewrite E in Hge. cbn [length] in Hge. lia.
      * subst madeBefore. cbn [FileIndexer.st_fileIndex st0 length Nat.add]. lia.
      * exists done', rest'. split; [exact Hbefore |].
        rewrite IndexerFacts.fold_filesIgnored. reflexivity.
  - intros Hlt. rewrite Hn in Hlt. rewrite (Hrest Hlt), app_nil_r in Hsplit.
    rewrite Hig, Hcount, <- Hsplit.
    apply Nat2Z.inj_le. apply IndexerFacts.node_modules_counted.
Qed.

(** The sample codebase has one file under [node_modules/], after six
    files of which the loop makes six entries: it is not in the index
    and it is the one file counted as ignored. *)
Lemma node_modules_excluded_witness :
  exists r : FileIndexer.IndexingResult,
    @FileIndexer.indexCodebase Sample.host FileIndexer.defaultOptions
      Sample.mockCodebaseInput = Ok r
    /\ FileIndexer.filesIgnored (FileIndexer.statistics r) = 1
    /\ List.map FileIndexEntry.path
         (List.filter
            (fun e => includes (FileIndexEntry.path e) (lit "node_modules/"))
            (CodebaseIndex.fileIndex (FileIndexer.index r))) = []
    /\ exists later rest,
        @FileIndexer.filterFiles
          [ Sample.file (lit "src/components/Button.test.ts")
              (lit "describe(Button);") 35 (Some test) ]
        = later ++ rest
        /\ FileIndexer.filesIgnored (FileIndexer.statistics r)
           = Z.of_nat (length (List.filter
                                 (@FileIndexer.countsAsIgnored Sample.host
                                    FileIndexer.defaultOptions)
                                 (FileIndexer.filterFiles
                                    (firstn 6 (files Sample.mockCodebaseInput)))))
             + 1
             + Z.of_nat (length (List.filter
                                   (@FileIndexer.countsAsIgnored Sample.host
                                      FileIndexer.defaultOptions)
                                   later)).
Proof.
  eexists. split; [vm_compute; reflexivity |].
  split; [vm_compute; reflexivity |].
  split; [vm_compute; reflexivity |].
  pose proof (proj2 node_modules_excluded Sample.host FileIndexer.defaultOptions
                Sample.mockCodebaseInput _ eq_refl) as (_ & _ & Hreach & _).
  destruct (Hreach (firstn 6 (files Sample.mockCodebaseInput))
              (Sample.file (lit "node_modules/some-package/index.js")
                 (lit "module.exports = {};") 25 (Some source))
              [ Sample.file (lit "src/components/Button.test.ts")
                  (lit "describe(Button);") 35 (Some test) ]
              eq_refl eq_refl) as [Hcounted _].
  destruct (Hcounted ltac:(vm_compute; reflexivity))
    as (_ & later & rest & Hafter & Hsum).
  exists later, rest. split; [exact Hafter | exact Hsum].
Defined.

(** C5, as the claim has it, fails: with a limit of one file the run
    stops after [a.js], so the valid file [node_modules/x.js] of the input
    is never reached and [filesIgnored] stays 0. *)
Lemma node_modules_not_counted :
  exists r : FileIndexer.IndexingResult,
    @FileIndexer.indexCodebase Sample.host Sample.limitOne Sample.twoFiles = Ok r
    /\ List.map FileEntry.path
         (List.filter FileIndexer.isNodeModulesFile (files Sample.twoFiles))
       = [lit "node_modules/x.js"]
    /\ List.map FileIndexEntry.path (CodebaseIndex.fileIndex (FileIndexer.index r))
       = [lit "a.js"]
    /\ FileIndexer.filesIgnored (FileIndexer.statistics r) = 0.
Proof. eexists. split; [vm_compute; reflexivity | vm_compute; repeat split]. Qed.

(** With the two files in the other order the file under
    [node_modules/] is reached and counted, though the run ends at the
    limit of one file. *)
Example node_modules_counted_at_limit :
  exists r : FileIndexer.IndexingResult,
    @FileIndexer.indexCodebase Sample.host Sample.limitOne
      Sample2.nodeModulesFirst = Ok r
    /\ FileIndexer.filesIndexed (FileIndexer.statistics r) = 1
    /\ FileIndexer.filesIgnored (FileIndexer.statistics r) = 1.
Proof. eexists. split; [vm_compute; reflexivity | vm_compute; repeat split]. Qed.

(* ===================================================================== *)
(** * The cache of syntax trees *)
(* ===================================================================== *)

(** C9, as the code has it. After [setCachedAST(p, a, t)] with a
    timestamp [t] that is a valid date, [getCachedAST(p, t)] returns [a];
    [getCachedAST(p, t')] returns [null] whenever the time value of [t']
    differs from the one stored last for [p]; with an Invalid Date [t]
    the entry is stored but never returned. *)
Theorem getCachedAST_after_set :
  forall (AST AnalysisResult : Type)
         (st : InMemoryCacheManager.State AST AnalysisResult)
         (now : Z) (p : jsstring) (a : AST) (t : Date),
    let st' := InMemoryCacheManager.setCachedAST st now p a t in
    (forall ms, getTime t = Millis ms ->
                snd (InMemoryCacheManager.getCachedAST st' p t) = Some a)
    /\ (forall t', getTime t' <> getTime t ->
                   snd (InMemoryCacheManager.getCachedAST st' p t') = None)
    /\ (forall (q : jsstring) (e : InMemoryCacheManager.AstEntry AST) (t' : Date),
           InMemoryCacheManager.astCache st' !! q = Some e ->
           getTime t' <> getTime (InMemoryCacheManager.lastModified e) ->
           snd (InMemoryCacheManager.getCachedAST st' q t') = None)
    /\ (getTime t = NaN ->
        forall t', snd (InMemoryCacheManager.getCachedAST st' p t') = None).
Proof.
  intros AST AnalysisResult st now p a t st'.
  assert (Hneq : forall x y, x <> y -> timeStrictEq x y = false).
  { intros [|x] [|y] Hxy; try reflexivity. simpl.
    apply Z.eqb_neq. intros ->. apply Hxy. reflexivity. }
  assert (Hstored : InMemoryCacheManager.astCache st' !! p
                    = Some {| InMemoryCacheManager.ast := a;
                              InMemoryCacheManager.lastModified := t;
                              InMemoryCacheManager.astTimestamp := now |}).
  { subst st'. unfold InMemoryCacheManager.setCachedAST. simpl.
    apply lookup_insert_eq. }
  repeat split.
  - intros ms Hms. unfold InMemoryCacheManager.getCachedAST.
    rewrite Hstored. simpl. rewrite Hms. simpl. rewrite Z.eqb_refl. reflexivity.
  - intros t' Hne. unfold InMemoryCacheManager.getCachedAST.
    rewrite Hstored. simpl. rewrite (Hneq _ _ (not_eq_sym Hne)). reflexivity.
  - intros q e t' Hq Hne. unfold InMemoryCacheManager.getCachedAST.
    rewrite Hq. rewrite (Hneq _ _ (not_eq_sym Hne)). reflexivity.
  - intros Hnan t'. unfold InMemoryCacheManager.getCachedAST.
    rewrite Hstored. simpl. rewrite Hnan. reflexivity.
Qed.

(** A tree stored under a valid date is returned for that date. *)
Lemma getCachedAST_after_set_witness :
  snd (InMemoryCacheManager.getCachedAST
         (InMemoryCacheManager.setCachedAST
            (@InMemoryCacheManager.empty nat unit) 5 (lit "src/a.ts") 7%nat
            Sample.someDate)
         (lit "src/a.ts") Sample.someDate)
  = Some 7%nat.
Proof.
  apply (proj1 (getCachedAST_after_set nat unit InMemoryCacheManager.empty
                  5 (lit "src/a.ts") 7%nat Sample.someDate)
           1700000000000 eq_refl).
Defined.

(** C9, as the claim has it, fails for a timestamp that is an Invalid
    Date: its time value is [NaN], which is not equal to itself, so the
    tree just stored is not returned for the very same timestamp. *)
Lemma getCachedAST_invalid_date :
  snd (InMemoryCacheManager.getCachedAST
         (InMemoryCacheManager.setCachedAST
            (@InMemoryCacheManager.empty nat unit) 5 (lit "src/a.ts") 7%nat
            Sample.invalidDate)
         (lit "src/a.ts") Sample.invalidDate)
  = None.
Proof. vm_compute. reflexivity. Qed.

(* ===================================================================== *)
(** * More on the runs of the indexer *)
(* ===================================================================== *)

Module RunInvariants.
Import FileIndexer.

(** The text of the warning at the limit. *)
Lemma limitWarning_head `{H : Host} (n : Z) :
  hd 0%N (lit "Reached maximum file limit (" ++ showZ n
          ++ lit "), stopping indexing") = 82%N.
Proof. reflexivity. Qed.

Section Turns.
Context `{H : Host}.
Variable options : FileIndexerOptions.

(** A turn does one of three things with its file. *)
Lemma turn_outcome (f : FileEntry.t) :
  (length (errorOf options f)
   + (if countsAsIgnored options f then 1 else 0)
   + (if isIndexed options f then 1 else 0) = 1)%nat.
Proof.
  unfold errorOf, countsAsIgnored, isIndexed.
  destruct (shouldIgnoreFile options (FileEntry.path f)) as [[|]|];
    try reflexivity.
  destruct (FileEntry.size f >? maxFileSize options); reflexivity.
Qed.

Lemma turns_outcome (done : list FileEntry.t) :
  (length (flat_map (errorOf options) done)
   + length (List.filter (countsAsIgnored options) done)
   + length (List.filter (isIndexed options) done) = length done)%nat.
Proof.
  induction done as [|f done IH]; [reflexivity |].
  cbn [flat_map List.filter]. rewrite length_app.
  pose proof (turn_outcome f) as Hf.
  destruct (countsAsIgnored options f), (isIndexed options f);
    cbn [length] in *; lia.
Qed.

Lemma step_totalSize (st : LoopState) (f : FileEntry.t) :
  st_totalSize (step options st f)
  = if isIndexed options f then numAdd (st_totalSize st) (FileEntry.size f)
    else st_totalSize st.
Proof.
  unfold step, processFile, isIndexed.
  destruct (shouldIgnoreFile options (FileEntry.path f)) as [[|]|];
    try reflexivity.
  destruct (FileEntry.size f >? maxFileSize options); [reflexivity |].
  cbn [negb]. destruct (_ >=? _); reflexivity.
Qed.

Lemma fold_totalSize (done : list FileEntry.t) (st : LoopState) :
  st_totalSize (fold_left (step options) done st)
  = fold_left numAdd
      (List.map FileEntry.size (List.filter (isIndexed options) done))
      (st_totalSize st).
Proof.
  revert st; induction done as [|f done IH]; intros st; [reflexivity |].
  cbn [fold_left List.filter]. rewrite IH, step_totalSize.
  destruct (isIndexed options f); reflexivity.
Qed.

(** What an indexed file says about its entry. *)
Lemma isIndexed_facts (f : FileEntry.t) :
  isIndexed options f = true ->
  DefaultFileUtils.shouldIgnoreFile (FileEntry.path f) = false
  /\ FileEntry.size f <= maxFileSize options.
Proof.
  intros Hix. split; [apply (IndexerFacts.isIndexed_not_ignored options f Hix) |].
  unfold isIndexed in Hix.
  destruct (shouldIgnoreFile options (FileEntry.path f)) as [[|]|];
    try discriminate.
  destruct (Z.gtb_spec (FileEntry.size f) (maxFileSize options));
    [discriminate | lia].
Qed.

(** The warnings of the turns: the ones there were, then warnings on
    sizes and on the limit. *)
Lemma step_warnings_shape (st : LoopState) (f : FileEntry.t) :
  exists extra,
    st_warnings (step options st f) = st_warnings st ++ extra
    /\ Forall (fun w => hd 0%N w = 70%N \/ hd 0%N w = 82%N) extra.
Proof.
  unfold step, processFile.
  destruct (shouldIgnoreFile options (FileEntry.path f)) as [[|]|]; simpl;
    try (exists []; rewrite app_nil_r; split; [reflexivity | constructor]).
  destruct (FileEntry.size f >? maxFileSize options); simpl.
  - eexists [_]. split; [reflexivity |].
    constructor; [left; reflexivity | constructor].
  - destruct (_ >=? _); simpl.
    + eexists [_]. split; [reflexivity |].
      constructor; [right; reflexivity | constructor].
    + exists []. rewrite app_nil_r. split; [reflexivity | constructor].
Qed.

Lemma fold_warnings_shape (done : list FileEntry.t) (st : LoopState) :
  exists extra,
    st_warnings (fold_left (step options) done st) = st_warnings st ++ extra
    /\ Forall (fun w => hd 0%N w = 70%N \/ hd 0%N w = 82%N) extra.
Proof.
  revert st; induction done as [|f done IH]; intros st; simpl.
  - exists []. rewrite app_nil_r. split; [reflexivity | constructor].
  - destruct (IH (step options st f)) as (extra2 & E2 & F2).
    destruct (step_warnings_shape st f) as (extra1 & E1 & F1).
    exists (extra1 ++ extra2). rewrite E2, E1, <- app_assoc.
    split; [reflexivity |]. apply Forall_app. split; assumption.
Qed.

(** The limit: the loop is left at the first entry that fills the index
    up to [maxFiles], and the warning is given then and only then. *)
Lemma loop_limit (files : list FileEntry.t) (st : LoopState) :
  let W := lit "Reached maximum file limit (" ++ showZ (maxFiles options)
           ++ lit "), stopping indexing" in
  (st_fileIndex st = [] \/ Z.of_nat (length (st_fileIndex st)) < maxFiles options) ->
  ~ In W (st_warnings st) ->
  Z.of_nat (length (st_fileIndex (loop options files st)))
  <= Z.max 1 (maxFiles options)
  /\ (In W (st_warnings (loop options files st))
      <-> st_fileIndex (loop options files st) <> []
          /\ maxFiles options
             <= Z.of_nat (length (st_fileIndex (loop options files st)))).
Proof.
  intros W. revert st; induction files as [|f files IH]; intros st Hlen HW.
  - cbn [loop]. split.
    + destruct Hlen as [-> | Hlen]; simpl; lia.
    + split; [tauto |]. intros [Hne Hge].
      destruct Hlen as [E | Hlt]; [congruence | lia].
  - cbn [loop]. unfold processFile.
    destruct (shouldIgnoreFile options (FileEntry.path f)) as [[|]|].
    + apply IH; assumption.
    + destruct (FileEntry.size f >? maxFileSize options).
      * apply IH; [assumption |]. cbn [st_warnings].
        intros Hin. apply in_app_or in Hin as [Hin | [E | []]]; [tauto |].
        apply (f_equal (hd 0%N)) in E. discriminate E.
      * destruct (Z.geb_spec
                    (Z.of_nat (length (st_fileIndex st ++
                       [createFileIndexEntry options f
                          (clock (S (length (st_fileIndex st))))])))
                    (maxFiles options)) as [Hge | Hlt].
        -- cbn [st_fileIndex st_warnings]. rewrite length_app in *.
           cbn [length] in *. split.
           ++ destruct Hlen as [E | Hlt]; [rewrite E; simpl; lia | lia].
           ++ split.
              ** intros _. split; [| exact Hge].
                 destruct (st_fileIndex st); discriminate.
              ** intros _. apply in_or_app. right. left. reflexivity.
        -- apply IH; [right; exact Hlt | exact HW].
    + apply IH; assumption.
Qed.

End Turns.

Section Run.
Context `{H : Host}.
Variable options : FileIndexerOptions.

(** The result of a run that returns, written out. *)
Lemma indexCodebase_result (input : CodebaseInput) (r : IndexingResult) :
  indexCodebase options input = Ok r ->
  let st := collected options input in
  let fileIndex := sort byScoreDescending (st_fileIndex st) in
  r = {| index :=
           {| CodebaseIndex.fileIndex := fileIndex;
              CodebaseIndex.priorityFiles := createPriorityFileMap fileIndex;
              CodebaseIndex.statistics := calculateStatistics fileIndex |};
         statistics :=
           {| totalFilesScanned := Z.of_nat (length (files input));
              filesIndexed := Z.of_nat (length fileIndex);
              filesIgnored := st_filesIgnored st;
              totalSizeBytes := st_totalSize st;
              processingTimeMs := clock (S (length fileIndex)) - clock 0;
              errors := st_errors st;
              warnings := st_warnings st |} |}.
Proof.
  unfold indexCodebase, tryIndexCodebase.
  destruct (files input) as [|f fs] eqn:Ef; [discriminate |].
  intros [= <-]. reflexivity.
Qed.

(** The turns of a run, with the size they add up. *)
Lemma collected_sizes (input : CodebaseInput) :
  exists done rest,
    filterFiles (files input) = done ++ rest
    /\ (Z.of_nat (length (st_fileIndex (collected options input)))
        < maxFiles options -> rest = [])
    /\ st_totalSize (collected options input)
       = fold_left numAdd
           (List.map FileEntry.size (List.filter (isIndexed options) done)) 0
    /\ st_errors (collected options input) = flat_map (errorOf options) done
    /\ st_filesIgnored (collected options input)
       = Z.of_nat (length (List.filter (countsAsIgnored options) done))
    /\ Forall2 (fun f e => exists now, e = createFileIndexEntry options f now)
         (List.filter (isIndexed options) done)
         (st_fileIndex (collected options input)).
Proof.
  unfold collected.
  set (st0 := {| st_fileIndex := []; st_totalSize := 0; st_filesIgnored := 0;
                 st_errors := []; st_warnings := _ |}).
  destruct (IndexerFacts.loop_prefix options (filterFiles (files input)) st0)
    as (done & rest & Hsplit & Hloop & Hrest).
  exists done, rest. rewrite Hloop in *.
  split; [exact Hsplit |]. split; [exact Hrest |].
  split; [apply (fold_totalSize options done st0) |].
  split; [apply (IndexerFacts.fold_errors options done st0) |].
  split; [apply (IndexerFacts.fold_filesIgnored options done st0) |].
  destruct (IndexerFacts.fold_fileIndex options done st0) as (new & -> & HF).
  exact HF.
Qed.

(** Every entry that the loop makes is the entry of a valid input file,
    taken in its normalized form, that the loop indexes. *)
Lemma collected_entries (input : CodebaseInput) (e : FileIndexEntry.t) :
  In e (st_fileIndex (collected options input)) ->
  exists f0 now,
    In f0 (files input)
    /\ isValidFile f0 = true
    /\ isIndexed options (normalized f0) = true
    /\ e = createFileIndexEntry options (normalized f0) now.
Proof.
  destruct (collected_sizes input) as (done & rest & Hsplit & _ & _ & _ & _ & HF).
  intros He.
  assert (Hex : exists f now,
             In f (List.filter (isIndexed options) done)
             /\ e = createFileIndexEntry options f now).
  { clear Hsplit. induction HF as [|f e' kept made [now ->] _ IH];
      [destruct He |].
    destruct He as [<- | He].
    - exists f, now. split; [left; reflexivity | reflexivity].
    - destruct (IH He) as (g & now' & Hg & ->).
      exists g, now'. split; [right; exact Hg | reflexivity]. }
  destruct Hex as (f & now & Hf & ->).
  apply filter_In in Hf as [Hf Hix].
  assert (Hin : In f (filterFiles (files input)))
    by (rewrite Hsplit; apply in_or_app; left; exact Hf).
  rewrite IndexerFacts.filterFiles_map in Hin.
  apply in_map_iff in Hin as (f0 & <- & Hf0).
  apply filter_In in Hf0 as [Hf0 Hv].
  exists f0, now. repeat split; assumption.
Qed.

End Run.

(** A path that is not empty is not empty after the normalization. *)
Lemma normalizePath_not_empty (p : jsstring) :
  p <> [] -> DefaultFileUtils.normalizePath p <> [].
Proof.
  destruct p as [|c p]; [congruence |]. intros _.
  unfold DefaultFileUtils.normalizePath, DefaultFileUtils.replaceBackslashes.
  cbn [List.map].
  destruct (NormalizeFacts.collapseSlashes_head
              (if (c =? backslash)%N then slash else c)
              (List.map (fun c0 => if (c0 =? backslash)%N then slash else c0) p))
    as [r ->].
  discriminate.
Qed.

Lemma sum_sizes_perm (l l' : list FileIndexEntry.t) :
  Permutation l l' ->
  fold_right Z.add 0 (List.map FileIndexEntry.size l)
  = fold_right Z.add 0 (List.map FileIndexEntry.size l').
Proof. induction 1; simpl; lia. Qed.

(** The sum of two numbers is exact as long as it is a safe integer. *)
Lemma numAdd_exact (a b : Z) :
  Z.abs (a + b) <= maxSafeInteger -> numAdd a b = a + b.
Proof.
  unfold numAdd, roundToDouble, maxSafeInteger. intros Hsafe.
  destruct (Z.ltb_spec (Z.abs (a + b)) (2 ^ 53)); [reflexivity | lia].
Qed.

(** So is the total of sizes that are not negative, added up one by one
    in any order, as long as the total is a safe integer. *)
Lemma fold_left_numAdd_exact (sizes : list Z) (n : Z) :
  Forall (fun z => 0 <= z) sizes ->
  0 <= n ->
  n + fold_right Z.add 0 sizes <= maxSafeInteger ->
  fold_left numAdd sizes n = n + fold_right Z.add 0 sizes.
Proof.
  intros Hpos. revert n. induction Hpos as [|z sizes Hz Hpos IH]; intros n Hn Hsafe.
  - simpl. lia.
  - cbn [fold_left fold_right] in *.
    assert (Hsum : 0 <= fold_right Z.add 0 sizes).
    { clear - Hpos. induction Hpos; simpl; lia. }
    rewrite numAdd_exact by lia. rewrite IH by lia. lia.
Qed.

Lemma fold_left_numAdd_sizes (l : list FileIndexEntry.t) (n : Z) :
  fold_left (fun n file => numAdd n (FileIndexEntry.size file)) l n
  = fold_left numAdd (List.map FileIndexEntry.size l) n.
Proof.
  revert n; induction l as [|e l IH]; intros n; [reflexivity |].
  cbn [fold_left List.map]. apply IH.
Qed.

Lemma made_sizes `{H : Host} (options : FileIndexerOptions)
    (kept : list FileEntry.t) (made : list FileIndexEntry.t) :
  Forall2 (fun f e => exists now, e = createFileIndexEntry options f now) kept made ->
  List.map FileIndexEntry.size made = List.map FileEntry.size kept.
Proof.
  induction 1 as [|f e kept made [now ->] _ IH]; [reflexivity |].
  cbn [List.map]. rewrite IH. reflexivity.
Qed.

Lemma sum_nonneg (l : list Z) :
  Forall (fun z => 0 <= z) l -> 0 <= fold_right Z.add 0 l.
Proof. induction 1; simpl; lia. Qed.

End RunInvariants.

(** X1. In a run that returns, every valid input file (a path that is not
    empty, a size that is not negative) that the loop reaches is indexed,
    counted as ignored or recorded with an error, and never two of these:
    [filesIndexed + filesIgnored + errors.length] is at most the number of
    valid files, which is at most [totalFilesScanned], and it is that
    number when the run ends below the limit on the number of files. *)
Theorem indexCodebase_accounting :
  forall (H : Host) (options : FileIndexer.FileIndexerOptions)
         (input : CodebaseInput) (r : FileIndexer.IndexingResult),
    FileIndexer.indexCodebase options input = Ok r ->
    let s := FileIndexer.statistics r in
    let valid := Z.of_nat (length (List.filter FileIndexer.isValidFile (files input))) in
    FileIndexer.filesIndexed s + FileIndexer.filesIgnored s
      + Z.of_nat (length (FileIndexer.errors s)) <= valid
    /\ valid <= FileIndexer.totalFilesScanned s
    /\ (FileIndexer.filesIndexed s < FileIndexer.maxFiles options ->
        FileIndexer.filesIndexed s + FileIndexer.filesIgnored s
          + Z.of_nat (length (FileIndexer.errors s)) = valid).
Proof.
  intros H options input r Hrun s valid.
  pose proof (RunInvariants.indexCodebase_result options input r Hrun) as Hr.
  cbv zeta in Hr. subst s. rewrite Hr.
  cbn [FileIndexer.statistics FileIndexer.filesIndexed FileIndexer.filesIgnored
       FileIndexer.errors FileIndexer.totalFilesScanned].
  rewrite (Permutation_length (sort_perm _ _)).
  destruct (RunInvariants.collected_sizes options input)
    as (done & rest & Hsplit & Hrest & _ & -> & -> & HF).
  apply Forall2_length in HF. rewrite <- HF.
  pose proof (RunInvariants.turns_outcome options done) as Hout.
  assert (Hvalid : (length done + length rest
                    = length (List.filter FileIndexer.isValidFile (files input)))%nat).
  { rewrite <- length_app, <- Hsplit, IndexerFacts.filterFiles_map, length_map.
    reflexivity. }
  pose proof (filter_length_le FileIndexer.isValidFile (files input)) as Hle.
  subst valid. repeat split; try lia.
  intros Hlt. rewrite HF in Hlt. rewrite (Hrest Hlt) in Hvalid.
  simpl in Hvalid. lia.
Qed.

(** On the sample codebase: seven files indexed, one ignored, no error,
    eight valid files. *)
Lemma indexCodebase_accounting_witness :
  exists r : FileIndexer.IndexingResult,
    @FileIndexer.indexCodebase Sample.host FileIndexer.defaultOptions
      Sample.mockCodebaseInput = Ok r
    /\ FileIndexer.filesIndexed (FileIndexer.statistics r)
       + FileIndexer.filesIgnored (FileIndexer.statistics r)
       + Z.of_nat (length (FileIndexer.errors (FileIndexer.statistics r)))
       <= Z.of_nat (length (List.filter FileIndexer.isValidFile
                              (files Sample.mockCodebaseInput))).
Proof.
  eexists. split; [vm_compute; reflexivity |].
  apply (indexCodebase_accounting Sample.host FileIndexer.defaultOptions
           Sample.mockCodebaseInput _ eq_refl).
Defined.

(** X2. The index never holds more than [maxFiles] entries, or one entry
    when [maxFiles] is below one (the limit is tested after an entry is
    added); and the warning on the limit is given exactly when the index
    is not empty and holds [maxFiles] entries or more. *)
Theorem indexCodebase_limit :
  forall (H : Host) (options : FileIndexer.FileIndexerOptions)
         (input : CodebaseInput) (r : FileIndexer.IndexingResult),
    FileIndexer.indexCodebase options input = Ok r ->
    let s := FileIndexer.statistics r in
    FileIndexer.filesIndexed s <= Z.max 1 (FileIndexer.maxFiles options)
    /\ FileIndexer.filesIndexed s
       = Z.of_nat (length (CodebaseIndex.fileIndex (FileIndexer.index r)))
    /\ (In (lit "Reached maximum file limit ("
            ++ showZ (FileIndexer.maxFiles options)
            ++ lit "), stopping indexing") (FileIndexer.warnings s)
        <-> 0 < FileIndexer.filesIndexed s
            /\ FileIndexer.maxFiles options <= FileIndexer.filesIndexed s).
Proof.
  intros H options input r Hrun s.
  pose proof (RunInvariants.indexCodebase_result options input r Hrun) as Hr.
  cbv zeta in Hr. subst s. rewrite Hr.
  cbn [FileIndexer.statistics FileIndexer.filesIndexed FileIndexer.warnings
       FileIndexer.index CodebaseIndex.fileIndex].
  rewrite (Permutation_length (sort_perm _ _)).
  unfold FileIndexer.collected.
  set (st0 := {| FileIndexer.st_fileIndex := []; FileIndexer.st_warnings := _ |}).
  destruct (RunInvariants.loop_limit options
              (FileIndexer.filterFiles (files input)) st0) as [Hmax Hwarn].
  { left. reflexivity. }
  { subst st0. cbn [FileIndexer.st_warnings].
    destruct (FileIndexer.filterFiles (files input)); [| intros []].
    intros [E | []]. apply (f_equal (hd 0%N)) in E. discriminate E. }
  split; [exact Hmax |]. split; [reflexivity |].
  rewrite Hwarn. split.
  - intros [Hne Hge]. split; [| exact Hge].
    destruct (FileIndexer.st_fileIndex _); [congruence | simpl; lia].
  - intros [Hpos Hge]. split; [| exact Hge].
    destruct (FileIndexer.st_fileIndex _); [simpl in Hpos; lia | discriminate].
Qed.

(** With a limit of no file the first file is indexed all the same. *)
Lemma indexCodebase_limit_witness :
  exists r : FileIndexer.IndexingResult,
    @FileIndexer.indexCodebase Sample.host Sample2.limitZero
      Sample.twoFiles = Ok r
    /\ FileIndexer.filesIndexed (FileIndexer.statistics r) = 1
    /\ FileIndexer.filesIndexed (FileIndexer.statistics r)
       <= Z.max 1 (FileIndexer.maxFiles Sample2.limitZero).
Proof.
  eexists. split; [vm_compute; reflexivity |].
  split; [vm_compute; reflexivity |].
  apply (indexCodebase_limit Sample.host Sample2.limitZero Sample.twoFiles _ eq_refl).
Defined.

(** X3. The totals of a run: [index.statistics.totalFiles] is
    [filesIndexed]; and as long as the sizes of the entries add up to a
    safe integer, [totalSizeBytes], added up in the loop in the order of
    the input, and [index.statistics.totalSize], added up over the sorted
    index, are both exactly that sum.  Beyond the safe integers each
    addition rounds, and the two totals can differ. *)
Theorem indexCodebase_totals :
  forall (H : Host) (options : FileIndexer.FileIndexerOptions)
         (input : CodebaseInput) (r : FileIndexer.IndexingResult),
    FileIndexer.indexCodebase options input = Ok r ->
    let entries := CodebaseIndex.fileIndex (FileIndexer.index r) in
    let stats := CodebaseIndex.statistics (FileIndexer.index r) in
    let sum := fold_right Z.add 0 (List.map FileIndexEntry.size entries) in
    CodebaseStatistics.totalFiles stats
    = FileIndexer.filesIndexed (FileIndexer.statistics r)
    /\ Forall (fun e => 0 <= FileIndexEntry.size e) entries
    /\ (sum <= maxSafeInteger ->
        FileIndexer.totalSizeBytes (FileIndexer.statistics r) = sum
        /\ CodebaseStatistics.totalSize stats = sum).
Proof.
  intros H options input r Hrun entries stats sum.
  pose proof (RunInvariants.indexCodebase_result options input r Hrun) as Hr.
  cbv zeta in Hr. subst sum entries stats. rewrite Hr.
  cbn [FileIndexer.statistics FileIndexer.index FileIndexer.totalSizeBytes
       FileIndexer.filesIndexed CodebaseIndex.fileIndex CodebaseIndex.statistics
       FileIndexer.calculateStatistics CodebaseStatistics.totalSize
       CodebaseStatistics.totalFiles].
  destruct (RunInvariants.collected_sizes options input)
    as (done & rest & Hsplit & _ & Htotal & _ & _ & HF).
  pose proof (RunInvariants.made_sizes options _ _ HF) as Hsizes.
  assert (Hpos : Forall (fun z => 0 <= z)
                   (List.map FileIndexEntry.size
                      (FileIndexer.st_fileIndex
                         (FileIndexer.collected options input)))).
  { rewrite Hsizes. apply Forall_forall.
    intros z Hz. apply list_elem_of_In in Hz.
    apply in_map_iff in Hz as (f & <- & Hf).
    apply filter_In in Hf as [Hf _].
    assert (Hin : In f (FileIndexer.filterFiles (files input)))
      by (rewrite Hsplit; apply in_or_app; left; exact Hf).
    rewrite IndexerFacts.filterFiles_map in Hin.
    apply in_map_iff in Hin as (f0 & <- & Hf0).
    apply filter_In in Hf0 as [_ Hv]. unfold FileIndexer.isValidFile in Hv.
    cbn [FileIndexer.normalized FileEntry.size].
    destruct (FileEntry.path f0); [discriminate |].
    destruct (Z.ltb_spec (FileEntry.size f0) 0); [discriminate | lia]. }
  assert (Hsorted : Forall (fun z => 0 <= z)
                      (List.map FileIndexEntry.size
                         (sort FileIndexer.byScoreDescending
                            (FileIndexer.st_fileIndex
                               (FileIndexer.collected options input))))).
  { apply List.Forall_forall. intros z Hz.
    apply (proj1 (List.Forall_forall _ _) Hpos).
    apply in_map_iff in Hz as (e & <- & He). apply in_map_iff.
    exists e. split; [reflexivity |].
    eapply Permutation_in; [apply sort_perm | exact He]. }
  split; [reflexivity |].
  split.
  { apply List.Forall_forall. intros e He.
    apply (proj1 (List.Forall_forall _ _) Hsorted).
    apply in_map. exact He. }
  intros Hsafe.
  rewrite (RunInvariants.sum_sizes_perm _ _ (sort_perm _ _)) in Hsafe |- *.
  split.
  - rewrite Htotal, <- Hsizes.
    rewrite RunInvariants.fold_left_numAdd_exact; [lia | exact Hpos | lia | lia].
  - rewrite RunInvariants.fold_left_numAdd_sizes.
    rewrite RunInvariants.fold_left_numAdd_exact; [| exact Hsorted | lia |].
    + rewrite (RunInvariants.sum_sizes_perm _ _ (sort_perm _ _)). lia.
    + rewrite (RunInvariants.sum_sizes_perm _ _ (sort_perm _ _)). lia.
Qed.

Lemma indexCodebase_totals_witness :
  exists r : FileIndexer.IndexingResult,
    @FileIndexer.indexCodebase Sample.host FileIndexer.defaultOptions
      Sample.mockCodebaseInput = Ok r
    /\ FileIndexer.totalSizeBytes (FileIndexer.statistics r) = 390
    /\ CodebaseStatistics.totalSize (CodebaseIndex.statistics (FileIndexer.index r))
       = 390.
Proof.
  eexists. split; [vm_compute; reflexivity |].
  pose proof (indexCodebase_totals Sample.host FileIndexer.defaultOptions
                Sample.mockCodebaseInput _ eq_refl) as Ht.
  cbv zeta in Ht. destruct Ht as (_ & _ & Ht).
  apply Ht. vm_compute. discriminate.
Defined.

(** Two files of one byte and a package file of 2^53 bytes, under a
    limit of 2^60 bytes: added up in the order of the input the total is
    2^53 + 2, added up over the sorted index, where the package file
    comes first, it is 2^53. *)
Example indexCodebase_totals_rounded :
  exists r : FileIndexer.IndexingResult,
    @FileIndexer.indexCodebase Sample.host Sample2.largeLimit Sample2.largeFile
    = Ok r
    /\ FileIndexer.totalSizeBytes (FileIndexer.statistics r) = 2 ^ 53 + 2
    /\ CodebaseStatistics.totalSize (CodebaseIndex.statistics (FileIndexer.index r))
       = 2 ^ 53.
Proof. eexists. split; [vm_compute; reflexivity |]. split; reflexivity. Qed.

(** X4. Every entry of the index of a run is well formed: its path is not
    empty and is in normal form, the default rules do not ignore it, its
    size is between zero and [maxFileSize], and its importance and its
    language are the ones the file utilities give for the stored path. *)
Theorem fileIndex_entries_well_formed :
  forall (H : Host) (options : FileIndexer.FileIndexerOptions)
         (input : CodebaseInput) (r : FileIndexer.IndexingResult),
    FileIndexer.indexCodebase options input = Ok r ->
    forall e : FileIndexEntry.t,
      In e (CodebaseIndex.fileIndex (FileIndexer.index r)) ->
      FileIndexEntry.path e <> []
      /\ DefaultFileUtils.normalizePath (FileIndexEntry.path e) = FileIndexEntry.path e
      /\ DefaultFileUtils.shouldIgnoreFile (FileIndexEntry.path e) = false
      /\ 0 <= FileIndexEntry.size e <= FileIndexer.maxFileSize options
      /\ FileIndexEntry.importance e
         = DefaultFileUtils.calculateImportanceScore (FileIndexEntry.path e) None
      /\ FileIndexEntry.language e
         = DefaultFileUtils.getLanguageFromPath (FileIndexEntry.path e).
Proof.
  intros H options input r Hrun e He.
  pose proof (RunInvariants.indexCodebase_result options input r Hrun) as Hr.
  cbv zeta in Hr. rewrite Hr in He.
  cbn [FileIndexer.index CodebaseIndex.fileIndex] in He.
  eapply Permutation_in in He; [| apply sort_perm].
  destruct (RunInvariants.collected_entries options input e He)
    as (f0 & now & _ & Hv & Hix & ->).
  destruct (RunInvariants.isIndexed_facts options _ Hix) as [Hig Hsize].
  unfold FileIndexer.createFileIndexEntry, FileIndexer.normalized in *.
  cbn [FileIndexEntry.path FileIndexEntry.size FileIndexEntry.importance
       FileIndexEntry.language FileEntry.path FileEntry.size] in *.
  rewrite !NormalizeFacts.normalizePath_twice.
  unfold FileIndexer.isValidFile in Hv.
  split.
  - apply RunInvariants.normalizePath_not_empty.
    destruct (FileEntry.path f0); [discriminate | discriminate].
  - repeat split; try assumption; try reflexivity.
    destruct (FileEntry.path f0); [discriminate |].
    destruct (Z.ltb_spec (FileEntry.size f0) 0); [discriminate | lia].
Qed.

Lemma fileIndex_entries_well_formed_witness :
  exists r : FileIndexer.IndexingResult,
    @FileIndexer.indexCodebase Sample.host FileIndexer.defaultOptions
      Sample2.negativeSize = Ok r
    /\ List.map FileIndexEntry.path (CodebaseIndex.fileIndex (FileIndexer.index r))
       = [lit "valid.js"]
    /\ forall e : FileIndexEntry.t,
         In e (CodebaseIndex.fileIndex (FileIndexer.index r)) ->
         FileIndexEntry.path e <> []
         /\ DefaultFileUtils.normalizePath (FileIndexEntry.path e)
            = FileIndexEntry.path e
         /\ DefaultFileUtils.shouldIgnoreFile (FileIndexEntry.path e) = false
         /\ 0 <= FileIndexEntry.size e
            <= FileIndexer.maxFileSize FileIndexer.defaultOptions
         /\ FileIndexEntry.importance e
            = DefaultFileUtils.calculateImportanceScore (FileIndexEntry.path e) None
         /\ FileIndexEntry.language e
            = @DefaultFileUtils.getLanguageFromPath Sample.host
                (FileIndexEntry.path e).
Proof.
  eexists. split; [vm_compute; reflexivity |].
  split; [vm_compute; reflexivity |].
  apply (fileIndex_entries_well_formed Sample.host FileIndexer.defaultOptions
           Sample2.negativeSize _ eq_refl).
Defined.

(* ===================================================================== *)
(** * Statistics, priority files and queries *)
(* ===================================================================== *)

Module StatisticsFacts.
Import FileIndexer.

Lemma FileType_eqb_eq (a b : FileType) : FileType_eqb a b = true <-> a = b.
Proof. destruct a, b; simpl; split; congruence. Qed.





Section Languages.
Variable k : jsstring.




End Languages.

(** The languages of the table are no names of inherited members. *)
Lemma language_of_table `{H : Host} (path l : jsstring) :
  DefaultFileUtils.getLanguageFromPath path = Own l ->
  In l (List.map snd DefaultFileUtils.languageMap)
  /\ isObjectPrototypeMember l = false.
Proof.
  unfold DefaultFileUtils.getLanguageFromPath.
  destruct (option_map toLowerCase (pop (split dot path))) as [[|c e]|];
    try discriminate.
  unfold getProperty.
  destruct (DefaultFileUtils.lookupKey DefaultFileUtils.languageMap (c :: e))
    as [l'|] eqn:El; [| destruct (isObjectPrototypeMember _); discriminate].
  intros [= ->].
  assert (Hin : In l (List.map snd DefaultFileUtils.languageMap)).
  { clear - El. revert El. generalize DefaultFileUtils.languageMap.
    induction l0 as [|[k v] rest IH]; cbn [DefaultFileUtils.lookupKey];
      [discriminate |].
    destruct (streq (c :: e) k); [intros [= ->]; left; reflexivity |].
    intros El. right. apply IH. exact El. }
  split; [exact Hin |].
  revert Hin. unfold DefaultFileUtils.languageMap. cbn [List.map snd In].
  intros Hin.
  repeat (destruct Hin as [<- | Hin]; [reflexivity |]). destruct Hin.
Qed.

Lemma sublist_map_filter {A B : Type} (g : A -> B) (p : A -> bool) (l : list A) :
  sublist (List.map g (List.filter p l)) (List.map g l).
Proof.
  induction l as [|x l IH]; simpl; [constructor |].
  destruct (p x); simpl; constructor; exact IH.
Qed.

End StatisticsFacts.



(** Two files named after inherited members: [toString] gets the member
    as its type and is in none of the eight counts; [x.constructor] gets
    the member as its language and is counted under the member. *)
Example statistics_inherited_members :
  exists r : FileIndexer.IndexingResult,
    @FileIndexer.indexCodebase Sample.host FileIndexer.defaultOptions
      Sample2.memberNames = Ok r
    /\ List.map FileIndexEntry.type
         (CodebaseIndex.fileIndex (FileIndexer.index r))
       = [InheritedValue (lit "toString"); TypeOf source]
    /\ List.map FileIndexEntry.language
         (CodebaseIndex.fileIndex (FileIndexer.index r))
       = [Undefined; Inherited (lit "constructor")]
    /\ CodebaseStatistics.languageDistribution
         (CodebaseIndex.statistics (FileIndexer.index r))
         !! inr (lit "constructor") = Some (Counted 1)
    /\ IndexQueries.getFilesByLanguage (FileIndexer.index r) (lit "constructor")
       = [].
Proof.
  eexists. split; [vm_compute; reflexivity |].
  repeat split; vm_compute; reflexivity.
Qed.

(** X6. Each of the six lists of [priorityFiles] is a selection of the
    paths of [fileIndex], in the order of the index: it names indexed
    files only, most important first. *)
Theorem priorityFiles_within_index :
  forall (H : Host) (options : FileIndexer.FileIndexerOptions)
         (input : CodebaseInput) (r : FileIndexer.IndexingResult),
    FileIndexer.indexCodebase options input = Ok r ->
    let paths := List.map FileIndexEntry.path
                   (CodebaseIndex.fileIndex (FileIndexer.index r)) in
    let p := CodebaseIndex.priorityFiles (FileIndexer.index r) in
    sublist (packageFiles p) paths
    /\ sublist (configFiles p) paths
    /\ sublist (entryPoints p) paths
    /\ sublist (schemas p) paths
    /\ sublist (dockerFiles p) paths
    /\ sublist (cicdFiles p) paths.
Proof.
  intros H options input r Hrun paths p.
  pose proof (RunInvariants.indexCodebase_result options input r Hrun) as Hr.
  cbv zeta in Hr. subst paths p. rewrite Hr.
  cbn [FileIndexer.index CodebaseIndex.priorityFiles CodebaseIndex.fileIndex].
  unfold FileIndexer.createPriorityFileMap.
  cbn [packageFiles configFiles entryPoints schemas dockerFiles cicdFiles].
  repeat split; apply StatisticsFacts.sublist_map_filter.
Qed.

Lemma priorityFiles_within_index_witness :
  exists r : FileIndexer.IndexingResult,
    @FileIndexer.indexCodebase Sample.host FileIndexer.defaultOptions
      Sample.mockCodebaseInput = Ok r
    /\ configFiles (CodebaseIndex.priorityFiles (FileIndexer.index r))
       = [lit "Dockerfile"; lit ".github/workflows/ci.yml"]
    /\ sublist (configFiles (CodebaseIndex.priorityFiles (FileIndexer.index r)))
         (List.map FileIndexEntry.path
            (CodebaseIndex.fileIndex (FileIndexer.index r))).
Proof.
  eexists. split; [vm_compute; reflexivity |].
  split; [vm_compute; reflexivity |].
  exact (proj1 (proj2 (priorityFiles_within_index Sample.host
                         FileIndexer.defaultOptions Sample.mockCodebaseInput _
                         eq_refl))).
Defined.

(** X7. The warning [No files remaining after filtering] is given exactly
    when no input file is valid; the index is then empty, nothing is
    counted as ignored and no error is recorded. *)
Theorem indexCodebase_no_valid_files :
  forall (H : Host) (options : FileIndexer.FileIndexerOptions)
         (input : CodebaseInput) (r : FileIndexer.IndexingResult),
    FileIndexer.indexCodebase options input = Ok r ->
    let s := FileIndexer.statistics r in
    (In (lit "No files remaining after filtering") (FileIndexer.warnings s)
     <-> List.filter FileIndexer.isValidFile (files input) = [])
    /\ (List.filter FileIndexer.isValidFile (files input) = [] ->
        CodebaseIndex.fileIndex (FileIndexer.index r) = []
        /\ FileIndexer.filesIgnored s = 0
        /\ FileIndexer.errors s = []
        /\ FileIndexer.warnings s = [lit "No files remaining after filtering"]).
Proof.
  intros H options input r Hrun s.
  pose proof (RunInvariants.indexCodebase_result options input r Hrun) as Hr.
  cbv zeta in Hr. subst s. rewrite Hr.
  cbn [FileIndexer.statistics FileIndexer.index CodebaseIndex.fileIndex
       FileIndexer.warnings FileIndexer.filesIgnored FileIndexer.errors].
  unfold FileIndexer.collected.
  rewrite IndexerFacts.filterFiles_map.
  destruct (List.filter FileIndexer.isValidFile (files input)) as [|f fs] eqn:Ef.
  - cbn. repeat split; try reflexivity. intros _. left. reflexivity.
  - split; [| discriminate]. split; [| discriminate].
    cbn [List.map].
    set (st0 := {| FileIndexer.st_fileIndex := []; FileIndexer.st_warnings := [] |}).
    destruct (IndexerFacts.loop_prefix options
                (FileIndexer.normalized f :: List.map FileIndexer.normalized fs) st0)
      as (done & rest & _ & -> & _).
    destruct (RunInvariants.fold_warnings_shape options done st0)
      as (extra & -> & Hextra).
    cbn [FileIndexer.st_warnings app]. intros Hin.
    rewrite Forall_forall in Hextra.
    apply list_elem_of_In in Hin.
    destruct (Hextra _ Hin) as [E | E]; discriminate E.
Qed.

Lemma indexCodebase_no_valid_files_witness :
  exists r : FileIndexer.IndexingResult,
    @FileIndexer.indexCodebase Sample.host FileIndexer.defaultOptions
      {| files := [Sample.file [] (lit "x") 1 None;
                   Sample.file (lit "a.js") (lit "x") (-5) None];
         metadataName := [] |} = Ok r
    /\ FileIndexer.filesIndexed (FileIndexer.statistics r) = 0
    /\ (In (lit "No files remaining after filtering")
          (FileIndexer.warnings (FileIndexer.statistics r))
        <-> List.filter FileIndexer.isValidFile
              [Sample.file [] (lit "x") 1 None;
               Sample.file (lit "a.js") (lit "x") (-5) None] = []).
Proof.
  eexists. split; [vm_compute; reflexivity |].
  split; [vm_compute; reflexivity |].
  exact (proj1 (indexCodebase_no_valid_files Sample.host
                  FileIndexer.defaultOptions
                  {| files := [Sample.file [] (lit "x") 1 None;
                               Sample.file (lit "a.js") (lit "x") (-5) None];
                     metadataName := [] |} _ eq_refl)).
Defined.

(** X8. With file utilities that never throw, as the default ones,
    only a custom ignore pattern with a star can make a file fail: when
    no custom pattern has one, as with the default options, a run
    records no error, whatever the runtime and the files.  This holds of
    the indexer on the default utilities and of the indexer on any
    utilities of which no call throws. *)
Theorem indexCodebase_no_errors_without_globs :
  forall (H : Host) (options : FileIndexer.FileIndexerOptions),
    Forall (fun pattern => includes pattern [star] = false)
      (FileIndexer.customIgnorePatterns options) ->
    (forall (input : CodebaseInput) (r : FileIndexer.IndexingResult),
        FileIndexer.indexCodebase options input = Ok r ->
        FileIndexer.errors (FileIndexer.statistics r) = [])
    /\ (forall (St : Type) (fileUtils : InjectedFileIndexer.FileUtils.t St)
               (objects : InjectedFileIndexer.Heap) (files : list nat) (s s' : St)
               (r : FileIndexer.IndexingResult),
           (forall path content,
               InjectedFileIndexer.returns
                 (InjectedFileIndexer.FileUtils.getFileType fileUtils path content)) ->
           (forall path content,
               InjectedFileIndexer.returns
                 (InjectedFileIndexer.FileUtils.calculateImportanceScore
                    fileUtils path content)) ->
           (forall path,
               InjectedFileIndexer.returns
                 (InjectedFileIndexer.FileUtils.shouldIgnoreFile fileUtils path)) ->
           (forall path,
               InjectedFileIndexer.returns
                 (InjectedFileIndexer.FileUtils.getLanguageFromPath fileUtils path)) ->
           (forall path,
               InjectedFileIndexer.returns
                 (InjectedFileIndexer.FileUtils.normalizePath fileUtils path)) ->
           InjectedFileIndexer.indexCodebase fileUtils options objects files s
           = (Ok r, s') ->
           FileIndexer.errors (FileIndexer.statistics r) = []).
Proof.
  intros H options Hpat. split.
  - intros input r Hrun.
    pose proof (RunInvariants.indexCodebase_result options input r Hrun) as Hr.
    cbv zeta in Hr. rewrite Hr. cbn [FileIndexer.statistics FileIndexer.errors].
    destruct (RunInvariants.collected_sizes options input)
      as (done & rest & _ & _ & _ & -> & _).
    assert (Hno : forall f, FileIndexer.errorOf options f = []).
    { intros f. unfold FileIndexer.errorOf, FileIndexer.shouldIgnoreFile.
      destruct (DefaultFileUtils.shouldIgnoreFile (FileEntry.path f));
        [reflexivity |].
      destruct (InjectedFacts.someResult_no_star (FileEntry.path f) _ Hpat)
        as [matched ->].
      reflexivity. }
    induction done as [|f done IH]; [reflexivity |].
    cbn [flat_map]. rewrite Hno, IH. reflexivity.
  - intros St fileUtils objects files s s' r Htype Hscore Hignore Hlanguage Hpath
      Hrun.
    destruct files as [|ref rest] eqn:Efiles;
      [rewrite InjectedFacts.indexCodebase_empty in Hrun; discriminate Hrun |].
    rewrite <- Efiles in Hrun.
    assert (Hne : files <> []) by (rewrite Efiles; discriminate).
    destruct (InjectedFileIndexer.filterFiles fileUtils files objects s)
      as [[passed | error] s1] eqn:E.
    + destruct (InjectedFacts.indexCodebase_returns fileUtils options objects
                  files s passed s1 Hne E)
        as (r' & rest' & Hrun' & _ & _ & Herrors & _).
      rewrite Hrun' in Hrun. injection Hrun as <- _.
      rewrite Herrors. apply InjectedFacts.turns_errors.
      intros file entries s0.
      apply InjectedFacts.turn_returns; assumption.
    + rewrite (InjectedFacts.indexCodebase_filter_throws fileUtils options
                 objects files s error s1 Hne E) in Hrun.
      discriminate Hrun.
Qed.

Lemma indexCodebase_no_errors_without_globs_witness :
  exists r : FileIndexer.IndexingResult,
    @FileIndexer.indexCodebase Sample.host FileIndexer.defaultOptions
      Sample.mockCodebaseInput = Ok r
    /\ FileIndexer.errors (FileIndexer.statistics r) = [].
Proof.
  eexists. split; [vm_compute; reflexivity |].
  apply (proj1 (indexCodebase_no_errors_without_globs Sample.host
                  FileIndexer.defaultOptions (List.Forall_nil _))
           Sample.mockCodebaseInput _ eq_refl).
Defined.

(** With utilities that throw, a file fails without any pattern: the
    utilities of the repository's test of errors, with the default
    options, record the exception of [error-file.js]. *)
Example indexCodebase_errors_of_utilities :
  exists r : FileIndexer.IndexingResult,
    @InjectedFileIndexer.indexCodebase Sample.host unit Sample2.mockFileUtils
      FileIndexer.defaultOptions
      (InjectedFileIndexer.objectsOf Sample2.errorFile)
      (InjectedFileIndexer.referencesOf Sample2.errorFile) tt
    = (Ok r, tt)
    /\ FileIndexer.customIgnorePatterns FileIndexer.defaultOptions = []
    /\ FileIndexer.errors (FileIndexer.statistics r)
       = [lit "Error processing file error-file.js: Simulated processing error"].
Proof. eexists. split; [vm_compute; reflexivity | vm_compute; repeat split]. Qed.

(* ===================================================================== *)
(** * The files of top priority *)
(* ===================================================================== *)

Module QueryFacts.

Section Lists.
Context {A : Type}.

Lemma slice0_length (l : list A) (n : Z) :
  Z.of_nat (length (slice0 l n))
  = if n <? 0 then Z.max 0 (Z.of_nat (length l) + n)
    else Z.min (Z.of_nat (length l)) n.
Proof.
  unfold slice0. destruct (Z.ltb_spec n 0); rewrite length_firstn; lia.
Qed.

Lemma slice0_prefix (l : list A) (n : Z) : exists k, slice0 l n = firstn k l.
Proof. unfold slice0. destruct (n <? 0); eexists; reflexivity. Qed.

Lemma slice0_all (l : list A) (n : Z) :
  Z.of_nat (length l) <= n -> slice0 l n = l.
Proof.
  intros Hn. unfold slice0. destruct (Z.ltb_spec n 0); [lia |].
  apply firstn_all2. lia.
Qed.

Lemma firstn_In (k : nat) (l : list A) (x : A) : In x (firstn k l) -> In x l.
Proof.
  revert l; induction k as [|k IH]; intros [|y l]; simpl; try tauto.
  intros [-> | Hx]; [left; reflexivity | right; apply IH; exact Hx].
Qed.

Variable key : A -> Z.

Lemma sorted_firstn (k : nat) (l : list A) :
  StronglySorted (fun a b => key b <= key a) l ->
  StronglySorted (fun a b => key b <= key a) (firstn k l).
Proof.
  intros Hl. revert k; induction Hl as [|x l Hl IH Hx]; intros [|k]; simpl;
    try constructor.
  - apply IH.
  - apply Forall_forall. intros y Hy. apply list_elem_of_In in Hy.
    apply firstn_In in Hy. rewrite Forall_forall in Hx.
    apply Hx. apply list_elem_of_In. exact Hy.
Qed.

Lemma sorted_filter (p : A -> bool) (l : list A) :
  StronglySorted (fun a b => key b <= key a) l ->
  StronglySorted (fun a b => key b <= key a) (List.filter p l).
Proof.
  induction 1 as [|x l Hl IH Hx]; simpl; [constructor |].
  destruct (p x); [| exact IH].
  constructor; [exact IH |].
  apply Forall_forall. intros y Hy. apply list_elem_of_In in Hy.
  apply filter_In in Hy as [Hy _]. rewrite Forall_forall in Hx.
  apply Hx. apply list_elem_of_In. exact Hy.
Qed.

(** Sorting a list that is in order changes nothing. *)
Lemma sort_of_sorted (compareFn : A -> A -> Z) (l : list A) :
  (forall a b, compareFn a b = key b - key a) ->
  StronglySorted (fun a b => key b <= key a) l ->
  sort compareFn l = l.
Proof.
  intros Hcmp. induction 1 as [|x l Hl IH Hx]; [reflexivity |].
  cbn [sort fold_right]. fold (sort compareFn l). rewrite IH.
  destruct l as [|y l]; [reflexivity |].
  cbn [insertSorted]. rewrite Hcmp.
  apply Forall_cons in Hx as [Hy _].
  destruct (Z.leb_spec (key y - key x) 0); [reflexivity | lia].
Qed.

(** In a list in falling order the elements at or above a threshold are
    the first ones. *)
Lemma filter_threshold_prefix (threshold : Z) (l : list A) :
  StronglySorted (fun a b => key b <= key a) l ->
  exists k, List.filter (fun e => threshold <=? key e) l = firstn k l.
Proof.
  induction 1 as [|x l Hl [k IH] Hx]; [exists 0%nat; reflexivity |].
  cbn [List.filter]. destruct (Z.leb_spec threshold (key x)) as [Hge | Hlt].
  - exists (S k). cbn [firstn]. rewrite IH. reflexivity.
  - exists 0%nat. cbn [firstn].
    clear IH Hl. induction l as [|y l IHl]; [reflexivity |].
    apply Forall_cons in Hx as [Hy Hx]. cbn [List.filter].
    destruct (Z.leb_spec threshold (key y)); [lia | apply IHl; exact Hx].
Qed.

End Lists.

(** For an entry scored by the file utilities, the top categories are
    the scores from 50 up. *)
Lemma isTopCategory_score (path : jsstring) (content : option jsstring)
    (e : FileIndexEntry.t) :
  FileIndexEntry.importance e
  = DefaultFileUtils.calculateImportanceScore path content ->
  isTopCategory e = (50 <=? score (FileIndexEntry.importance e)).
Proof.
  intros E. unfold isTopCategory. rewrite E. simpl.
  unfold DefaultFileUtils.categoryOfScore.
  generalize (fst (DefaultFileUtils.tally path)); intros s.
  destruct (Z.geb_spec s 80); [destruct (Z.leb_spec 50 s); [reflexivity | lia] |].
  destruct (Z.geb_spec s 50); [destruct (Z.leb_spec 50 s); [reflexivity | lia] |].
  destruct (Z.geb_spec s 20); destruct (Z.leb_spec 50 s); try reflexivity; lia.
Qed.

Lemma filter_ext_in_bool {A : Type} (p q : A -> bool) (l : list A) :
  (forall x, In x l -> p x = q x) -> List.filter p l = List.filter q l.
Proof.
  induction l as [|x l IH]; intros Hpq; [reflexivity |].
  cbn [List.filter]. rewrite (Hpq x (or_introl eq_refl)), IH; [reflexivity |].
  intros y Hy. apply Hpq. right. exact Hy.
Qed.

End QueryFacts.

(** X9. On the index of a run, [FileIndexer.getTopPriorityFiles] returns
    the first entries of [fileIndex]: all of them score 50 or more, with
    a limit that is not negative there are at most [limit] of them, with
    a limit of [filesIndexed] or more they are all the entries that score
    50 or more, and the helper of the classifier, which sorts again,
    returns the same list. *)
Theorem getTopPriorityFiles_prefix :
  forall (H : Host) (options : FileIndexer.FileIndexerOptions)
         (input : CodebaseInput) (r : FileIndexer.IndexingResult) (limit : Z),
    FileIndexer.indexCodebase options input = Ok r ->
    let entries := CodebaseIndex.fileIndex (FileIndexer.index r) in
    let top := IndexQueries.getTopPriorityFiles (FileIndexer.index r) limit in
    (exists k, top = firstn k entries)
    /\ Forall (fun e => 50 <= score (FileIndexEntry.importance e)) top
    /\ (0 <= limit -> Z.of_nat (length top) <= limit)
    /\ (FileIndexer.filesIndexed (FileIndexer.statistics r) <= limit ->
        top = List.filter
                (fun e => 50 <=? score (FileIndexEntry.importance e)) entries)
    /\ top = ClassifierQueries.getTopPriorityFiles entries limit.
Proof.
  intros H options input r limit Hrun entries top.
  pose proof (RunInvariants.indexCodebase_result options input r Hrun) as Hr.
  cbv zeta in Hr.
  set (key := fun e => score (FileIndexEntry.importance e)).
  assert (Hkey : forall a b, FileIndexer.byScoreDescending a b = key b - key a)
    by reflexivity.
  assert (Hsorted : StronglySorted (fun a b => key b <= key a) entries).
  { subst entries. rewrite Hr. apply (sort_sorted key _ Hkey). }
  assert (Htop : List.filter isTopCategory entries
                 = List.filter (fun e => 50 <=? key e) entries).
  { apply QueryFacts.filter_ext_in_bool. intros e He.
    subst entries. rewrite Hr in He.
    cbn [FileIndexer.index CodebaseIndex.fileIndex] in He.
    eapply Permutation_in in He; [| apply sort_perm].
    destruct (RunInvariants.collected_entries options input e He)
      as (f0 & now & _ & _ & _ & ->).
    eapply QueryFacts.isTopCategory_score. reflexivity. }
  assert (Hn : FileIndexer.filesIndexed (FileIndexer.statistics r)
               = Z.of_nat (length entries)).
  { subst entries. rewrite Hr. reflexivity. }
  clear Hr. subst top. unfold IndexQueries.getTopPriorityFiles.
  fold entries. rewrite Htop.
  destruct (QueryFacts.filter_threshold_prefix key 50 entries Hsorted) as [k Hk].
  split; [| split; [| split; [| split]]].
  - rewrite Hk. destruct (QueryFacts.slice0_prefix (firstn k entries) limit)
      as [k' ->].
    exists (Nat.min k' k). apply firstn_firstn.
  - apply Forall_forall. intros e He. apply list_elem_of_In in He.
    destruct (QueryFacts.slice0_prefix
                (List.filter (fun e => 50 <=? key e) entries) limit) as [k' Ek'].
    rewrite Ek' in He. apply QueryFacts.firstn_In in He.
    apply filter_In in He as [_ He]. apply Z.leb_le in He. exact He.
  - intros Hlimit.
    pose proof (QueryFacts.slice0_length
                  (List.filter (fun e => 50 <=? key e) entries) limit) as Hlen.
    destruct (Z.ltb_spec limit 0); lia.
  - intros Hlimit. apply QueryFacts.slice0_all.
    change (Z.of_nat (length (List.filter (fun e => 50 <=? key e) entries))
            <= limit).
    pose proof (List.filter_length_le (fun e => 50 <=? key e) entries). lia.
  - unfold ClassifierQueries.getTopPriorityFiles. rewrite Htop.
    rewrite (QueryFacts.sort_of_sorted key _ _ Hkey); [reflexivity |].
    apply QueryFacts.sorted_filter. exact Hsorted.
Qed.

(** The three best files of the sample codebase. *)
Lemma getTopPriorityFiles_prefix_witness :
  exists r : FileIndexer.IndexingResult,
    @FileIndexer.indexCodebase Sample.host FileIndexer.defaultOptions
      Sample.mockCodebaseInput = Ok r
    /\ List.map FileIndexEntry.path
         (IndexQueries.getTopPriorityFiles (FileIndexer.index r) 3)
       = [lit "Dockerfile"; lit "src/index.ts"; lit "package.json"]
    /\ exists k,
         IndexQueries.getTopPriorityFiles (FileIndexer.index r) 3
         = firstn k (CodebaseIndex.fileIndex (FileIndexer.index r)).
Proof.
  eexists. split; [vm_compute; reflexivity |].
  split; [vm_compute; reflexivity |].
  exact (proj1 (getTopPriorityFiles_prefix Sample.host FileIndexer.defaultOptions
                  Sample.mockCodebaseInput _ 3 eq_refl)).
Defined.

(** X10. [FilePriorityClassifier.getTopPriorityFiles], on any list of
    entries and any whole limit: the result is in falling order of score,
    holds critical and important entries of the list only, and its length
    is the number of such entries cut at [limit], where a negative limit
    cuts that many entries off the end; with a limit at or above that
    number the result is a rearrangement of all of them. *)
Theorem classifier_getTopPriorityFiles :
  forall (entries : list FileIndexEntry.t) (limit : Z),
    let top := ClassifierQueries.getTopPriorityFiles entries limit in
    let candidates := List.filter isTopCategory entries in
    StronglySorted
      (fun a b => score (FileIndexEntry.importance b)
                  <= score (FileIndexEntry.importance a)) top
    /\ Forall (fun e => isTopCategory e = true /\ In e entries) top
    /\ Z.of_nat (length top)
       = (if limit <? 0 then Z.max 0 (Z.of_nat (length candidates) + limit)
          else Z.min (Z.of_nat (length candidates)) limit)
    /\ (Z.of_nat (length candidates) <= limit -> Permutation top candidates).
Proof.
  intros entries limit top candidates.
  set (key := fun e => score (FileIndexEntry.importance e)).
  assert (Hkey : forall a b, FileIndexer.byScoreDescending a b = key b - key a)
    by reflexivity.
  subst top. unfold ClassifierQueries.getTopPriorityFiles. fold candidates.
  destruct (QueryFacts.slice0_prefix
              (sort FileIndexer.byScoreDescending candidates) limit) as [k Hk].
  split; [| split; [| split]].
  - rewrite Hk. apply (QueryFacts.sorted_firstn key).
    apply (sort_sorted key _ Hkey).
  - rewrite Hk. apply Forall_forall. intros e He. apply list_elem_of_In in He.
    apply QueryFacts.firstn_In in He.
    eapply Permutation_in in He; [| apply sort_perm].
    apply filter_In in He as [He Htop]. split; assumption.
  - rewrite QueryFacts.slice0_length.
    rewrite (Permutation_length (sort_perm _ _)). reflexivity.
  - intros Hlimit. rewrite QueryFacts.slice0_all.
    + apply sort_perm.
    + rewrite (Permutation_length (sort_perm _ _)). exact Hlimit.
Qed.

(* ===================================================================== *)
(** * Ignored paths and the normal form *)
(* ===================================================================== *)

Module IgnoreFacts.
Import DefaultFileUtils.

Lemma endsWith_app (s pat : jsstring) :
  endsWith s pat = true <-> exists a, s = a ++ pat.
Proof.
  unfold endsWith. rewrite startsWith_app. split.
  - intros [r E]. exists (rev r).
    rewrite <- (rev_involutive s), E, rev_app_distr, rev_involutive.
    reflexivity.
  - intros [a ->]. exists (rev a). apply rev_app_distr.
Qed.

Lemma collapseSlashes_before_word (a w t : jsstring) :
  w <> [] ->
  Forall (fun c => c <> slash) w ->
  collapseSlashes (a ++ w ++ t) = collapseSlashes a ++ w ++ collapseSlashes t.
Proof.
  intros Hne Hw. destruct w as [|c w]; [congruence |].
  pose proof Hw as Hw'. apply Forall_cons in Hw' as [Hc _].
  cbn [app]. rewrite (NormalizeFacts.collapseSlashes_app_nonslash a c _ Hc).
  change (c :: w ++ t) with ((c :: w) ++ t).
  rewrite (NormalizeFacts.collapseSlashes_word (c :: w) t Hw). reflexivity.
Qed.

(** A word without a separator that a path contains, or ends with, is
    in the normalized path as well. *)
Lemma normalizePath_keeps_word (w p : jsstring) :
  Forall (fun c => c <> slash) w ->
  ~ In backslash w ->
  includes p w = true ->
  includes (normalizePath p) w = true.
Proof.
  intros Hw Hb Hin.
  destruct w as [|c w]; [destruct (normalizePath p); reflexivity |].
  apply includes_app in Hin as (a & b & ->).
  apply includes_app.
  unfold normalizePath, replaceBackslashes.
  rewrite !map_app. fold (replaceBackslashes (c :: w)).
  rewrite (NormalizeFacts.replaceBackslashes_fixed _ Hb).
  rewrite collapseSlashes_before_word; [| discriminate | exact Hw].
  eexists _, _. reflexivity.
Qed.

Lemma normalizePath_keeps_ending (w p : jsstring) :
  w <> [] ->
  Forall (fun c => c <> slash) w ->
  ~ In backslash w ->
  endsWith p w = true ->
  endsWith (normalizePath p) w = true.
Proof.
  intros Hne Hw Hb Hin.
  apply endsWith_app in Hin as (a & ->).
  apply endsWith_app.
  unfold normalizePath, replaceBackslashes.
  rewrite map_app. fold (replaceBackslashes w).
  rewrite (NormalizeFacts.replaceBackslashes_fixed _ Hb).
  pose proof (collapseSlashes_before_word
                (List.map (fun c => if (c =? backslash)%N then slash else c) a)
                w [] Hne Hw) as E.
  rewrite !List.app_nil_r in E. rewrite E. eexists. reflexivity.
Qed.

(** Each of the thirteen patterns that matches a path matches the
    normalized path. *)
Lemma ignoreMatches_normalizePath (path : jsstring) :
  Forall (fun pattern =>
            ignoreMatches path pattern = true ->
            ignoreMatches (normalizePath path) pattern = true)
    ignorePaths.
Proof.
  unfold ignorePaths.
  repeat match goal with
  | |- Forall _ [] => constructor
  | |- Forall _ (lit "*.pyc" :: _) =>
      constructor;
      [ change (ignoreMatches path (lit "*.pyc"))
          with (endsWith path (lit ".pyc"));
        change (ignoreMatches (normalizePath path) (lit "*.pyc"))
          with (endsWith (normalizePath path) (lit ".pyc"));
        apply normalizePath_keeps_ending; (vm_compute; first [ discriminate | repeat constructor; discriminate | intuition discriminate ]) |]
  | |- Forall _ (lit ?s :: _) =>
      constructor;
      [ change (ignoreMatches path (lit s)) with (includes path (lit s));
        change (ignoreMatches (normalizePath path) (lit s))
          with (includes (normalizePath path) (lit s)) |]
  end.
  all: try (apply normalizePath_keeps_word; (vm_compute; first [ discriminate | repeat constructor; discriminate | intuition discriminate ])).
  all: match goal with
       | |- includes _ (lit ?s) = true -> _ =>
           let w := eval vm_compute in (removelast (lit s)) in
           change (lit s) with (w ++ [slash]);
           apply NormalizeFacts.normalizePath_keeps_directory; (vm_compute; first [ discriminate | repeat constructor; discriminate | intuition discriminate ])
       end.
Qed.

End IgnoreFacts.

(** X11. [shouldIgnoreFile] and [normalizePath]: a path that the default
    patterns ignore is still ignored once it is normalized.  The other
    way round fails: a path with backslashes can be ignored only after
    the normalization. *)
Theorem shouldIgnoreFile_normalizePath :
  forall path : jsstring,
    DefaultFileUtils.shouldIgnoreFile path = true ->
    DefaultFileUtils.shouldIgnoreFile (DefaultFileUtils.normalizePath path) = true.
Proof.
  intros path. unfold DefaultFileUtils.shouldIgnoreFile.
  rewrite !existsb_exists. intros (pattern & Hin & Hm).
  exists pattern. split; [exact Hin |].
  pose proof (IgnoreFacts.ignoreMatches_normalizePath path) as HF.
  rewrite Forall_forall in HF. apply HF; [| exact Hm].
  apply list_elem_of_In. exact Hin.
Qed.

Lemma shouldIgnoreFile_normalizePath_witness :
  DefaultFileUtils.shouldIgnoreFile (lit "app//dist/main.pyc") = true
  /\ DefaultFileUtils.shouldIgnoreFile
       (DefaultFileUtils.normalizePath (lit "app//dist/main.pyc")) = true.
Proof.
  split; [reflexivity |].
  apply (shouldIgnoreFile_normalizePath (lit "app//dist/main.pyc")).
  reflexivity.
Defined.

(** A path with backslashes is ignored after the normalization only. *)
Example shouldIgnoreFile_backslashes :
  DefaultFileUtils.shouldIgnoreFile (lit "node_modules" ++ [backslash] ++ lit "x.js") = false
  /\ DefaultFileUtils.shouldIgnoreFile
       (DefaultFileUtils.normalizePath
          (lit "node_modules" ++ [backslash] ++ lit "x.js")) = true.
Proof. split; reflexivity. Qed.

(* ===================================================================== *)
(** * The score and the type of a file *)
(* ===================================================================== *)

Module TypeFacts.
Import DefaultFileUtils.

(** Only the names of the package list get the type package. *)
Lemma getFileType_package_inv path content :
  getFileType path content = package ->
  arrayIncludes packageFilePatterns (fileNameOf path) = true.
Proof.
  unfold getFileType.
  destruct (arrayIncludes packageFilePatterns (fileNameOf path));
    [reflexivity |].
  repeat match goal with
         | |- context [if ?b then _ else _] => destruct b
         end; discriminate.
Qed.

Lemma bonus_nonneg (b : bool) (n : Z) (why : jsstring) (t : Tally) :
  0 <= n -> 0 <= fst t -> 0 <= fst (bonus b n why t).
Proof. destruct b; cbn [bonus fst]; lia. Qed.

Lemma tallyOf_source b1 b2 b3 b4 b5 :
  30 <= fst (tallyOf b1 b2 b3 b4 b5 source)
  /\ In (lit "Source code file") (snd (tallyOf b1 b2 b3 b4 b5 source)).
Proof.
  unfold tallyOf. cbn [FileType_eqb testPenalty].
  assert (Ht : 0 <= fst (bonus b5 50 (lit "API schema definition")
          (bonus b4 70 (lit "Infrastructure configuration")
             (bonus b3 60 (lit "Configuration file")
                (bonus b2 80 (lit "Application entry point")
                   (bonus b1 100 (lit "Package/dependency file") (0, [])))))))
    by (repeat (apply bonus_nonneg; [lia |]); cbn [fst]; lia).
  revert Ht.
  generalize (bonus b5 50 (lit "API schema definition")
          (bonus b4 70 (lit "Infrastructure configuration")
             (bonus b3 60 (lit "Configuration file")
                (bonus b2 80 (lit "Application entry point")
                   (bonus b1 100 (lit "Package/dependency file") (0, [])))))).
  intros t Ht. cbn [bonus fst snd]. split; [lia |].
  apply in_or_app. right. left. reflexivity.
Qed.

Lemma tallyOf_test b1 b2 b3 b4 b5 :
  10 <= fst (tallyOf b1 b2 b3 b4 b5 test)
  /\ List.last (snd (tallyOf b1 b2 b3 b4 b5 test)) []
     = lit "Test file (lower priority)".
Proof.
  unfold tallyOf. cbn [FileType_eqb testPenalty fst snd].
  split; [lia |]. apply last_last.
Qed.

(** A score of 0 and an empty list of reasons go together. *)
Lemma bonus_empty (b : bool) (n : Z) (why : jsstring) (t : Tally) :
  0 < n ->
  0 <= fst t /\ (fst t = 0 <-> snd t = []) ->
  0 <= fst (bonus b n why t)
  /\ (fst (bonus b n why t) = 0 <-> snd (bonus b n why t) = []).
Proof.
  intros Hn [Hpos Hiff]. destruct b; cbn [bonus fst snd]; [| tauto].
  split; [lia |]. split; [lia |].
  intros E. apply app_eq_nil in E as [_ E]. discriminate.
Qed.

Lemma tallyOf_empty b1 b2 b3 b4 b5 t :
  fst (tallyOf b1 b2 b3 b4 b5 t) = 0 <-> snd (tallyOf b1 b2 b3 b4 b5 t) = [].
Proof.
  unfold tallyOf.
  assert (H : forall u : Tally,
             0 <= fst u /\ (fst u = 0 <-> snd u = []) ->
             forall c why,
               fst (testPenalty c why u) = 0 <-> snd (testPenalty c why u) = []).
  { intros u [Hpos Hiff] c why. destruct c; cbn [testPenalty fst snd]; [| tauto].
    split; [lia |]. intros E. apply app_eq_nil in E as [_ E]. discriminate. }
  apply H.
  repeat (apply bonus_empty; [lia |]).
  cbn [fst snd]. split; [lia | tauto].
Qed.

Lemma tally_tallyOf (path : jsstring) :
  tally path
  = tallyOf (arrayIncludes packageFilePatterns (fileNameOf path))
      (arrayIncludes entryPointPatterns (fileNameOf path))
      (isConfigPattern (fileNameOf path))
      (includes (fileNameOf path) (lit "Dockerfile")
       || includes (fileNameOf path) (lit "docker-compose")
       || includes (fileNameOf path) (lit ".github")
       || includes (fileNameOf path) (lit ".gitlab-ci"))
      (includes (fileNameOf path) (lit "schema")
       || includes (fileNameOf path) (lit "openapi")
       || includes (fileNameOf path) (lit "swagger"))
      (getFileType path None).
Proof. reflexivity. Qed.

End TypeFacts.

(** X12. The score of [calculateImportanceScore] against the type of
    [getFileType], for every path: a package file scores 100 for the one
    reason of being a package file; a source file scores 30 or more and
    carries the reason of being source code; a test file scores 10 or
    more and its last reason is the one of test files; and the score is
    0 exactly when there is no reason at all. *)
Theorem score_follows_file_type :
  forall (path : jsstring) (content : option jsstring),
    let r := DefaultFileUtils.calculateImportanceScore path content in
    let t := DefaultFileUtils.getFileType path content in
    (t = package ->
     score r = 100 /\ category r = critical
     /\ reasons r = [lit "Package/dependency file"])
    /\ (t = source ->
        30 <= score r /\ category r <> ignore
        /\ In (lit "Source code file") (reasons r))
    /\ (t = test ->
        10 <= score r
        /\ List.last (reasons r) [] = lit "Test file (lower priority)")
    /\ (score r = 0 <-> reasons r = []).
Proof.
  intros path content r t. subst r t.
  change (DefaultFileUtils.getFileType path content)
    with (DefaultFileUtils.getFileType path None).
  unfold DefaultFileUtils.calculateImportanceScore.
  cbn [score reasons category].
  split; [| split; [| split]].
  - intros Ht. pose proof (TypeFacts.getFileType_package_inv _ _ Ht) as Epkg.
    destruct (ScorerFacts.package_excludes _ Epkg) as (E2 & E3 & E4 & E5).
    rewrite TypeFacts.tally_tallyOf, Epkg, E2, E3, E4, E5, Ht.
    repeat split.
  - intros Ht. rewrite TypeFacts.tally_tallyOf, Ht.
    match goal with
    | |- context [tallyOf ?b1 ?b2 ?b3 ?b4 ?b5 source] =>
        destruct (TypeFacts.tallyOf_source b1 b2 b3 b4 b5) as [Hs Hr];
        generalize dependent (tallyOf b1 b2 b3 b4 b5 source)
    end.
    intros u Hs Hr. repeat split; [exact Hs | | exact Hr].
    unfold DefaultFileUtils.categoryOfScore.
    destruct (Z.geb_spec (fst u) 80); [discriminate |].
    destruct (Z.geb_spec (fst u) 50); [discriminate |].
    destruct (Z.geb_spec (fst u) 20); [discriminate | lia].
  - intros Ht. rewrite TypeFacts.tally_tallyOf, Ht.
    apply TypeFacts.tallyOf_test.
  - rewrite TypeFacts.tally_tallyOf. apply TypeFacts.tallyOf_empty.
Qed.

(** Scores by type: a package file, an entry point, a test, a text. *)
Example score_follows_file_type_samples :
  List.map (fun p => (DefaultFileUtils.getFileType p None,
                      score (DefaultFileUtils.calculateImportanceScore p None)))
    [lit "api/Cargo.toml"; lit "src/main.go"; lit "src/__tests__/a.ts";
     lit "notes.txt"]
  = [(package, 100); (source, 110); (test, 10); (documentation, 0)].
Proof. vm_compute. reflexivity. Qed.

(* ===================================================================== *)
(** * The classifier: the clamp, the bands and the content analysis *)
(* ===================================================================== *)

Module ClampFacts.
Import FilePriorityClassifier.

(** The bands of the classifier are read off the score before the
    clamp; the clamp keeps a score on its side of every limit. *)
Lemma categoryOfScore_clamped (s : Z) :
  let c := Z.max 0 (Z.min 200 s) in
  0 <= c <= 200
  /\ (categoryOfScore s = critical <-> 100 <= c)
  /\ (categoryOfScore s = important <-> 60 <= c < 100)
  /\ (categoryOfScore s = normal <-> 20 <= c < 60)
  /\ (categoryOfScore s = ignore <-> c < 20).
Proof.
  cbv zeta. unfold categoryOfScore.
  destruct (Z.geb_spec s 100); [repeat split; intros; try lia; congruence |].
  destruct (Z.geb_spec s 60); [repeat split; intros; try lia; congruence |].
  destruct (Z.geb_spec s 20); repeat split; intros; try lia; congruence.
Qed.

Lemma clamp_shift (s d : Z) :
  0 <= d <= 25 ->
  Z.max 0 (Z.min 200 s) <= Z.max 0 (Z.min 200 (s + d))
  <= Z.max 0 (Z.min 200 s) + 25.
Proof. lia. Qed.

(** The adjustments of the score do not read the switch of the content
    analysis. *)
Lemma adjustments_without_switch `{H : Host} (enabled : bool)
    (options : PriorityClassifierOptions) (c : FileCharacteristics)
    (path : jsstring) (content : option jsstring) :
  getProjectTypeAdjustment (withContentAnalysis enabled options) c
  = getProjectTypeAdjustment options c
  /\ getLanguageFrameworkAdjustment (withContentAnalysis enabled options)
       path content
     = getLanguageFrameworkAdjustment options path content
  /\ applyCustomScoringRules (withContentAnalysis enabled options) path content
     = applyCustomScoringRules options path content.
Proof. repeat split. Qed.

End ClampFacts.

(** X13. [FilePriorityClassifier.classifyFile], for every runtime, every
    option set with its custom rules, and every path, content and
    declared type: the score of the result lies between 0 and 200, and
    the category of the result is critical exactly from 100 up,
    important from 60 to 99, normal from 20 to 59 and ignore below 20, on
    the score that is returned although the category is taken before the
    clamp. *)
Theorem classifyFile_score_and_category :
  forall (H : Host) (options : FilePriorityClassifier.PriorityClassifierOptions)
         (path : jsstring) (content : option jsstring) (type : option FileType),
    let r := FilePriorityClassifier.importance
               (FilePriorityClassifier.classifyFile options path content type) in
    0 <= score r <= 200
    /\ (category r = critical <-> 100 <= score r)
    /\ (category r = important <-> 60 <= score r < 100)
    /\ (category r = normal <-> 20 <= score r < 60)
    /\ (category r = ignore <-> score r < 20).
Proof.
  intros H options path content type r. subst r.
  unfold FilePriorityClassifier.classifyFile,
    FilePriorityClassifier.determineCategory.
  cbv beta iota zeta.
  cbn [FilePriorityClassifier.importance score category].
  apply ClampFacts.categoryOfScore_clamped.
Qed.

(** A rule that takes 500 off leaves a score of 0 in the category
    ignore. *)
Example classifyFile_clamped_at_0 :
  let rule := {| FilePriorityClassifier.pattern :=
                   FilePriorityClassifier.RuleString (lit "package");
                 FilePriorityClassifier.scoreAdjustment := -500;
                 FilePriorityClassifier.reason := lit "vendored";
                 FilePriorityClassifier.ruleCategory := None |} in
  let r := FilePriorityClassifier.importance
             (@FilePriorityClassifier.classifyFile Sample.host
                {| FilePriorityClassifier.customScoringRules := [rule];
                   FilePriorityClassifier.projectType := FilePriorityClassifier.web_app;
                   FilePriorityClassifier.primaryLanguage := lit "javascript";
                   FilePriorityClassifier.framework := [];
                   FilePriorityClassifier.enableContentAnalysis := true |}
                (lit "package.json") (Some Sample.packageJsonContent) None) in
  score r = 0 /\ category r = ignore.
Proof. vm_compute. split; reflexivity. Qed.

(** X14. Content analysis in [classifyFile]: with the same runtime,
    rules, project, path, content and declared type, switching
    [enableContentAnalysis] on changes neither the characteristics, nor
    the reasons, nor the recommendations, and raises the score by 0 to
    25; with no content, or the empty content, the switch changes
    nothing at all. *)
Theorem enableContentAnalysis_effect :
  forall (H : Host) (options : FilePriorityClassifier.PriorityClassifierOptions)
         (path : jsstring) (content : option jsstring) (type : option FileType),
    let off := FilePriorityClassifier.classifyFile
                 (withContentAnalysis false options) path content type in
    let on := FilePriorityClassifier.classifyFile
                (withContentAnalysis true options) path content type in
    FilePriorityClassifier.characteristics on
    = FilePriorityClassifier.characteristics off
    /\ reasons (FilePriorityClassifier.importance on)
       = reasons (FilePriorityClassifier.importance off)
    /\ FilePriorityClassifier.recommendations on
       = FilePriorityClassifier.recommendations off
    /\ score (FilePriorityClassifier.importance off)
       <= score (FilePriorityClassifier.importance on)
       <= score (FilePriorityClassifier.importance off) + 25
    /\ (truthy content = false -> on = off).
Proof.
  intros H options path content type off on. subst off on.
  unfold FilePriorityClassifier.classifyFile,
    FilePriorityClassifier.determineCategory.
  cbv beta iota zeta.
  cbn [FilePriorityClassifier.importance FilePriorityClassifier.characteristics
       FilePriorityClassifier.recommendations score reasons category
       withContentAnalysis FilePriorityClassifier.enableContentAnalysis andb].
  split; [reflexivity |]. split; [reflexivity |]. split; [reflexivity |].
  split.
  - destruct (ClampFacts.adjustments_without_switch true options
                (FilePriorityClassifier.analyzeFileCharacteristics path content type)
                path content) as (-> & -> & ->).
    destruct (ClampFacts.adjustments_without_switch false options
                (FilePriorityClassifier.analyzeFileCharacteristics path content type)
                path content) as (-> & -> & ->).
    destruct (truthy content).
    + apply ClampFacts.clamp_shift.
      apply ClassifierFacts.analyzeContentComplexity_bounds.
    + lia.
  - intros ->. reflexivity.
Qed.

(** Six hundred and one lines of content add 15 to a plain text. *)
Example enableContentAnalysis_long_file :
  let content := Some (List.repeat newline 600) in
  score (FilePriorityClassifier.importance
           (@FilePriorityClassifier.classifyFile Sample.host
              (withContentAnalysis false FilePriorityClassifier.defaultOptions)
              (lit "notes.txt") content None)) = 10
  /\ score (FilePriorityClassifier.importance
              (@FilePriorityClassifier.classifyFile Sample.host
                 (withContentAnalysis true FilePriorityClassifier.defaultOptions)
                 (lit "notes.txt") content None)) = 25.
Proof. vm_compute. split; reflexivity. Qed.

(* ===================================================================== *)
(** * The cache manager: invalidation, expiry and the counters *)
(* ===================================================================== *)

Module CacheFacts.
Import InMemoryCacheManager.

Section Facts.
Context {AST AnalysisResult : Type}.
Local Abbreviation State := (InMemoryCacheManager.State AST AnalysisResult).

(** The entries that are left after the deletion of some keys. *)
Lemma lookup_deleted_in {V : Type} (changed : list jsstring)
    (m : gmap jsstring V) (k : jsstring) :
  In k changed ->
  fold_left (fun m filePath => delete filePath m) changed m !! k = None.
Proof.
  revert m; induction changed as [|p changed IH]; intros m Hin;
    [destruct Hin |].
  cbn [fold_left].
  assert (Hgone : forall (l : list jsstring) (m' : gmap jsstring V),
             m' !! k = None ->
             fold_left (fun m filePath => delete filePath m) l m' !! k = None).
  { clear. induction l as [|q l IHl]; intros m' Hm'; [exact Hm' |].
    cbn [fold_left]. apply IHl.
    destruct (decide (q = k)) as [-> | Hne];
      [apply lookup_delete_eq | rewrite lookup_delete_ne by exact Hne; exact Hm']. }
  destruct (decide (p = k)) as [-> | Hne].
  - apply Hgone. apply lookup_delete_eq.
  - destruct Hin as [E | Hin]; [congruence |]. apply IH. exact Hin.
Qed.

Lemma lookup_deleted_out {V : Type} (changed : list jsstring)
    (m : gmap jsstring V) (k : jsstring) :
  ~ In k changed ->
  fold_left (fun m filePath => delete filePath m) changed m !! k = m !! k.
Proof.
  revert m; induction changed as [|p changed IH]; intros m Hout;
    [reflexivity |].
  cbn [fold_left]. rewrite IH.
  - apply lookup_delete_ne. intros ->. apply Hout. left. reflexivity.
  - intros Hin. apply Hout. right. exact Hin.
Qed.

Lemma run_counters (st : State) (op : CacheTrace.Op AST AnalysisResult) :
  0 <= totalHits st <= totalRequests st ->
  0 <= totalHits (CacheTrace.run st op) <= totalRequests (CacheTrace.run st op)
  /\ (totalRequests (CacheTrace.run st op) <= totalRequests st + 1).
Proof.
  intros Hst. destruct op as [p t | now p a t | now h | now h r | changed |];
    cbn [CacheTrace.run].
  - unfold getCachedAST. destruct (astCache st !! p) as [cached|];
      [destruct (timeStrictEq _ _) |]; cbn [fst totalHits totalRequests]; lia.
  - cbn [setCachedAST totalHits totalRequests]. lia.
  - unfold getCachedAnalysis. destruct (analysisCache st !! h) as [cached|];
      [destruct (_ <? _) |]; cbn [fst totalHits totalRequests]; lia.
  - cbn [setCachedAnalysis totalHits totalRequests]. lia.
  - cbn [invalidateCache totalHits totalRequests]. lia.
  - cbn [clearCache empty totalHits totalRequests]. lia.
Qed.

Lemma fold_counters (ops : list (CacheTrace.Op AST AnalysisResult)) (st : State) :
  0 <= totalHits st <= totalRequests st ->
  0 <= totalHits (fold_left CacheTrace.run ops st)
    <= totalRequests (fold_left CacheTrace.run ops st)
  /\ totalRequests (fold_left CacheTrace.run ops st)
     <= totalRequests st + Z.of_nat (length ops).
Proof.
  revert st; induction ops as [|op ops IH]; intros st Hst; cbn [fold_left length].
  - lia.
  - destruct (run_counters st op Hst) as [H1 H2].
    destruct (IH _ H1) as [H3 H4]. split; [exact H3 | lia].
Qed.

End Facts.
End CacheFacts.

(** X15. [invalidateCache]: after it, a changed file is no longer in the
    AST cache, whatever date is asked for; a file that is not in the
    list gets the answer it got before; when the list is not empty every
    analysis result is gone; with the empty list the caches are as they
    were; and the two counters are not touched. *)
Theorem invalidateCache_effect :
  forall (AST AnalysisResult : Type)
         (st : InMemoryCacheManager.State AST AnalysisResult)
         (changedFiles : list jsstring),
    let st' := InMemoryCacheManager.invalidateCache st changedFiles in
    (forall filePath lastModified,
        In filePath changedFiles ->
        snd (InMemoryCacheManager.getCachedAST st' filePath lastModified) = None)
    /\ (forall filePath lastModified,
           ~ In filePath changedFiles ->
           snd (InMemoryCacheManager.getCachedAST st' filePath lastModified)
           = snd (InMemoryCacheManager.getCachedAST st filePath lastModified))
    /\ (changedFiles <> [] ->
        forall now codebaseHash,
          snd (InMemoryCacheManager.getCachedAnalysis st' now codebaseHash) = None)
    /\ (changedFiles = [] ->
        InMemoryCacheManager.astCache st' = InMemoryCacheManager.astCache st
        /\ InMemoryCacheManager.analysisCache st'
           = InMemoryCacheManager.analysisCache st)
    /\ InMemoryCacheManager.totalRequests st' = InMemoryCacheManager.totalRequests st
    /\ InMemoryCacheManager.totalHits st' = InMemoryCacheManager.totalHits st.
Proof.
  intros AST AnalysisResult st changedFiles st'. subst st'.
  split; [| split; [| split; [| split; [| split; reflexivity]]]].
  - intros p t Hin. unfold InMemoryCacheManager.getCachedAST.
    cbn [InMemoryCacheManager.invalidateCache InMemoryCacheManager.astCache].
    rewrite (CacheFacts.lookup_deleted_in _ _ _ Hin). reflexivity.
  - intros p t Hout. unfold InMemoryCacheManager.getCachedAST.
    cbn [InMemoryCacheManager.invalidateCache InMemoryCacheManager.astCache].
    rewrite (CacheFacts.lookup_deleted_out _ _ _ Hout).
    destruct (InMemoryCacheManager.astCache st !! p) as [cached|];
      [destruct (timeStrictEq _ _) |]; reflexivity.
  - intros Hne now h. destruct changedFiles as [|p ps]; [congruence |].
    unfold InMemoryCacheManager.getCachedAnalysis.
    cbn [InMemoryCacheManager.invalidateCache InMemoryCacheManager.analysisCache].
    rewrite lookup_empty. reflexivity.
  - intros ->. split; reflexivity.
Qed.

(** X16. The analysis cache keeps a result for one hour.  After
    [setCachedAnalysis] at the time [stored], [getCachedAnalysis] at the
    time [now] returns the result and counts a hit when
    [now - stored < 3600000]; otherwise it returns [null], counts no
    hit and deletes the entry, so that no later call finds it, whatever
    its time.  Either way it counts one request. *)
Theorem getCachedAnalysis_expiry :
  forall (AST AnalysisResult : Type)
         (st : InMemoryCacheManager.State AST AnalysisResult)
         (stored now : Z) (codebaseHash : jsstring) (r : AnalysisResult),
    let st1 := InMemoryCacheManager.setCachedAnalysis st stored codebaseHash r in
    let answer := InMemoryCacheManager.getCachedAnalysis st1 now codebaseHash in
    InMemoryCacheManager.totalRequests (fst answer)
    = InMemoryCacheManager.totalRequests st + 1
    /\ (now - stored < 3600000 ->
        snd answer = Some r
        /\ InMemoryCacheManager.totalHits (fst answer)
           = InMemoryCacheManager.totalHits st + 1)
    /\ (3600000 <= now - stored ->
        snd answer = None
        /\ InMemoryCacheManager.totalHits (fst answer)
           = InMemoryCacheManager.totalHits st
        /\ forall later,
             snd (InMemoryCacheManager.getCachedAnalysis (fst answer) later
                    codebaseHash) = None).
Proof.
  intros AST AnalysisResult st stored now codebaseHash r st1 answer.
  assert (E : answer
              = if now - stored <? 3600000
                then ({| InMemoryCacheManager.astCache :=
                           InMemoryCacheManager.astCache st;
                         InMemoryCacheManager.analysisCache :=
                           InMemoryCacheManager.analysisCache st1;
                         InMemoryCacheManager.totalRequests :=
                           InMemoryCacheManager.totalRequests st + 1;
                         InMemoryCacheManager.totalHits :=
                           InMemoryCacheManager.totalHits st + 1 |}, Some r)
                else ({| InMemoryCacheManager.astCache :=
                           InMemoryCacheManager.astCache st;
                         InMemoryCacheManager.analysisCache :=
                           delete codebaseHash
                             (InMemoryCacheManager.analysisCache st1);
                         InMemoryCacheManager.totalRequests :=
                           InMemoryCacheManager.totalRequests st + 1;
                         InMemoryCacheManager.totalHits :=
                           InMemoryCacheManager.totalHits st |}, None)).
  { subst answer st1. unfold InMemoryCacheManager.getCachedAnalysis.
    cbn [InMemoryCacheManager.setCachedAnalysis
         InMemoryCacheManager.analysisCache].
    rewrite lookup_insert_eq. reflexivity. }
  rewrite E. clear E answer.
  destruct (Z.ltb_spec (now - stored) 3600000) as [Hlt | Hge].
  - split; [reflexivity |]. split; [intros _; split; reflexivity | lia].
  - split; [reflexivity |]. split; [lia |]. intros _.
    split; [reflexivity |]. split; [reflexivity |]. intros later.
    unfold InMemoryCacheManager.getCachedAnalysis.
    cbn [fst InMemoryCacheManager.analysisCache].
    rewrite lookup_delete_eq. reflexivity.
Qed.

(** X17. The counters of the manager: after any sequence of calls on a
    new manager, [totalHits] is between 0 and [totalRequests], and
    [totalRequests] is at most the number of calls. *)
Theorem cache_counters :
  forall (AST AnalysisResult : Type)
         (ops : list (CacheTrace.Op AST AnalysisResult)),
    let st := CacheTrace.runAll ops in
    0 <= InMemoryCacheManager.totalHits st
      <= InMemoryCacheManager.totalRequests st
    /\ InMemoryCacheManager.totalRequests st <= Z.of_nat (length ops).
Proof.
  intros AST AnalysisResult ops st. subst st. unfold CacheTrace.runAll.
  destruct (CacheFacts.fold_counters ops InMemoryCacheManager.empty) as [H1 H2].
  - cbn. lia.
  - cbn [InMemoryCacheManager.empty InMemoryCacheManager.totalRequests] in H2.
    split; [exact H1 | lia].
Qed.

(** Two lookups, one of them a hit, then an expired analysis. *)
Example cache_counters_sample :
  let t := {| getTime := Millis 5 |} in
  let st := CacheTrace.runAll (AST := Z) (AnalysisResult := Z)
              [ CacheTrace.GetCachedAST (lit "a.ts") t;
                CacheTrace.SetCachedAST 10 (lit "a.ts") 7 t;
                CacheTrace.GetCachedAST (lit "a.ts") t;
                CacheTrace.SetCachedAnalysis 20 (lit "h") 9;
                CacheTrace.GetCachedAnalysis 3600020 (lit "h") ] in
  InMemoryCacheManager.totalRequests st = 3
  /\ InMemoryCacheManager.totalHits st = 1
  /\ InMemoryCacheManager.analysisCache st !! lit "h" = None.
Proof. vm_compute. repeat split. Qed.

(* ===================================================================== *)
(** * Validation of a codebase input *)
(* ===================================================================== *)

Module ValidationFacts.
Import Validation.



(** Only a [null] among the files stops the validation. *)
Lemma validateFiles_throws (items : list Value) :
  forall (index : nat) (acc : list ValidationError * list ValidationWarning),
    validateFiles items index acc = None <-> In VNull items.
Proof.
  induction items as [|v items IH]; intros index acc; cbn [validateFiles In].
  - split; [discriminate | tauto].
  - destruct (validateFile v index acc) as [acc'|] eqn:Ev.
    + rewrite IH. split; [tauto |]. intros [E | Hin]; [| exact Hin].
      subst v. cbn in Ev. discriminate.
    + split; [| reflexivity]. intros _. left.
      destruct v; try reflexivity; destruct acc; cbn in Ev; discriminate.
Qed.

End ValidationFacts.


(** The sample codebase is valid; with a file of negative size the
    input is valid too, with a warning, and the indexer drops the file. *)
Example validateCodebaseInput_samples :
  (exists r, Validation.validateCodebaseInput
               (Some (Validation.ofInput Sample.mockCodebaseInput))
             = Validation.Returns r
             /\ Validation.isValid r = true /\ Validation.warnings r = [])
  /\ (exists r, Validation.validateCodebaseInput
                  (Some (Validation.ofInput Sample2.negativeSize))
                = Validation.Returns r
                /\ Validation.isValid r = true
                /\ List.map Validation.warningField (Validation.warnings r)
                   = [Some (lit "files[1].size")])
  /\ List.map FileEntry.path
       (FileIndexer.filterFiles (files Sample2.negativeSize))
     = [lit "valid.js"].
Proof.
  split; [eexists; vm_compute; repeat split |].
  split; [eexists; vm_compute; repeat split |].
  reflexivity.
Qed.

(** X19. [validateCodebaseInput] throws, a [TypeError], exactly when the
    input is truthy, its [files] are an array, and one of the files is
    [null], whose [path] it reads; everything else gets a result. *)
Theorem validateCodebaseInput_throws :
  forall input : option Validation.Value,
    Validation.validateCodebaseInput input = Validation.ThrowsTypeError
    <-> exists v items,
          input = Some v
          /\ Validation.truthyValue input = true
          /\ Validation.get v (lit "files") = Some (Validation.VArr items)
          /\ In Validation.VNull items.
Proof.
  intros [v|]; cbn [Validation.validateCodebaseInput].
  - destruct (Validation.truthyValue (Some v)) eqn:Et; cbn [negb].
    + destruct (Validation.get v (lit "files")) as [[| | | |items|]|] eqn:Ef;
        try (split; [discriminate
                    | intros (v' & items' & [= <-] & _ & Hg & _); congruence]).
      match goal with
      | |- context [Validation.validateFiles items 0 ?acc] =>
          pose proof (ValidationFacts.validateFiles_throws items 0 acc) as Hthrow;
          destruct (Validation.validateFiles items 0 acc) as [[e w]|]
      end.
      * split; [discriminate |].
        intros (v' & items' & [= <-] & _ & Hg & Hin).
        rewrite Ef in Hg. injection Hg as <-.
        apply Hthrow in Hin. discriminate.
      * split; [| reflexivity]. intros _. exists v, items.
        split; [reflexivity |]. split; [reflexivity |]. split; [exact Ef |].
        apply Hthrow. reflexivity.
    + split; [discriminate |].
      intros (v' & items' & [= <-] & Ht & _). congruence.
  - split; [discriminate | intros (v' & items' & [=] & _)].
Qed.

(** An input whose second file is [null]. *)
Example validateCodebaseInput_null_file :
  Validation.validateCodebaseInput (Some Sample2.nullFile)
  = Validation.ThrowsTypeError.
Proof. reflexivity. Qed.

(* ===================================================================== *)
(** * The file name of a path *)
(* ===================================================================== *)

Module NameFacts.

Lemma split_nonempty (sep : N) (s : jsstring) : split sep s <> [].
Proof.
  destruct s as [|c s]; cbn [split]; [discriminate |].
  destruct (c =? sep)%N; [discriminate |].
  destruct (split sep s); discriminate.
Qed.

(** A text without the separator is one segment. *)
Lemma split_one (sep : N) (s : jsstring) :
  ~ In sep s -> split sep s = [s].
Proof.
  induction s as [|c s IH]; intros Hs; [reflexivity |].
  cbn [split].
  destruct (N.eqb_spec c sep) as [-> | Hc]; [exfalso; apply Hs; left; reflexivity |].
  rewrite IH; [reflexivity |]. intros Hin. apply Hs. right. exact Hin.
Qed.

(** The segments of two texts joined by the separator are the segments
    of the one followed by the segments of the other. *)
Lemma split_app (sep : N) (a b : jsstring) :
  split sep (a ++ sep :: b) = split sep a ++ split sep b.
Proof.
  induction a as [|c a IH]; cbn [app split].
  - rewrite N.eqb_refl. reflexivity.
  - destruct (c =? sep)%N; rewrite IH; [reflexivity |].
    pose proof (split_nonempty sep a) as Hne.
    destruct (split sep a) as [|seg segs]; [congruence | reflexivity].
Qed.

Lemma pop_app {A : Type} (l l' : list A) :
  l' <> [] -> pop (l ++ l') = pop l'.
Proof.
  intros Hne. unfold pop. rewrite List.map_app.
  induction l as [|x l IH]; [reflexivity |].
  cbn [List.map app]. rewrite <- IH.
  destruct (List.map Some l ++ List.map Some l') eqn:E; [| reflexivity].
  apply List.app_eq_nil in E as [_ E].
  destruct l'; [congruence | discriminate].
Qed.

(** Every text is a last segment, alone or after a separator. *)
Lemma last_segment (sep : N) (s : jsstring) :
  exists dir name,
    ~ In sep name /\ (s = name /\ dir = [] \/ s = dir ++ sep :: name).
Proof.
  induction s as [|c s (dir & name & Hname & [[-> ->] | ->])].
  - exists [], []. split; [intros [] | left; split; reflexivity].
  - destruct (N.eqb_spec c sep) as [-> | Hc].
    + exists [], name. split; [exact Hname | right; reflexivity].
    + exists [], (c :: name). split; [| left; split; reflexivity].
      intros [E | Hin]; [congruence | contradiction].
  - exists (c :: dir), name. split; [exact Hname | right; reflexivity].
Qed.

Lemma fileNameOf_after_slash (dir name : jsstring) :
  ~ In slash name ->
  DefaultFileUtils.fileNameOf (dir ++ slash :: name) = name.
Proof.
  intros Hname. unfold DefaultFileUtils.fileNameOf.
  rewrite split_app, pop_app by apply split_nonempty.
  rewrite (split_one slash name Hname). reflexivity.
Qed.

Lemma fileNameOf_plain (name : jsstring) :
  ~ In slash name -> DefaultFileUtils.fileNameOf name = name.
Proof.
  intros Hname. unfold DefaultFileUtils.fileNameOf.
  rewrite (split_one slash name Hname). reflexivity.
Qed.

End NameFacts.

(** X20. The file name that the scorers work on,
    [path.split('/').pop() || ''], is the text after the last slash: it
    holds no slash, and the path is the file name alone or a directory
    part that ends with a slash followed by the file name. *)
Theorem fileNameOf_last_segment :
  forall path : jsstring,
    ~ In slash (DefaultFileUtils.fileNameOf path)
    /\ exists dir,
         path = dir ++ DefaultFileUtils.fileNameOf path
         /\ (dir = [] \/ exists d, dir = d ++ [slash]).
Proof.
  intros path.
  destruct (NameFacts.last_segment slash path)
    as (dir & name & Hname & [[-> ->] | ->]).
  - rewrite (NameFacts.fileNameOf_plain name Hname).
    split; [exact Hname |]. exists []. split; [reflexivity | left; reflexivity].
  - rewrite (NameFacts.fileNameOf_after_slash dir name Hname).
    split; [exact Hname |]. exists (dir ++ [slash]).
    split; [rewrite <- List.app_assoc; reflexivity |].
    right. exists dir. reflexivity.
Qed.

(** X21. A package file in any directory: for each of the eight names
    of [packageFilePatterns] and every directory part, [getFileType]
    answers package and [calculateImportanceScore] answers the score
    100 in the category critical, as they do for the bare name. *)
Theorem package_file_in_any_directory :
  forall (dir name : jsstring) (content : option jsstring),
    In name DefaultFileUtils.packageFilePatterns ->
    let path := dir ++ slash :: name in
    DefaultFileUtils.fileNameOf path = name
    /\ DefaultFileUtils.getFileType path content = package
    /\ score (DefaultFileUtils.calculateImportanceScore path content) = 100
    /\ category (DefaultFileUtils.calculateImportanceScore path content) = critical
    /\ DefaultFileUtils.getFileType name content = package.
Proof.
  intros dir name content Hin path.
  assert (Hname : ~ In slash name).
  { revert Hin. unfold DefaultFileUtils.packageFilePatterns.
    cbn [In]. intros Hin.
    repeat (destruct Hin as [<- | Hin];
            [vm_compute; intuition discriminate |]).
    destruct Hin. }
  assert (Hpkg : arrayIncludes DefaultFileUtils.packageFilePatterns name = true)
    by (apply arrayIncludes_In; exact Hin).
  assert (Hfile : DefaultFileUtils.fileNameOf path = name)
    by (apply NameFacts.fileNameOf_after_slash; exact Hname).
  assert (Htype : DefaultFileUtils.getFileType path content = package).
  { apply ScorerFacts.getFileType_package. rewrite Hfile. exact Hpkg. }
  split; [exact Hfile |]. split; [exact Htype |].
  assert (Hscore : score (DefaultFileUtils.calculateImportanceScore path content)
                   = 100).
  { cbn [DefaultFileUtils.calculateImportanceScore score].
    unfold DefaultFileUtils.tally. rewrite Hfile, Hpkg.
    destruct (ScorerFacts.package_excludes _ Hpkg) as (-> & -> & -> & ->).
    change (DefaultFileUtils.getFileType path None)
      with (DefaultFileUtils.getFileType path content).
    rewrite Htype. reflexivity. }
  split; [exact Hscore |]. split.
  - cbn [DefaultFileUtils.calculateImportanceScore category score] in *.
    rewrite Hscore. reflexivity.
  - apply ScorerFacts.getFileType_package.
    rewrite (NameFacts.fileNameOf_plain name Hname). exact Hpkg.
Qed.

Lemma package_file_in_any_directory_witness :
  DefaultFileUtils.getFileType (lit "services/api/go.mod") None = package
  /\ score (DefaultFileUtils.calculateImportanceScore
              (lit "services/api/go.mod") None) = 100.
Proof.
  pose proof (package_file_in_any_directory (lit "services/api") (lit "go.mod")
                None) as Hp.
  cbv zeta in Hp.
  destruct Hp as (_ & Ht & Hs & _).
  - vm_compute. tauto.
  - split; [exact Ht | exact Hs].
Defined.

(* ===================================================================== *)
(** * The architectural role and the flags of a file *)
(* ===================================================================== *)

(** X22. The role that [determineArchitecturalRole] gives agrees with
    the flags of [analyzeFileCharacteristics], for every runtime, path,
    content and declared type: the role is infrastructure exactly for
    the files with the infrastructure flag; the roles configuration,
    testing and documentation are given to files with the flag of that
    name only; core business logic is given only to a file declared as
    source that is no test; and a file declared as source never has the
    role unknown. *)
Theorem role_agrees_with_flags :
  forall (H : Host) (path : jsstring) (content : option jsstring)
         (type : option FileType),
    let c := FilePriorityClassifier.analyzeFileCharacteristics path content type in
    let role := FilePriorityClassifier.architecturalRole c in
    (FilePriorityClassifier.isInfrastructure c = true
     <-> role = FilePriorityClassifier.infrastructure)
    /\ (role = FilePriorityClassifier.configuration ->
        FilePriorityClassifier.isConfiguration c = true)
    /\ (role = FilePriorityClassifier.testing ->
        FilePriorityClassifier.isTest c = true)
    /\ (role = FilePriorityClassifier.documentation_role ->
        FilePriorityClassifier.isDocumentation c = true)
    /\ (role = FilePriorityClassifier.core_business_logic ->
        type = Some source /\ FilePriorityClassifier.isTest c = false)
    /\ (role = FilePriorityClassifier.unknown -> type <> Some source).
Proof.
  intros H path content type c role. subst role c.
  cbn [FilePriorityClassifier.analyzeFileCharacteristics
       FilePriorityClassifier.architecturalRole
       FilePriorityClassifier.isInfrastructure
       FilePriorityClassifier.isConfiguration
       FilePriorityClassifier.isTest
       FilePriorityClassifier.isDocumentation].
  unfold FilePriorityClassifier.determineArchitecturalRole.
  set (fileName := DefaultFileUtils.fileNameOf path).
  destruct (FilePriorityClassifier.isInfrastructureP fileName path);
    [repeat split; intros; congruence |].
  destruct (includes fileName (lit "deploy") || includes path (lit "/deploy/"));
    [repeat split; intros; congruence |].
  destruct (includes fileName (lit "build") || includes fileName (lit "webpack")
            || includes fileName (lit "rollup"));
    [repeat split; intros; congruence |].
  destruct (FilePriorityClassifier.isConfigurationP fileName path type);
    [repeat split; intros; congruence |].
  destruct (FilePriorityClassifier.isTestP fileName path);
    [repeat split; intros; congruence |].
  destruct (FilePriorityClassifier.isDocumentationP fileName path type);
    [repeat split; intros; congruence |].
  repeat match goal with
         | |- context [if ?b then _ else _] =>
             destruct b; [repeat split; intros; congruence |]
         end.
  destruct type as [[]|]; cbn [negb]; repeat split; intros; congruence.
Qed.

(** A source file in no special place is core business logic; the same
    path without a declared type has the role unknown. *)
Example role_agrees_with_flags_samples :
  FilePriorityClassifier.architecturalRole
    (@FilePriorityClassifier.analyzeFileCharacteristics Sample.host
       (lit "src/orders.ts") None (Some source))
  = FilePriorityClassifier.core_business_logic
  /\ FilePriorityClassifier.architecturalRole
       (@FilePriorityClassifier.analyzeFileCharacteristics Sample.host
          (lit "src/orders.ts") None None)
     = FilePriorityClassifier.unknown.
Proof. split; reflexivity. Qed.

(* ===================================================================== *)
(** * Custom ignore patterns *)
(* ===================================================================== *)

Module PatternFacts.
Import FileIndexer.

(** When no pattern matches, each of them was tried and did not. *)
Lemma someResult_false (f : jsstring -> Result bool) (patterns : list jsstring) :
  someResult f patterns = Ok false ->
  forall p, In p patterns -> f p = Ok false.
Proof.
  induction patterns as [|q qs IH]; intros Hs p Hin; [destruct Hin |].
  cbn [someResult] in Hs.
  destruct (f q) as [[|]|t] eqn:Eq; try discriminate.
  destruct Hin as [<- | Hin]; [exact Eq | apply IH; assumption].
Qed.

Lemma isIndexed_no_custom_match `{H : Host} (options : FileIndexerOptions)
    (f : FileEntry.t) (p : jsstring) :
  isIndexed options f = true ->
  In p (customIgnorePatterns options) ->
  customPatternMatches (FileEntry.path f) p = Ok false.
Proof.
  unfold isIndexed, shouldIgnoreFile. intros Hix Hin.
  destruct (DefaultFileUtils.shouldIgnoreFile (FileEntry.path f));
    [discriminate |].
  destruct (someResult (customPatternMatches (FileEntry.path f))
              (customIgnorePatterns options)) as [[|]|t] eqn:Es;
    try discriminate.
  exact (someResult_false _ _ Es p Hin).
Qed.

End PatternFacts.

(** X23. The custom ignore patterns of the indexer: no entry of
    [fileIndex] is matched by any of them; for a pattern without a star
    this means that the path of the entry does not contain the pattern.
    So with the empty text among the patterns, which every path
    contains, the index has no entry at all. *)
Theorem custom_patterns_keep_out :
  forall (H : Host) (options : FileIndexer.FileIndexerOptions)
         (input : CodebaseInput) (r : FileIndexer.IndexingResult),
    FileIndexer.indexCodebase options input = Ok r ->
    (forall (e : FileIndexEntry.t) (p : jsstring),
        In e (CodebaseIndex.fileIndex (FileIndexer.index r)) ->
        In p (FileIndexer.customIgnorePatterns options) ->
        FileIndexer.customPatternMatches (FileIndexEntry.path e) p = Ok false
        /\ (includes p [star] = false ->
            includes (FileIndexEntry.path e) p = false))
    /\ (In [] (FileIndexer.customIgnorePatterns options) ->
        CodebaseIndex.fileIndex (FileIndexer.index r) = []).
Proof.
  intros H options input r Hrun.
  assert (Hall : forall (e : FileIndexEntry.t) (p : jsstring),
             In e (CodebaseIndex.fileIndex (FileIndexer.index r)) ->
             In p (FileIndexer.customIgnorePatterns options) ->
             FileIndexer.customPatternMatches (FileIndexEntry.path e) p = Ok false).
  { intros e p He Hp.
    pose proof (RunInvariants.indexCodebase_result options input r Hrun) as Hr.
    cbv zeta in Hr. rewrite Hr in He.
    cbn [FileIndexer.index CodebaseIndex.fileIndex] in He.
    eapply Permutation_in in He; [| apply sort_perm].
    destruct (RunInvariants.collected_entries options input e He)
      as (f0 & now & _ & _ & Hix & ->).
    pose proof (PatternFacts.isIndexed_no_custom_match options _ p Hix Hp) as Hm.
    unfold FileIndexer.createFileIndexEntry, FileIndexer.normalized in *.
    cbn [FileIndexEntry.path FileEntry.path] in *.
    rewrite NormalizeFacts.normalizePath_twice. exact Hm. }
  split.
  - intros e p He Hp. pose proof (Hall e p He Hp) as Hm.
    split; [exact Hm |]. intros Hstar.
    unfold FileIndexer.customPatternMatches in Hm. rewrite Hstar in Hm.
    congruence.
  - intros Hempty.
    destruct (CodebaseIndex.fileIndex (FileIndexer.index r)) as [|e l];
      [reflexivity |].
    pose proof (Hall e [] (or_introl eq_refl) Hempty) as Hm.
    unfold FileIndexer.customPatternMatches in Hm. cbn [includes startsWith] in Hm.
    destruct (FileIndexEntry.path e); discriminate.
Qed.

Lemma custom_patterns_keep_out_witness :
  exists r : FileIndexer.IndexingResult,
    @FileIndexer.indexCodebase Sample.host Sample2.emptyPattern
      Sample.mockCodebaseInput = Ok r
    /\ FileIndexer.filesIgnored (FileIndexer.statistics r) = 8
    /\ CodebaseIndex.fileIndex (FileIndexer.index r) = [].
Proof.
  eexists. split; [vm_compute; reflexivity |].
  split; [vm_compute; reflexivity |].
  exact (proj2 (custom_patterns_keep_out Sample.host Sample2.emptyPattern
                  Sample.mockCodebaseInput _ eq_refl)
           (or_introl eq_refl)).
Defined.

(* ===================================================================== *)
(** * The error handler *)
(* ===================================================================== *)

(** X24. [ErrorHandler.handleError] on an [InfrastructureError] writes
    the context into the message of the error object itself: after [n]
    calls with a context that is not empty the message carries the
    context [n] times in front, and the response of a further call
    without context shows it; the code, the category, the flag
    [recoverable], the suggestions and the partial results stay as they
    were. *)
Theorem handleError_context_accumulates :
  forall (e : InfrastructureError) (context : jsstring) (n : nat),
    context <> [] ->
    exists e' : InfrastructureError,
      ErrorHandler.handledTimes n context (ErrorHandler.Caught (Infra e))
      = ErrorHandler.Caught (Infra e')
      /\ message e'
         = List.concat (List.repeat (context ++ lit ": ") n) ++ message e
      /\ code e' = code e
      /\ errCategory e' = errCategory e
      /\ recoverable e' = recoverable e
      /\ suggestions e' = suggestions e
      /\ partialResults e' = partialResults e
      /\ fst (ErrorHandler.handleError (ErrorHandler.Caught (Infra e')) None)
         = ErrorHandler.toErrorResponse e'.
Proof.
  intros e context n Hctx.
  destruct context as [|c context]; [congruence |].
  induction n as [|n (e' & Hn & Hm & Hc & Hcat & Hr & Hs & Hp & _)].
  - exists e. repeat split.
  - change (ErrorHandler.handledTimes (S n) (c :: context)
              (ErrorHandler.Caught (Infra e)))
      with (snd (ErrorHandler.handleError
                   (ErrorHandler.handledTimes n (c :: context)
                      (ErrorHandler.Caught (Infra e)))
                   (Some (c :: context)))).
    rewrite Hn. cbn [ErrorHandler.handleError snd].
    eexists. split; [reflexivity |].
    cbn [ErrorHandler.fromUnknownError ErrorHandler.withContext message code
         errCategory recoverable suggestions partialResults].
    rewrite Hm. repeat split; try assumption.
    cbn [List.repeat List.concat]. rewrite <- !List.app_assoc. reflexivity.
Qed.

Lemma handleError_context_accumulates_witness :
  exists e' : InfrastructureError,
    ErrorHandler.handledTimes 2 (lit "indexing")
      (ErrorHandler.Caught
         (Infra (ErrorFactory.createAnalysisError ErrorCodes.FILE_INDEXING_FAILED
                   (lit "No files") false [] None)))
    = ErrorHandler.Caught (Infra e')
    /\ message e' = lit "indexing: indexing: No files".
Proof.
  destruct (handleError_context_accumulates
              (ErrorFactory.createAnalysisError ErrorCodes.FILE_INDEXING_FAILED
                 (lit "No files") false [] None)
              (lit "indexing") 2)
    as (e' & He & Hm & _); [discriminate |].
  exists e'. split; [exact He | exact Hm].
Defined.

(** X25. [handleError] on a value that is no [InfrastructureError], an
    [Error] of the runtime or any other value: the value itself is left
    as it was; the response has the code [UNKNOWN_ERROR], the category
    analysis, is not recoverable and carries one suggestion; its message
    is the message of the [Error], or [An unknown error occurred], after
    the context when there is one; and [isRecoverable] answers false. *)
Theorem handleError_other_values :
  forall (error : ErrorHandler.Unknown) (context : option jsstring),
    (forall e, error <> ErrorHandler.Caught (Infra e)) ->
    let response := fst (ErrorHandler.handleError error context) in
    let text := match error with
                | ErrorHandler.Caught t => thrownMessage t
                | ErrorHandler.NotAnError => lit "An unknown error occurred"
                end in
    snd (ErrorHandler.handleError error context) = error
    /\ ErrorHandler.responseCode response = lit "UNKNOWN_ERROR"
    /\ ErrorHandler.responseCategory response = analysis
    /\ ErrorHandler.responseRecoverable response = false
    /\ length (ErrorHandler.responseSuggestions response) = 1%nat
    /\ ErrorHandler.responsePartialResults response = None
    /\ ErrorHandler.responseMessage response
       = (if truthy context then orEmpty context ++ lit ": " ++ text else text)
    /\ ErrorHandler.isRecoverable error = false.
Proof.
  intros error context Hother.
  destruct error as [[msg | e]|]; [| exfalso; apply (Hother e); reflexivity |];
    destruct context as [[|c context]|]; cbv zeta; repeat split.
Qed.

Lemma handleError_other_values_witness :
  ErrorHandler.responseMessage
    (fst (ErrorHandler.handleError
            (ErrorHandler.Caught (SyntaxError (lit "Nothing to repeat")))
            (Some (lit "glob"))))
  = lit "glob: Nothing to repeat".
Proof.
  assert (Hother : forall e,
             ErrorHandler.Caught (SyntaxError (lit "Nothing to repeat"))
             <> ErrorHandler.Caught (Infra e))
    by (intros e; discriminate).
  pose proof (handleError_other_values
                (ErrorHandler.Caught (SyntaxError (lit "Nothing to repeat")))
                (Some (lit "glob")) Hother) as Hh.
  cbv zeta in Hh. destruct Hh as (_ & _ & _ & _ & _ & _ & Hm & _).
  exact Hm.
Defined.

(** The error of an empty codebase, handled with a context. *)
Example handleError_no_files :
  exists e,
    @FileIndexer.indexCodebase Sample.host FileIndexer.defaultOptions
      {| files := []; metadataName := lit "empty" |} = Throw (Infra e)
    /\ ErrorHandler.responseMessage
         (fst (ErrorHandler.handleError (ErrorHandler.Caught (Infra e))
                 (Some (lit "index"))))
       = lit "index: File indexing failed: No files provided for indexing"
    /\ ErrorHandler.isRecoverable (ErrorHandler.Caught (Infra e)) = false.
Proof. eexists. split; [reflexivity |]. split; reflexivity. Qed.

(* ===================================================================== *)
(** * The two caches do not disturb each other *)
(* ===================================================================== *)

(** X26. What a call of the cache manager leaves alone.  A lookup of an
    AST changes no cache.  A lookup of an analysis leaves the cache of
    ASTs alone and changes the cache of analyses in one case only: when
    the entry that it looks up has expired, it deletes that entry; so
    the answer for every other hash stays what it was, and so does the
    answer for every AST.  Storing an AST for one path changes the
    answer for no other path and for no analysis; storing an analysis
    changes the answer for no other hash and for no AST. *)
Theorem cache_calls_are_local :
  forall (AST AnalysisResult : Type)
         (st : InMemoryCacheManager.State AST AnalysisResult),
    (forall p t,
        InMemoryCacheManager.astCache (fst (InMemoryCacheManager.getCachedAST st p t))
        = InMemoryCacheManager.astCache st
        /\ InMemoryCacheManager.analysisCache
             (fst (InMemoryCacheManager.getCachedAST st p t))
           = InMemoryCacheManager.analysisCache st)
    /\ (forall now h,
           InMemoryCacheManager.astCache
             (fst (InMemoryCacheManager.getCachedAnalysis st now h))
           = InMemoryCacheManager.astCache st
           /\ InMemoryCacheManager.analysisCache
                (fst (InMemoryCacheManager.getCachedAnalysis st now h))
              = match InMemoryCacheManager.analysisCache st !! h with
                | Some cached =>
                    if now - InMemoryCacheManager.timestamp cached
                       <? InMemoryCacheManager.maxAge
                    then InMemoryCacheManager.analysisCache st
                    else delete h (InMemoryCacheManager.analysisCache st)
                | None => InMemoryCacheManager.analysisCache st
                end)
    /\ (forall now h now' h',
           h' <> h ->
           snd (InMemoryCacheManager.getCachedAnalysis
                  (fst (InMemoryCacheManager.getCachedAnalysis st now h)) now' h')
           = snd (InMemoryCacheManager.getCachedAnalysis st now' h'))
    /\ (forall now h p t,
           snd (InMemoryCacheManager.getCachedAST
                  (fst (InMemoryCacheManager.getCachedAnalysis st now h)) p t)
           = snd (InMemoryCacheManager.getCachedAST st p t))
    /\ (forall p t now h,
           snd (InMemoryCacheManager.getCachedAnalysis
                  (fst (InMemoryCacheManager.getCachedAST st p t)) now h)
           = snd (InMemoryCacheManager.getCachedAnalysis st now h))
    /\ (forall now p a t q t',
           q <> p ->
           snd (InMemoryCacheManager.getCachedAST
                  (InMemoryCacheManager.setCachedAST st now p a t) q t')
           = snd (InMemoryCacheManager.getCachedAST st q t'))
    /\ (forall now p a t now' h,
           snd (InMemoryCacheManager.getCachedAnalysis
                  (InMemoryCacheManager.setCachedAST st now p a t) now' h)
           = snd (InMemoryCacheManager.getCachedAnalysis st now' h))
    /\ (forall now h r p t,
           snd (InMemoryCacheManager.getCachedAST
                  (InMemoryCacheManager.setCachedAnalysis st now h r) p t)
           = snd (InMemoryCacheManager.getCachedAST st p t))
    /\ (forall now h r now' h',
           h' <> h ->
           snd (InMemoryCacheManager.getCachedAnalysis
                  (InMemoryCacheManager.setCachedAnalysis st now h r) now' h')
           = snd (InMemoryCacheManager.getCachedAnalysis st now' h')).
Proof.
  intros AST AnalysisResult st.
  assert (Hast : forall p t,
             InMemoryCacheManager.astCache
               (fst (InMemoryCacheManager.getCachedAST st p t))
             = InMemoryCacheManager.astCache st
             /\ InMemoryCacheManager.analysisCache
                  (fst (InMemoryCacheManager.getCachedAST st p t))
                = InMemoryCacheManager.analysisCache st).
  { intros p t. unfold InMemoryCacheManager.getCachedAST.
    destruct (InMemoryCacheManager.astCache st !! p) as [cached|];
      [destruct (timeStrictEq _ _) |]; split; reflexivity. }
  assert (Hanalysis : forall now h,
             InMemoryCacheManager.astCache
               (fst (InMemoryCacheManager.getCachedAnalysis st now h))
             = InMemoryCacheManager.astCache st
             /\ InMemoryCacheManager.analysisCache
                  (fst (InMemoryCacheManager.getCachedAnalysis st now h))
                = match InMemoryCacheManager.analysisCache st !! h with
                  | Some cached =>
                      if now - InMemoryCacheManager.timestamp cached
                         <? InMemoryCacheManager.maxAge
                      then InMemoryCacheManager.analysisCache st
                      else delete h (InMemoryCacheManager.analysisCache st)
                  | None => InMemoryCacheManager.analysisCache st
                  end).
  { intros now h. unfold InMemoryCacheManager.getCachedAnalysis.
    destruct (InMemoryCacheManager.analysisCache st !! h) as [cached|];
      [destruct (_ <? _) |]; split; reflexivity. }
  split; [exact Hast |]. split; [exact Hanalysis |].
  split; [| split; [| split; [| split; [| split; [| split]]]]].
  - intros now h now' h' Hh.
    unfold InMemoryCacheManager.getCachedAnalysis at 1 3.
    rewrite (proj2 (Hanalysis now h)).
    assert (Hother : match InMemoryCacheManager.analysisCache st !! h with
                     | Some cached =>
                         if now - InMemoryCacheManager.timestamp cached
                            <? InMemoryCacheManager.maxAge
                         then InMemoryCacheManager.analysisCache st
                         else delete h (InMemoryCacheManager.analysisCache st)
                     | None => InMemoryCacheManager.analysisCache st
                     end !! h'
                     = InMemoryCacheManager.analysisCache st !! h').
    { destruct (InMemoryCacheManager.analysisCache st !! h) as [cached|];
        [destruct (_ <? _) |]; try reflexivity.
      apply lookup_delete_ne. congruence. }
    rewrite Hother.
    destruct (InMemoryCacheManager.analysisCache st !! h') as [cached|];
      [destruct (_ <? _) |]; reflexivity.
  - intros now h p t. unfold InMemoryCacheManager.getCachedAST.
    rewrite (proj1 (Hanalysis now h)).
    destruct (InMemoryCacheManager.astCache st !! p) as [cached|];
      [destruct (timeStrictEq _ _) |]; reflexivity.
  - intros p t now h. unfold InMemoryCacheManager.getCachedAnalysis.
    rewrite (proj2 (Hast p t)).
    destruct (InMemoryCacheManager.analysisCache st !! h) as [cached|];
      [destruct (_ <? _) |]; reflexivity.
  - intros now p a t q t' Hq. unfold InMemoryCacheManager.getCachedAST.
    cbn [InMemoryCacheManager.setCachedAST InMemoryCacheManager.astCache].
    rewrite lookup_insert_ne by congruence.
    destruct (InMemoryCacheManager.astCache st !! q) as [cached|];
      [destruct (timeStrictEq _ _) |]; reflexivity.
  - intros now p a t now' h. unfold InMemoryCacheManager.getCachedAnalysis.
    cbn [InMemoryCacheManager.setCachedAST InMemoryCacheManager.analysisCache].
    destruct (InMemoryCacheManager.analysisCache st !! h) as [cached|];
      [destruct (_ <? _) |]; reflexivity.
  - intros now h r p t. unfold InMemoryCacheManager.getCachedAST.
    cbn [InMemoryCacheManager.setCachedAnalysis InMemoryCacheManager.astCache].
    destruct (InMemoryCacheManager.astCache st !! p) as [cached|];
      [destruct (timeStrictEq _ _) |]; reflexivity.
  - intros now h r now' h' Hh. unfold InMemoryCacheManager.getCachedAnalysis.
    cbn [InMemoryCacheManager.setCachedAnalysis InMemoryCacheManager.analysisCache].
    rewrite lookup_insert_ne by congruence.
    destruct (InMemoryCacheManager.analysisCache st !! h') as [cached|];
      [destruct (_ <? _) |]; reflexivity.
Qed.

(** The lookup of an analysis that was stored an hour before deletes
    it: the cache of analyses is empty afterwards. *)
Example getCachedAnalysis_changes_the_cache :
  let st := InMemoryCacheManager.setCachedAnalysis
              (@InMemoryCacheManager.empty unit Z) 0 (lit "h") 7 in
  InMemoryCacheManager.analysisCache st !! lit "h"
  = Some {| InMemoryCacheManager.result := 7; InMemoryCacheManager.timestamp := 0 |}
  /\ InMemoryCacheManager.analysisCache
       (fst (InMemoryCacheManager.getCachedAnalysis st 3600000 (lit "h")))
     !! lit "h" = None.
Proof. split; vm_compute; reflexivity. Qed.

(* ===================================================================== *)
(** * The language of a path *)
(* ===================================================================== *)

Module LanguageFacts.
Import DefaultFileUtils.

Lemma lookupKey_In {A : Type} (record : list (jsstring * A)) (key : jsstring)
    (v : A) :
  lookupKey record key = Some v -> In (key, v) record.
Proof.
  induction record as [|[k w] record IH]; cbn [lookupKey]; [discriminate |].
  destruct (streq key k) eqn:E.
  - intros [= ->]. apply streq_eq in E. subst. left. reflexivity.
  - intros Hl. right. apply IH. exact Hl.
Qed.

(** The extension that the lookup works on, for a path that ends with a
    dot and a text without a dot. *)
Lemma extension_after_dot (base ext : jsstring) :
  ~ In dot ext -> pop (split dot (base ++ dot :: ext)) = Some ext.
Proof.
  intros Hext.
  rewrite NameFacts.split_app, NameFacts.pop_app by apply NameFacts.split_nonempty.
  rewrite (NameFacts.split_one dot ext Hext). reflexivity.
Qed.

End LanguageFacts.

(** X27. [getLanguageFromPath] reads the text after the last dot: for
    each of the twenty extensions of its table, a runtime whose
    [toLowerCase] leaves the extension as it is, and any text in front
    of the dot, the answer is the language of the table.  Whatever the
    path and the runtime, an answer that is a text is a language of the
    table; the only other answers are [undefined] and, for an extension
    that names a member of [Object.prototype], that inherited member,
    which the lookup in the table finds as well. *)
Theorem getLanguageFromPath_extension :
  forall H : Host,
    (forall base ext lang : jsstring,
        In (ext, lang) DefaultFileUtils.languageMap ->
        toLowerCase ext = ext ->
        DefaultFileUtils.getLanguageFromPath (base ++ dot :: ext) = Own lang)
    /\ (forall path : jsstring,
           match DefaultFileUtils.getLanguageFromPath path with
           | Own answer => In answer (List.map snd DefaultFileUtils.languageMap)
           | Inherited member =>
               In member objectPrototypeMembers
               /\ option_map toLowerCase (pop (split dot path)) = Some member
           | Undefined => True
           end)
    /\ (forall base member : jsstring,
           In member objectPrototypeMembers ->
           toLowerCase member = member ->
           DefaultFileUtils.getLanguageFromPath (base ++ dot :: member)
           = Inherited member).
Proof.
  intros H. split; [| split].
  - intros base ext lang Hin Hlower. unfold DefaultFileUtils.getLanguageFromPath.
    assert (Hfacts : ~ In dot ext /\ ext <> []
                     /\ DefaultFileUtils.lookupKey DefaultFileUtils.languageMap ext
                        = Some lang).
    { revert Hin. unfold DefaultFileUtils.languageMap. cbn [In]. intros Hin.
      repeat (destruct Hin as [[= <- <-] | Hin];
              [split; [vm_compute; intuition discriminate
                      | split; [discriminate | reflexivity]] |]).
      destruct Hin. }
    destruct Hfacts as (Hdot & Hne & Hlookup).
    rewrite (LanguageFacts.extension_after_dot base ext Hdot).
    cbn [option_map]. rewrite Hlower.
    destruct ext; [congruence |]. rewrite Hlookup. reflexivity.
  - intros path.
    destruct (DefaultFileUtils.getLanguageFromPath path) as [l | member |] eqn:E;
      [| | exact I].
    + apply (StatisticsFacts.language_of_table path l E).
    + unfold DefaultFileUtils.getLanguageFromPath in E.
      destruct (option_map toLowerCase (pop (split dot path))) as [[|c e]|];
        try discriminate.
      unfold getProperty in E.
      destruct (DefaultFileUtils.lookupKey DefaultFileUtils.languageMap (c :: e));
        [discriminate |].
      destruct (isObjectPrototypeMember (c :: e)) eqn:Em; [| discriminate].
      injection E as <-. split; [| reflexivity].
      apply arrayIncludes_In. exact Em.
  - intros base member Hin Hlower. unfold DefaultFileUtils.getLanguageFromPath.
    assert (Hfacts : ~ In dot member /\ member <> []
                     /\ DefaultFileUtils.lookupKey DefaultFileUtils.languageMap
                          member = None).
    { revert Hin. unfold objectPrototypeMembers. cbn [In]. intros Hin.
      repeat (destruct Hin as [<- | Hin];
              [split; [vm_compute; intuition discriminate
                      | split; [discriminate | reflexivity]] |]).
      destruct Hin. }
    destruct Hfacts as (Hdot & Hne & Hlookup).
    rewrite (LanguageFacts.extension_after_dot base member Hdot).
    cbn [option_map]. rewrite Hlower.
    destruct member as [|c m]; [congruence |]. rewrite Hlookup.
    unfold getProperty, isObjectPrototypeMember.
    rewrite (proj2 (arrayIncludes_In _ _) Hin). reflexivity.
Qed.

Lemma getLanguageFromPath_extension_witness :
  @DefaultFileUtils.getLanguageFromPath Sample.host (lit "src/main.rs")
  = Own (lit "rust").
Proof.
  refine (proj1 (getLanguageFromPath_extension Sample.host) (lit "src/main")
            (lit "rs") (lit "rust") _ eq_refl).
  vm_compute. tauto.
Defined.

(** The extension is what follows the last dot of the whole path, so a
    path without a dot is its own extension, and upper case counts as
    lower case on the sample runtime; the extension [constructor] finds
    the member that the table inherits. *)
Example getLanguageFromPath_samples :
  @DefaultFileUtils.getLanguageFromPath Sample.host (lit "go") = Own (lit "go")
  /\ @DefaultFileUtils.getLanguageFromPath Sample.host (lit "a.b/c") = Undefined
  /\ @DefaultFileUtils.getLanguageFromPath Sample.host (lit "Main.JAVA")
     = Own (lit "java")
  /\ @DefaultFileUtils.getLanguageFromPath Sample.host (lit "x.constructor")
     = Inherited (lit "constructor").
Proof. repeat split. Qed.
